(** * simplechat: conversation routing and human handoff

    A shallow embedding of the backend's handoff service
    (app/services/handoff_service.py), its REST routes
    (app/api/routes/handoff.py), the connection manager
    (app/services/websocket_manager.py), the conversation detail extraction
    (app/services/conversation_details_service.py), the chat service
    (app/services/chat_service.py), the chat routes and the WebSocket relay
    (app/api/routes/chat.py) and the topic classification task
    (app/tasks.py).

    The relational store is a record of tables, each table a list of rows in
    insertion order.  A SQLModel [session] is threaded explicitly: every
    function takes the store and returns the store it leaves behind.  A row
    that the source mutates and commits is written back by primary key.
    [datetime.utcnow()] is the argument [now]; Python exceptions are the
    [Raise] results of the type [result]. *)

From Stdlib Require Import String Ascii List Bool Arith Lia Sorted.
From stdpp Require Import base tactics option list relations gmap strings.
Import ListNotations.

Local Open Scope string_scope.
Local Open Scope list_scope.

(** ** Python values *)

(** Truth value of an [Optional[str]]: [None] and the empty string are
    false. *)
Definition truthy (o : option string) : bool :=
  match o with
  | Some s => negb (String.eqb s "")
  | None => false
  end.

(** The exceptions the modelled code raises. *)
Inductive exn :=
| ValueError (msg : string)
| HTTPException (status_code : nat) (detail : string)
| IntegrityError
| UpstreamError (msg : string).

Inductive result (A : Type) :=
| Ok (a : A)
| Raise (e : exn).
Arguments Ok {A} a.
Arguments Raise {A} e.

Global Instance result_ret : MRet result := fun A a => Ok a.
Global Instance result_bind : MBind result := fun A B k r =>
  match r with
  | Ok a => k a
  | Raise e => Raise e
  end.

(** [str(e)] *)
Definition str (e : exn) : string :=
  match e with
  | ValueError msg => msg
  | HTTPException _ detail => detail
  | IntegrityError => "IntegrityError"
  | UpstreamError msg => msg
  end.

(** ** The tables of app/models.py *)

Module Conversation.
Record t := mk {
    uuid : string;
    chatbot_uuid : string;
    customer_name : option string;
    customer_email : option string;
    customer_phone : option string;
    session_id : string;
    client_uuid : option string;
    status : string;
    handoff_status : string;
    assigned_to_user_uuid : option string;
    created_at : nat;
    updated_at : nat
  }.

Definition set_customer_name (v : option string) (c : t) : t :=
    mk (uuid c) (chatbot_uuid c) v (customer_email c) (customer_phone c)
       (session_id c) (client_uuid c) (status c) (handoff_status c)
       (assigned_to_user_uuid c) (created_at c) (updated_at c).
Definition set_customer_email (v : option string) (c : t) : t :=
    mk (uuid c) (chatbot_uuid c) (customer_name c) v (customer_phone c)
       (session_id c) (client_uuid c) (status c) (handoff_status c)
       (assigned_to_user_uuid c) (created_at c) (updated_at c).
Definition set_customer_phone (v : option string) (c : t) : t :=
    mk (uuid c) (chatbot_uuid c) (customer_name c) (customer_email c) v
       (session_id c) (client_uuid c) (status c) (handoff_status c)
       (assigned_to_user_uuid c) (created_at c) (updated_at c).
Definition set_handoff_status (v : string) (c : t) : t :=
    mk (uuid c) (chatbot_uuid c) (customer_name c) (customer_email c)
       (customer_phone c) (session_id c) (client_uuid c) (status c) v
       (assigned_to_user_uuid c) (created_at c) (updated_at c).
Definition set_assigned_to_user_uuid (v : option string) (c : t) : t :=
    mk (uuid c) (chatbot_uuid c) (customer_name c) (customer_email c)
       (customer_phone c) (session_id c) (client_uuid c) (status c)
       (handoff_status c) v (created_at c) (updated_at c).
Definition set_updated_at (v : nat) (c : t) : t :=
    mk (uuid c) (chatbot_uuid c) (customer_name c) (customer_email c)
       (customer_phone c) (session_id c) (client_uuid c) (status c)
       (handoff_status c) (assigned_to_user_uuid c) (created_at c) v.
End Conversation.

Module Message.
Record t := mk {
    id : nat;
    conversation_uuid : string;
    role : string;
    content : string;
    feedback : option string;
    created_at : nat;
    topic : option string
  }.

Definition set_feedback (v : option string) (m : t) : t :=
    mk (id m) (conversation_uuid m) (role m) (content m) v (created_at m)
       (topic m).
Definition set_topic (v : option string) (m : t) : t :=
    mk (id m) (conversation_uuid m) (role m) (content m) (feedback m)
       (created_at m) v.
End Message.

Module HandoffRequest.
Record t := mk {
    id : nat;
    conversation_uuid : string;
    chatbot_uuid : string;
    status : string;
    requested_at : nat;
    accepted_at : option nat;
    accepted_by_user_uuid : option string;
    resolved_at : option nat;
    reason : option string
  }.

  (** The three assignments of [accept_handoff_request]. *)
Definition accept (now : nat) (user_uuid : string) (r : t) : t :=
    mk (id r) (conversation_uuid r) (chatbot_uuid r) "accepted"
       (requested_at r) (Some now) (Some user_uuid) (resolved_at r)
       (reason r).
End HandoffRequest.

Module Chatbot.
Record t := mk {
    uuid : string;
    is_active : bool;
    (** message credits left to the owner of the chatbot's workspace; the
        credit service is an external collaborator and only this number of it
        is kept *)
    message_credits_remaining : nat
  }.
End Chatbot.

Module TopicStat.
Record t := mk {
    chatbot_uuid : string;
    topic : string;
    message_count : nat;
    updated_at : nat
  }.
End TopicStat.

(** The store.  [next_message_id] and [next_handoff_request_id] are the
    sequences behind the two auto-incremented primary keys. *)
Record DB := mkDB {
  chatbots : list Chatbot.t;
  conversations : list Conversation.t;
  messages : list Message.t;
  handoff_requests : list HandoffRequest.t;
  topic_stats : list TopicStat.t;
  next_message_id : nat;
  next_handoff_request_id : nat
}.

Definition empty_db : DB := mkDB [] [] [] [] [] 1 1.

Definition with_chatbots (v : list Chatbot.t) (db : DB) : DB :=
  mkDB v (conversations db) (messages db) (handoff_requests db)
       (topic_stats db) (next_message_id db) (next_handoff_request_id db).
Definition with_conversations (v : list Conversation.t) (db : DB) : DB :=
  mkDB (chatbots db) v (messages db) (handoff_requests db) (topic_stats db)
       (next_message_id db) (next_handoff_request_id db).
Definition with_messages (v : list Message.t) (db : DB) : DB :=
  mkDB (chatbots db) (conversations db) v (handoff_requests db)
       (topic_stats db) (next_message_id db) (next_handoff_request_id db).
Definition with_handoff_requests (v : list HandoffRequest.t) (db : DB) : DB :=
  mkDB (chatbots db) (conversations db) (messages db) v (topic_stats db)
       (next_message_id db) (next_handoff_request_id db).
Definition with_topic_stats (v : list TopicStat.t) (db : DB) : DB :=
  mkDB (chatbots db) (conversations db) (messages db) (handoff_requests db)
       v (next_message_id db) (next_handoff_request_id db).

(** *** Queries and writes *)

(** [select(Conversation).where(Conversation.uuid == u)).first()] *)
Definition get_conversation (u : string) (db : DB) : option Conversation.t :=
  find (fun c => String.eqb (Conversation.uuid c) u) (conversations db).

(** [select(HandoffRequest).where(HandoffRequest.id == i)).first()] *)
Definition get_handoff_request (i : nat) (db : DB) : option HandoffRequest.t :=
  find (fun r => Nat.eqb (HandoffRequest.id r) i) (handoff_requests db).

(** [select(Message).where(Message.id == i)).first()] *)
Definition get_message (i : nat) (db : DB) : option Message.t :=
  find (fun m => Nat.eqb (Message.id m) i) (messages db).

Definition get_chatbot (u : string) (db : DB) : option Chatbot.t :=
  find (fun b => String.eqb (Chatbot.uuid b) u) (chatbots db).

(** An ORM object is a handle on its row: assigning attributes of a
    persistent object and committing is an UPDATE of those columns of the row
    with the object's primary key.  The column default [onupdate] of
    [Conversation.updated_at] (models.py 199), which moves [updated_at] to
    the time of every UPDATE of the row, is not part of the embedding:
    [updated_at] changes only where the code assigns it. *)
Definition modify_conversation (u : string)
    (f : Conversation.t -> Conversation.t) (db : DB) : DB :=
  with_conversations
    (map (fun c => if String.eqb (Conversation.uuid c) u then f c else c)
         (conversations db)) db.

Definition modify_handoff_request (i : nat)
    (f : HandoffRequest.t -> HandoffRequest.t) (db : DB) : DB :=
  with_handoff_requests
    (map (fun r => if Nat.eqb (HandoffRequest.id r) i then f r else r)
         (handoff_requests db)) db.

Definition modify_message (i : nat) (f : Message.t -> Message.t) (db : DB)
    : DB :=
  with_messages
    (map (fun m => if Nat.eqb (Message.id m) i then f m else m)
         (messages db)) db.

Definition modify_chatbot (u : string) (f : Chatbot.t -> Chatbot.t) (db : DB)
    : DB :=
  with_chatbots
    (map (fun b => if String.eqb (Chatbot.uuid b) u then f b else b)
         (chatbots db)) db.

(** [session.add(Message(conversation_uuid=..., role=..., content=...));
    session.commit()]: an INSERT; feedback and topic default to [None]. *)
Definition insert_message (now : nat) (conversation_uuid role content : string)
    (db : DB) : Message.t * DB :=
  let m := Message.mk (next_message_id db) conversation_uuid role content
                      None now None in
  (m, mkDB (chatbots db) (conversations db) (messages db ++ [m])
           (handoff_requests db) (topic_stats db)
           (S (next_message_id db)) (next_handoff_request_id db)).

(** ** app/services/handoff_service.py *)

Module HandoffService.

Definition pending_for (conversation_uuid : string) (r : HandoffRequest.t)
      : bool :=
    String.eqb (HandoffRequest.conversation_uuid r) conversation_uuid
    && String.eqb (HandoffRequest.status r) "pending".

Definition create_handoff_request (now : nat)
      (conversation_uuid chatbot_uuid : string) (reason : option string)
      (db : DB) : HandoffRequest.t * DB :=
    match find (pending_for conversation_uuid) (handoff_requests db) with
    | Some existing => (existing, db)
    | None =>
        let handoff_request :=
          HandoffRequest.mk (next_handoff_request_id db) conversation_uuid
            chatbot_uuid "pending" now None None None reason in
        let db1 :=
          match get_conversation conversation_uuid db with
          | Some conversation =>
              modify_conversation (Conversation.uuid conversation)
                (Conversation.set_handoff_status "requested") db
          | None => db
          end in
        (handoff_request,
         mkDB (chatbots db1) (conversations db1) (messages db1)
              (handoff_requests db1 ++ [handoff_request]) (topic_stats db1)
              (next_message_id db1) (S (next_handoff_request_id db1)))
    end.

  (** A raise leaves the session without pending changes: the store is
      returned as it was. *)
Definition accept_handoff_request (now : nat) (handoff_request_id : nat)
      (user_uuid : string) (db : DB) : result HandoffRequest.t * DB :=
    match get_handoff_request handoff_request_id db with
    | None => (Raise (ValueError "Handoff request not found"), db)
    | Some handoff_request =>
        if negb (String.eqb (HandoffRequest.status handoff_request) "pending")
        then (Raise (ValueError
                       (String.append "Handoff request is already "
                          (HandoffRequest.status handoff_request))),
              db)
        else
          let db1 :=
            match get_conversation
                    (HandoffRequest.conversation_uuid handoff_request) db with
            | Some conversation =>
                modify_conversation (Conversation.uuid conversation)
                  (fun c => Conversation.set_assigned_to_user_uuid
                              (Some user_uuid)
                              (Conversation.set_handoff_status "human" c))
                  db
            | None => db
            end in
          (Ok (HandoffRequest.accept now user_uuid handoff_request),
           modify_handoff_request (HandoffRequest.id handoff_request)
             (HandoffRequest.accept now user_uuid) db1)
    end.

  (** Rows sorted by [requested_at] descending (a stable insertion sort, so
      that rows with equal time stamps keep their table order). *)
Fixpoint insert_desc (r : HandoffRequest.t) (l : list HandoffRequest.t)
      : list HandoffRequest.t :=
    match l with
    | [] => [r]
    | r0 :: l' =>
        if Nat.leb (HandoffRequest.requested_at r0) (HandoffRequest.requested_at r)
        then r :: l
        else r0 :: insert_desc r l'
    end.

Definition order_by_requested_at_desc (l : list HandoffRequest.t)
      : list HandoffRequest.t :=
    fold_right insert_desc [] l.

Definition get_pending_handoff_requests (chatbot_uuid : string) (db : DB)
      : list HandoffRequest.t :=
    order_by_requested_at_desc
      (List.filter
         (fun r => String.eqb (HandoffRequest.chatbot_uuid r) chatbot_uuid
                   && String.eqb (HandoffRequest.status r) "pending")
         (handoff_requests db)).

Definition get_handoff_request_by_conversation (conversation_uuid : string)
      (db : DB) : option HandoffRequest.t :=
    head (order_by_requested_at_desc
            (List.filter
               (fun r => String.eqb (HandoffRequest.conversation_uuid r)
                                    conversation_uuid)
               (handoff_requests db))).

Definition send_agent_message (now : nat)
      (conversation_uuid agent_user_uuid content : string) (db : DB)
      : result Message.t * DB :=
    match get_conversation conversation_uuid db with
    | None => (Raise (ValueError "Conversation not found"), db)
    | Some conversation =>
        if negb (String.eqb (Conversation.handoff_status conversation) "human")
        then (Raise (ValueError "Conversation is not in human handoff mode"),
              db)
        else if negb (bool_decide
                        (Conversation.assigned_to_user_uuid conversation
                         = Some agent_user_uuid))
        then (Raise (ValueError "You are not assigned to this conversation"),
              db)
        else
          let db1 :=
            modify_conversation (Conversation.uuid conversation)
              (Conversation.set_updated_at now) db in
          let '(message, db2) :=
            insert_message now conversation_uuid "agent" content db1 in
          (Ok message, db2)
    end.

End HandoffService.

(** ** Effects

    What a route or the relay does besides reading and writing the store is
    recorded, in order, as a list of effects: the calls to the connection
    manager, the frames written to the route's own socket, and the calls to
    the language-model collaborators. *)

(** The JSON payloads, by their ["type"] field (time stamps left out). *)
Module Frame.
Inductive t :=
  | connection (status : string)
  | conversation_created (conversation_uuid : string)
  | typing (is_typing : bool)
  | message_chunk (role content : string)
  | message_complete (role content : string) (id : option nat)
  | message (role content : string)
  | new_message (conversation_uuid chatbot_uuid role : string)
  | error (message : string)
  | pong.
End Frame.
Abbreviation frame := Frame.t.

Inductive effect :=
| SendMessage (payload : frame) (session_id : string)
| BroadcastToDashboard (payload : frame) (chatbot_uuid : string)
| WebsocketSendJson (payload : frame)
| ClassifierInvoked (user_message : string)
| GeneratorInvoked (user_message : string)
| TopicClassificationEnqueued (message_id : nat).

(** A computation over the store that may raise and that logs its effects. *)
Definition M (A : Type) : Type := DB -> result A * DB * list effect.

Global Instance M_ret : MRet M := fun A a db => (Ok a, db, []).
Global Instance M_bind : MBind M := fun A B k m db =>
  match m db with
  | (Ok a, db1, t1) =>
      match k a db1 with
      | (r, db2, t2) => (r, db2, t1 ++ t2)
      end
  | (Raise e, db1, t1) => (Raise e, db1, t1)
  end.

Definition raise {A} (e : exn) : M A := fun db => (Raise e, db, []).
Definition emit (ef : effect) : M unit := fun db => (Ok tt, db, [ef]).
Definition query {A} (q : DB -> A) : M A := fun db => (Ok (q db), db, []).
Definition write {A} (w : DB -> A * DB) : M A :=
  fun db => let '(a, db1) := w db in (Ok a, db1, []).
Definition attempt {A} (w : DB -> result A * DB) : M A :=
  fun db => let '(r, db1) := w db in (r, db1, []).

(** [try: body except Exception as e: handler(e)] *)
Definition try_except {A} (body : M A) (handler : exn -> M A) : M A :=
  fun db =>
    match body db with
    | (Ok a, db1, t1) => (Ok a, db1, t1)
    | (Raise e, db1, t1) =>
        match handler e db1 with
        | (r, db2, t2) => (r, db2, t1 ++ t2)
        end
    end.

(** ** app/api/routes/handoff.py

    The enrichment of a response with the customer's name, e-mail and last
    message only reads the store; the routes below return the handoff request
    rows the responses are built from.  [authorized] is the outcome of
    [workspace_service.check_workspace_access]. *)

Module HandoffRoutes.

Definition create_handoff_request (now : nat) (conversation_uuid : string)
      (reason : option string) : M HandoffRequest.t :=
    conversation ← query (get_conversation conversation_uuid);
    match conversation with
    | None => raise (HTTPException 404 "Conversation not found")
    | Some conversation =>
        write (HandoffService.create_handoff_request now conversation_uuid
                 (Conversation.chatbot_uuid conversation) reason)
    end.

  (** The loop over [conversations_requested]. *)
Fixpoint reconcile (now : nat) (chatbot_uuid : string)
      (existing_conversation_uuids : list string)
      (conversations_requested : list Conversation.t)
      (requests : list HandoffRequest.t) : M (list HandoffRequest.t) :=
    match conversations_requested with
    | [] => mret requests
    | conv :: rest =>
        if existsb (String.eqb (Conversation.uuid conv))
                   existing_conversation_uuids
        then reconcile now chatbot_uuid existing_conversation_uuids rest
                       requests
        else
          req ← write (HandoffService.create_handoff_request now
                         (Conversation.uuid conv) chatbot_uuid
                         (Some "Auto-created from conversation status"));
          reconcile now chatbot_uuid existing_conversation_uuids rest
                    (requests ++ [req])
    end.

Definition get_pending_handoff_requests (now : nat) (chatbot_uuid : string)
      (authorized : bool) : M (list HandoffRequest.t) :=
    chatbot ← query (get_chatbot chatbot_uuid);
    match chatbot with
    | None => raise (HTTPException 404 "Chatbot not found")
    | Some _ =>
        if negb authorized
        then raise (HTTPException 403
               "Not authorized to view this chatbot's handoff requests")
        else
          requests ← query (HandoffService.get_pending_handoff_requests
                              chatbot_uuid);
          conversations_requested ← query (fun db =>
            List.filter
              (fun c => String.eqb (Conversation.chatbot_uuid c) chatbot_uuid
                        && String.eqb (Conversation.handoff_status c)
                                      "requested")
              (conversations db));
          requests ← reconcile now chatbot_uuid
                       (map HandoffRequest.conversation_uuid requests)
                       conversations_requested requests;
          mret (HandoffService.order_by_requested_at_desc requests)
    end.

Definition accept_handoff_request (now : nat) (handoff_request_id : nat)
      (current_user_uuid : string) : M HandoffRequest.t :=
    attempt (HandoffService.accept_handoff_request now handoff_request_id
               current_user_uuid).

Definition take_over_conversation (now : nat) (conversation_uuid : string)
      (current_user_uuid : string) (authorized : bool) : M HandoffRequest.t :=
    conversation ← query (get_conversation conversation_uuid);
    match conversation with
    | None => raise (HTTPException 404 "Conversation not found")
    | Some conversation =>
        chatbot ← query (get_chatbot (Conversation.chatbot_uuid conversation));
        match chatbot with
        | None => raise (HTTPException 404 "Chatbot not found")
        | Some _ =>
            if negb authorized
            then raise (HTTPException 403
                   "Not authorized to take over this conversation")
            else
              handoff_request ← query
                (HandoffService.get_handoff_request_by_conversation
                   conversation_uuid);
              handoff_request ←
                match handoff_request with
                | Some r => mret r
                | None =>
                    write (HandoffService.create_handoff_request now
                             conversation_uuid
                             (Conversation.chatbot_uuid conversation)
                             (Some "Manual takeover"))
                end;
              if String.eqb (HandoffRequest.status handoff_request) "pending"
              then attempt (HandoffService.accept_handoff_request now
                              (HandoffRequest.id handoff_request)
                              current_user_uuid)
              else mret handoff_request
        end
    end.

  (** The agent's message is stored first; the customer's session and the
      dashboard are told afterwards (the agent's name in the frame is left
      out).  The two calls of the manager do not raise, so the handler of
      the [try] never runs. *)
Definition send_agent_message (now : nat) (conversation_uuid content : string)
      (current_user_uuid : string) : M Message.t :=
    message ← attempt (HandoffService.send_agent_message now conversation_uuid
                         current_user_uuid content);
    conversation ← query (get_conversation conversation_uuid);
    match conversation with
    | Some conversation =>
        _ ← emit (SendMessage (Frame.message "agent" content)
                    (Conversation.session_id conversation));
        _ ← emit (BroadcastToDashboard
                    (Frame.new_message conversation_uuid
                       (Conversation.chatbot_uuid conversation) "agent")
                    (Conversation.chatbot_uuid conversation));
        mret message
    | None => mret message
    end.

  (** [workspace_access] is the outcome of the workspace check; a user
      without it may still look at a conversation assigned to them. *)
Definition get_handoff_status (conversation_uuid current_user_uuid : string)
      (workspace_access : bool)
      : M (string * option string * option HandoffRequest.t) :=
    conversation ← query (get_conversation conversation_uuid);
    match conversation with
    | None => raise (HTTPException 404 "Conversation not found")
    | Some conversation =>
        chatbot ← query (get_chatbot (Conversation.chatbot_uuid conversation));
        match chatbot with
        | None => raise (HTTPException 404 "Chatbot not found")
        | Some _ =>
            if negb workspace_access
               && negb (bool_decide
                          (Conversation.assigned_to_user_uuid conversation
                           = Some current_user_uuid))
            then raise (HTTPException 403
                   "Not authorized to view this conversation")
            else
              handoff_request ← query
                (HandoffService.get_handoff_request_by_conversation
                   conversation_uuid);
              mret (Conversation.handoff_status conversation,
                    Conversation.assigned_to_user_uuid conversation,
                    handoff_request)
        end
    end.

End HandoffRoutes.

(** ** app/services/websocket_manager.py

    A [WebSocket] is identified by a number; the three dictionaries are
    finite maps and a group of connections is a finite set.  Whether
    [connection.send_json] succeeds on a socket is the predicate [alive];
    every call of it is logged together with its outcome. *)

Module ConnectionManager.

Record t := mk {
    active_connections : gmap string (gset nat);
    dashboard_connections : gmap string (gset nat);
    dashboard_session_map : gmap string string
  }.

Definition init : t := mk ∅ ∅ ∅.

  (** One call of [send_json]. *)
Record send_attempt := sent {
    connection_of : nat;
    payload_of : frame;
    delivered : bool
  }.

Definition connect (websocket : nat) (session_id : string)
      (chatbot_uuid : option string) (m : t) : t :=
    match chatbot_uuid with
    | Some cb =>
        if truthy chatbot_uuid && String.prefix "dashboard_" session_id
        then mk (active_connections m)
                (<[cb := {[websocket]} ∪ default ∅ (dashboard_connections m !! cb)]>
                   (dashboard_connections m))
                (<[session_id := cb]> (dashboard_session_map m))
        else mk (<[session_id := {[websocket]}
                                 ∪ default ∅ (active_connections m !! session_id)]>
                   (active_connections m))
                (dashboard_connections m) (dashboard_session_map m)
    | None =>
        mk (<[session_id := {[websocket]}
                            ∪ default ∅ (active_connections m !! session_id)]>
              (active_connections m))
           (dashboard_connections m) (dashboard_session_map m)
    end.

  (** [group[key].discard(websocket)], then [del group[key]] when the set
      became empty. *)
Definition discard_and_prune (websocket : nat) (key : string)
      (group : gmap string (gset nat)) : gmap string (gset nat) :=
    match group !! key with
    | Some s =>
        if bool_decide (s ∖ {[websocket]} = ∅)
        then delete key group
        else <[key := s ∖ {[websocket]}]> group
    | None => group
    end.

Definition disconnect (websocket : nat) (session_id : string) (m : t) : t :=
    match dashboard_session_map m !! session_id with
    | Some chatbot_uuid =>
        mk (active_connections m)
           (discard_and_prune websocket chatbot_uuid (dashboard_connections m))
           (delete session_id (dashboard_session_map m))
    | None =>
        mk (discard_and_prune websocket session_id (active_connections m))
           (dashboard_connections m) (dashboard_session_map m)
    end.

  (** The loop of [send_message] over the snapshot [connections]. *)
Fixpoint send_loop (alive : nat -> bool) (message : frame)
      (session_id : string) (connections : list nat) (m : t)
      : list send_attempt * t :=
    match connections with
    | [] => ([], m)
    | connection :: rest =>
        let m1 := if alive connection then m
                  else disconnect connection session_id m in
        let '(log, m2) := send_loop alive message session_id rest m1 in
        (sent connection message (alive connection) :: log, m2)
    end.

Definition send_message (alive : nat -> bool) (message : frame)
      (session_id : string) (m : t) : list send_attempt * t :=
    match active_connections m !! session_id with
    | Some s => send_loop alive message session_id (elements s) m
    | None => ([], m)
    end.

  (** The handler of a failed dashboard send: the loop over
      [dashboard_session_map.items()] stops at the first session that maps to
      [chatbot_uuid] and discards the connection there; with no such session
      it does nothing. *)
Definition remove_dead (connection : nat) (chatbot_uuid : string) (m : t)
      : t :=
    if existsb (fun kv => String.eqb (snd kv) chatbot_uuid)
               (map_to_list (dashboard_session_map m))
    then
      match dashboard_connections m !! chatbot_uuid with
      | Some s =>
          mk (active_connections m)
             (<[chatbot_uuid := s ∖ {[connection]}]> (dashboard_connections m))
             (dashboard_session_map m)
      | None => m
      end
    else m.

Fixpoint broadcast_loop (alive : nat -> bool) (message : frame)
      (chatbot_uuid : string) (connections : list nat) (m : t)
      : list send_attempt * t :=
    match connections with
    | [] => ([], m)
    | connection :: rest =>
        let m1 := if alive connection then m
                  else remove_dead connection chatbot_uuid m in
        let '(log, m2) := broadcast_loop alive message chatbot_uuid rest m1 in
        (sent connection message (alive connection) :: log, m2)
    end.

Definition broadcast_to_dashboard (alive : nat -> bool) (message : frame)
      (chatbot_uuid : string) (m : t) : list send_attempt * t :=
    match dashboard_connections m !! chatbot_uuid with
    | None => ([], m)
    | Some s =>
        if bool_decide (s = ∅) then ([], m)
        else broadcast_loop alive message chatbot_uuid (elements s) m
    end.

End ConnectionManager.

(** ** The language-model and pattern-matching collaborators

    The calls that leave the process (OpenAI, Pinecone) and the two regular
    expression searches are functions of an environment; the code around
    them is modelled in full. *)

Class Collaborators := {
  (** [EMAIL_PATTERN.search(text)], lower-cased *)
  extract_email : string -> option string;
  (** [PHONE_PATTERN.search(text)], stripped *)
  extract_phone : string -> option string;
  (** [ConversationDetailsService.extract_name]: [None] on any failure *)
  extract_name : string -> option string;
  (** [ChatService._user_explicitly_requests_handoff]: [False] on any
      failure *)
  user_explicitly_requests_handoff : string -> bool;
  (** [graph.ainvoke(initial_state)]: the last message's content and the
      [should_offer_handoff] flag, or an exception *)
  graph_ainvoke : list (string * string) -> result (string * bool);
  (** [_retrieve_context] followed by [llm.astream(messages)]: the chunks
      that arrive, and the exception that ends the stream early, if any *)
  astream : list (string * string) -> list string * option exn;
  (** the structured topic answer of [classify_message_topic]: [None] when
      the key is missing, the import or the call fails, or the topic is
      null *)
  topic_llm : string -> string -> option string
}.

(** ** String methods *)

Definition lower_ascii (c : ascii) : ascii :=
  let n := nat_of_ascii c in
  if (65 <=? n)%nat && (n <=? 90)%nat then ascii_of_nat (n + 32) else c.

(** [s.lower()] on ASCII letters *)
Fixpoint lower (s : string) : string :=
  match s with
  | EmptyString => EmptyString
  | String c s' => String (lower_ascii c) (lower s')
  end.

(** [needle in s] *)
Definition contains (needle s : string) : bool :=
  match String.index 0 needle s with
  | Some _ => true
  | None => false
  end.

(** The blanks of [str.strip()] among the ASCII characters: the space, the
    controls 9 to 13 and the separators 28 to 31.  A string is a sequence of
    bytes here, so the blanks of Unicode beyond ASCII (U+0085, U+00A0, ...)
    are not stripped. *)
Definition is_space (c : ascii) : bool :=
  let n := nat_of_ascii c in
  (n =? 32)%nat || ((9 <=? n)%nat && (n <=? 13)%nat)
  || ((28 <=? n)%nat && (n <=? 31)%nat).

Fixpoint lstrip (s : string) : string :=
  match s with
  | EmptyString => EmptyString
  | String c s' => if is_space c then lstrip s' else s
  end.

Fixpoint rstrip (s : string) : string :=
  match s with
  | EmptyString => EmptyString
  | String c s' =>
      match rstrip s' with
      | EmptyString => if is_space c then EmptyString else String c EmptyString
      | t => String c t
      end
  end.

(** [s.strip()] *)
Definition strip (s : string) : string := rstrip (lstrip s).

(** ** app/services/conversation_details_service.py *)

Module ConversationDetailsService.
Section WithCollaborators.
Context `{Collaborators}.

  (** Returns [updated]; the assignments go to the row of [conversation]. *)
Definition update_conversation_details (conversation : Conversation.t)
      (message_text : string) (db : DB) : bool * DB :=
    let u := Conversation.uuid conversation in
    let '(updated1, db1) :=
      if negb (truthy (Conversation.customer_email conversation))
      then
        let email := extract_email message_text in
        if truthy email
        then (true, modify_conversation u
                      (Conversation.set_customer_email email) db)
        else (false, db)
      else (false, db) in
    let '(updated2, db2) :=
      if negb (truthy (Conversation.customer_phone conversation))
      then
        let phone := extract_phone message_text in
        if truthy phone
        then (true, modify_conversation u
                      (Conversation.set_customer_phone phone) db1)
        else (updated1, db1)
      else (updated1, db1) in
    if negb (truthy (Conversation.customer_name conversation))
       || bool_decide (Conversation.customer_name conversation
                       = Some "Anonymous")
    then
      let name := extract_name message_text in
      if truthy name
      then (true, modify_conversation u
                    (Conversation.set_customer_name name) db2)
      else (updated2, db2)
    else (updated2, db2).

End WithCollaborators.
End ConversationDetailsService.

(** ** app/services/chat_service.py *)

Module ChatService.
Section WithCollaborators.
Context `{Collaborators}.

  (** Stable insertion sort of messages by [created_at], ascending. *)
Fixpoint insert_asc (m : Message.t) (l : list Message.t) : list Message.t :=
    match l with
    | [] => [m]
    | m0 :: l' =>
        if Nat.leb (Message.created_at m) (Message.created_at m0)
        then m :: l
        else m0 :: insert_asc m l'
    end.

Definition order_by_created_at_asc (l : list Message.t) : list Message.t :=
    fold_right insert_asc [] l.

Definition messages_of (conversation_uuid : string) (db : DB)
      : list Message.t :=
    List.filter
      (fun m => String.eqb (Message.conversation_uuid m) conversation_uuid)
      (messages db).

  (** [reversed(... .order_by(created_at.desc()).limit(n))]: the [n] latest
      messages, oldest first. *)
Definition latest (n : nat) (l : list Message.t) : list Message.t :=
    rev (firstn n (rev (order_by_created_at_asc l))).

  (** [HumanMessage] for the role ["user"], [AIMessage] otherwise. *)
Definition to_langchain (m : Message.t) : string * string :=
    (if String.eqb (Message.role m) "user" then "human" else "ai",
     Message.content m).

Definition _prepare_chat_run (now : nat)
      (chatbot_uuid conversation_uuid user_message : string)
      : M (Conversation.t * list (string * string)) :=
    chatbot ← query (get_chatbot chatbot_uuid);
    match chatbot with
    | None => raise (ValueError "Chatbot not found")
    | Some chatbot =>
        if negb (Nat.ltb 0 (Chatbot.message_credits_remaining chatbot))
        then raise (ValueError
               "No message credits remaining. Your workspace has reached its monthly limit. Please upgrade your plan.")
        else
          _ ← write (fun db =>
                 (tt, modify_chatbot chatbot_uuid
                        (fun b => Chatbot.mk (Chatbot.uuid b)
                                    (Chatbot.is_active b)
                                    (Chatbot.message_credits_remaining b - 1))
                        db));
          conversation ← query (get_conversation conversation_uuid);
          match conversation with
          | None => raise (ValueError "Conversation not found")
          | Some conversation =>
              history_messages ← query (fun db =>
                latest 10 (messages_of conversation_uuid db));
              let lc_messages :=
                map to_langchain history_messages
                ++ [("human", user_message)] in
              user_msg ← write (insert_message now conversation_uuid "user"
                                  user_message);
              _ ← emit (TopicClassificationEnqueued (Message.id user_msg));
              _ ← write (ConversationDetailsService.update_conversation_details
                           conversation user_message);
              mret (conversation, lc_messages)
          end
    end.

Definition mentions_customer_service (ai_response : string) : bool :=
    contains "customer service" (lower ai_response)
    || contains "representative" (lower ai_response).

Definition process_message (now : nat)
      (chatbot_uuid conversation_uuid user_message : string) : M string :=
    '(conversation, lc_messages) ←
      _prepare_chat_run now chatbot_uuid conversation_uuid user_message;
    _ ← emit (ClassifierInvoked user_message);
    let user_explicitly_requests_handoff :=
      user_explicitly_requests_handoff user_message in
    _ ← emit (GeneratorInvoked user_message);
    match graph_ainvoke lc_messages with
    | Raise e => raise e
    | Ok (ai_response, should_offer_handoff) =>
        let should_offer_handoff :=
          if user_explicitly_requests_handoff then true
          else should_offer_handoff in
        let ai_response :=
          if user_explicitly_requests_handoff
             && negb (mentions_customer_service ai_response)
          then "I understand you'd like to speak with a customer service representative. Let me connect you with someone who can help you better."
          else ai_response in
        _ ← write (insert_message now conversation_uuid "assistant"
                     ai_response);
        _ ← (if should_offer_handoff
             then
               let reason :=
                 if user_explicitly_requests_handoff
                 then "User explicitly requested customer service"
                 else "AI determined handoff is needed" in
               _ ← write (HandoffService.create_handoff_request now
                            conversation_uuid chatbot_uuid (Some reason));
               mret tt
             else mret tt);
        _ ← write (fun db =>
               (tt, modify_conversation (Conversation.uuid conversation)
                      (Conversation.set_updated_at now) db));
        mret ai_response
    end.

  (** The body of [async for chunk in llm.astream(messages)]. *)
Fixpoint stream_loop (on_chunk : string -> M unit) (chunks : list string)
      (full_response : string) : M string :=
    match chunks with
    | [] => mret full_response
    | delta :: rest =>
        if String.eqb delta ""
        then stream_loop on_chunk rest full_response
        else
          _ ← on_chunk delta;
          stream_loop on_chunk rest (String.append full_response delta)
    end.

Definition stream_message (now : nat)
      (chatbot_uuid conversation_uuid user_message : string)
      (on_chunk : string -> M unit) : M string :=
    '(conversation, lc_messages) ←
      _prepare_chat_run now chatbot_uuid conversation_uuid user_message;
    _ ← emit (GeneratorInvoked user_message);
    let '(chunks, failure) := astream lc_messages in
    full_response ← stream_loop on_chunk chunks "";
    match failure with
    | Some e => raise e
    | None =>
        _ ← write (insert_message now conversation_uuid "assistant"
                     full_response);
        _ ← write (fun db =>
               (tt, modify_conversation (Conversation.uuid conversation)
                      (Conversation.set_updated_at now) db));
        mret full_response
    end.

  (** [uuid] is the draw of [uuid.uuid4()] for the new row; the column is
      the primary key, so the INSERT raises when the value is taken. *)
Definition create_conversation (now : nat) (uuid : string)
      (chatbot_uuid session_id : string) (client_uuid : option string)
      (customer_name customer_email : option string)
      : M Conversation.t :=
    let conversation :=
      Conversation.mk uuid chatbot_uuid
        (if truthy customer_name then customer_name else Some "Anonymous")
        customer_email None session_id client_uuid "active" "ai" None
        now now in
    existing ← query (get_conversation uuid);
    match existing with
    | Some _ => raise IntegrityError
    | None =>
        write (fun db =>
          (conversation,
           with_conversations (conversations db ++ [conversation]) db))
    end.

Definition get_or_create_conversation (now : nat) (uuid : string)
      (chatbot_uuid session_id : string) (client_uuid : option string)
      : M Conversation.t :=
    conversation ← query (fun db =>
      find (fun c => String.eqb (Conversation.chatbot_uuid c) chatbot_uuid
                     && String.eqb (Conversation.session_id c) session_id
                     && String.eqb (Conversation.status c) "active")
           (conversations db));
    match conversation with
    | Some conversation => mret conversation
    | None =>
        create_conversation now uuid chatbot_uuid session_id client_uuid
          None None
    end.

End WithCollaborators.
End ChatService.

(** ** app/api/routes/chat.py *)

Module ChatRoutes.
Section WithCollaborators.
Context `{Collaborators}.

  (** *** The WebSocket relay

      One turn of the [while True] loop of a widget connection.  The loop
      variable [conversation] is the conversation bound so far.  A turn that
      returns keeps the connection open and gives the new value of the loop
      variable; a turn that raises leaves the loop, and the connection is
      unregistered. *)

  (** [data = await websocket.receive_json()] *)
Record received := json {
    type_ : option string;
    message_ : option string
  }.

  (** Lines 175-220: create the conversation on the first message.  The
      result is [None] when the handler of the [try] ran ([continue]). *)
Definition bind_conversation (now : nat) (uuid4_conversation uuid4_client : string)
      (chatbot_uuid session_id : string) (client_uuid : option string)
      : M (option Conversation.t) :=
    try_except
      (let final_client_uuid :=
         if truthy client_uuid then client_uuid else Some uuid4_client in
       conversation ← ChatService.get_or_create_conversation now
                        uuid4_conversation chatbot_uuid session_id
                        final_client_uuid;
       _ ← emit (SendMessage
                   (Frame.conversation_created (Conversation.uuid conversation))
                   session_id);
       _ ← emit (BroadcastToDashboard
                   (Frame.conversation_created (Conversation.uuid conversation))
                   chatbot_uuid);
       mret (Some conversation))
      (fun e =>
         _ ← emit (SendMessage
                     (Frame.error "Failed to initialize conversation")
                     session_id);
         mret None).

  (** Lines 230-260 and 264-288: the customer's message is stored and
      announced to the dashboard; the generator is not called. *)
Definition store_for_agent (now : nat) (chatbot_uuid : string)
      (conversation : Conversation.t) (user_message : string) : M unit :=
    _ ← write (insert_message now (Conversation.uuid conversation) "user"
                 user_message);
    _ ← write (fun db =>
           (tt, modify_conversation (Conversation.uuid conversation)
                  (Conversation.set_updated_at now) db));
    _ ← write (ConversationDetailsService.update_conversation_details
                 conversation user_message);
    emit (BroadcastToDashboard
            (Frame.new_message (Conversation.uuid conversation) chatbot_uuid
               "user")
            chatbot_uuid).

Definition handle_chunk (session_id : string) (delta : string) : M unit :=
    emit (SendMessage (Frame.message_chunk "assistant" delta) session_id).

  (** [select(Message) ... role == "assistant" ...
      .order_by(created_at.desc()).limit(1)).first()] *)
Definition last_assistant_message (conversation_uuid : string) (db : DB)
      : option Message.t :=
    last (ChatService.order_by_created_at_asc
            (List.filter (fun m => String.eqb (Message.role m) "assistant")
               (ChatService.messages_of conversation_uuid db))).

  (** Lines 222-383: route one non-empty message of a bound conversation. *)
Definition route_message (now : nat) (chatbot_uuid session_id : string)
      (conversation : Conversation.t) (user_message : string) : M unit :=
    (* session.refresh(conversation) *)
    refreshed ← query (get_conversation (Conversation.uuid conversation));
    match refreshed with
    | None => raise (ValueError "Could not refresh instance")
    | Some conversation =>
        if String.eqb (Conversation.handoff_status conversation) "human"
        then store_for_agent now chatbot_uuid conversation user_message
        else if String.eqb (Conversation.handoff_status conversation)
                           "requested"
        then
          _ ← store_for_agent now chatbot_uuid conversation user_message;
          emit (SendMessage
                  (Frame.message "assistant"
                     "Your message has been received. A customer service representative will respond shortly.")
                  session_id)
        else
          _ ← emit (SendMessage (Frame.typing true) session_id);
          try_except
            (ai_response ← ChatService.stream_message now chatbot_uuid
                             (Conversation.uuid conversation) user_message
                             (handle_chunk session_id);
             _ ← emit (SendMessage (Frame.typing false) session_id);
             last_message ← query (last_assistant_message
                                     (Conversation.uuid conversation));
             _ ← emit (SendMessage
                         (Frame.message_complete "assistant" ai_response
                            (Message.id <$> last_message))
                         session_id);
             emit (BroadcastToDashboard
                     (Frame.new_message (Conversation.uuid conversation)
                        chatbot_uuid "assistant")
                     chatbot_uuid))
            (fun e =>
               _ ← emit (SendMessage (Frame.typing false) session_id);
               let error_message :=
                 if negb (String.eqb (str e) "") then str e
                 else "Failed to process message" in
               emit (SendMessage (Frame.error error_message) session_id))
    end.

Definition relay_turn (now : nat) (uuid4_conversation uuid4_client : string)
      (chatbot_uuid session_id : string) (client_uuid : option string)
      (conversation : option Conversation.t) (data : received)
      : M (option Conversation.t) :=
    if bool_decide (type_ data = Some "ping")
    then
      _ ← emit (WebsocketSendJson Frame.pong);
      mret conversation
    else if bool_decide (type_ data = Some "message")
    then
      if negb (truthy (message_ data))
      then mret conversation
      else
        let user_message := default "" (message_ data) in
        bound ←
          match conversation with
          | Some c => mret (Some c)
          | None =>
              bind_conversation now uuid4_conversation uuid4_client
                chatbot_uuid session_id client_uuid
          end;
        match bound with
        | None => mret conversation
        | Some c =>
            _ ← route_message now chatbot_uuid session_id c user_message;
            mret (Some c)
        end
    else mret conversation.

  (** *** REST *)

Record SendMessageRequest := {
    request_message : string;
    request_session_id : string;
    request_customer_name : option string;
    request_customer_email : option string
  }.

Definition send_message (now : nat) (uuid4_conversation : string)
      (chatbot_uuid : string) (request : SendMessageRequest)
      : M (option Message.t) :=
    chatbot ← query (get_chatbot chatbot_uuid);
    match chatbot with
    | None => raise (HTTPException 404 "Chatbot not found")
    | Some _ =>
        conversation ← ChatService.get_or_create_conversation now
                         uuid4_conversation chatbot_uuid
                         (request_session_id request) None;
        _ ← write (fun db =>
               (tt,
                if truthy (request_customer_name request)
                then modify_conversation (Conversation.uuid conversation)
                       (Conversation.set_customer_name
                          (request_customer_name request)) db
                else db));
        _ ← write (fun db =>
               (tt,
                if truthy (request_customer_email request)
                then modify_conversation (Conversation.uuid conversation)
                       (Conversation.set_customer_email
                          (request_customer_email request)) db
                else db));
        try_except
          (_ ← ChatService.process_message now chatbot_uuid
                 (Conversation.uuid conversation) (request_message request);
           query (last_assistant_message (Conversation.uuid conversation)))
          (fun e => raise (HTTPException 500 (str e)))
    end.

  (** [current_user_access] is [None] without credentials and otherwise the
      outcome of the workspace access check. *)
Definition get_conversation_messages (conversation_uuid : string)
      (session_id : option string) (limit offset : nat)
      (current_user_access : option bool) : M (list Message.t) :=
    conversation ← query (get_conversation conversation_uuid);
    match conversation with
    | None => raise (HTTPException 404 "Conversation not found")
    | Some conversation =>
        _ ← (if truthy session_id
             then
               if bool_decide (Some (Conversation.session_id conversation)
                               = session_id)
               then mret tt
               else raise (HTTPException 403
                      "Access denied: session_id mismatch")
             else
               match current_user_access with
               | Some access =>
                   chatbot ← query (get_chatbot
                                      (Conversation.chatbot_uuid conversation));
                   match chatbot with
                   | Some _ =>
                       if access then mret tt
                       else raise (HTTPException 403
                              "Access denied: you don't have access to this chatbot")
                   | None =>
                       raise (HTTPException 403
                         "Access denied: chatbot not found")
                   end
               | None =>
                   raise (HTTPException 401
                     "Authentication required or session_id must be provided")
               end);
        query (fun db =>
          firstn limit
            (skipn offset
               (ChatService.order_by_created_at_asc
                  (ChatService.messages_of conversation_uuid db))))
    end.

  (** [SubmitFeedbackRequest.feedback : Literal["like", "dislike"]] *)
Inductive feedback_literal := like | dislike.

Definition feedback_str (f : feedback_literal) : string :=
    match f with
    | like => "like"
    | dislike => "dislike"
    end.

  (** The status code of the JSON response and, for 200, the message. *)
Definition submit_feedback (message_id : nat) (request : feedback_literal)
      (db : DB) : (nat * option Message.t) * DB :=
    match get_message message_id db with
    | None => ((404, None), db)
    | Some message =>
        if negb (String.eqb (Message.role message) "assistant")
        then ((400, None), db)
        else
          let db1 :=
            modify_message (Message.id message)
              (Message.set_feedback (Some (feedback_str request))) db in
          ((200, get_message message_id db1), db1)
    end.

  (** *** Opening and closing a connection

      Lines 100-151 and 388-392.  The outcome says how the handler goes on:
      it returned after closing the socket, it listens as a dashboard, or it
      enters the widget loop. *)

Inductive opened :=
  | closed (code : nat) (reason : string)
  | dashboard_listener
  | widget_loop.

Definition open_connection (websocket : nat) (chatbot_uuid session_id : string)
      (db : DB) (manager : ConnectionManager.t)
      : list frame * opened * ConnectionManager.t :=
    let manager :=
      ConnectionManager.connect websocket session_id (Some chatbot_uuid)
        manager in
    match get_chatbot chatbot_uuid db with
    | None =>
        ([Frame.error "Chatbot not found"], closed 4004 "Chatbot not found",
         ConnectionManager.disconnect websocket session_id manager)
    | Some chatbot =>
        if negb (Chatbot.is_active chatbot)
        then ([Frame.error "Chatbot is not active"],
              closed 4003 "Chatbot is not active",
              ConnectionManager.disconnect websocket session_id manager)
        else
          ([Frame.connection "connected"],
           if String.prefix "dashboard_" session_id then dashboard_listener
           else widget_loop,
           manager)
    end.

  (** [except WebSocketDisconnect] and [except Exception]: the end of either
      loop. *)
Definition close_connection (websocket : nat) (session_id : string)
      (manager : ConnectionManager.t) : ConnectionManager.t :=
    ConnectionManager.disconnect websocket session_id manager.

  (** *** More of REST *)


  (** Conversations sorted by [updated_at], latest first (a stable insertion
      sort: rows with equal time stamps keep their table order). *)
Fixpoint insert_updated_desc (c : Conversation.t) (l : list Conversation.t)
      : list Conversation.t :=
    match l with
    | [] => [c]
    | c0 :: l' =>
        if Nat.leb (Conversation.updated_at c0) (Conversation.updated_at c)
        then c :: l
        else c0 :: insert_updated_desc c l'
    end.

Definition order_by_updated_at_desc (l : list Conversation.t)
      : list Conversation.t :=
    fold_right insert_updated_desc [] l.

  (** The rows a page is cut from: the chatbot's conversations, with the
      status filter when one is given. *)
Definition conversations_of (chatbot_uuid : string)
      (status_filter : option string) (db : DB) : list Conversation.t :=
    List.filter
      (fun c => String.eqb (Conversation.chatbot_uuid c) chatbot_uuid
                && (if truthy status_filter
                    then bool_decide (Some (Conversation.status c)
                                      = status_filter)
                    else true))
      (conversations db).

  (** [select(Message) ... .order_by(created_at.desc()).limit(1)).first()],
      with an optional role. *)
Definition last_message_of (conversation_uuid : string) (role : option string)
      (db : DB) : option Message.t :=
    last (ChatService.order_by_created_at_asc
            (List.filter
               (fun m => match role with
                         | Some r => String.eqb (Message.role m) r
                         | None => true
                         end)
               (ChatService.messages_of conversation_uuid db))).

Record enriched := {
    enriched_conversation : Conversation.t;
    enriched_last_message : option string;
    enriched_last_user_message : option string
  }.

Record PaginatedConversationsResponse := {
    page_conversations : list enriched;
    page_has_more : bool;
    page_total : nat
  }.

Definition get_conversations (chatbot_uuid : string)
      (status_filter : option string) (limit offset : nat) (db : DB)
      : PaginatedConversationsResponse :=
    let total := length (conversations_of chatbot_uuid status_filter db) in
    let conversations :=
      firstn (limit + 1)
        (skipn offset
           (order_by_updated_at_desc
              (conversations_of chatbot_uuid status_filter db))) in
    let has_more := Nat.ltb limit (length conversations) in
    let conversations :=
      if has_more then firstn limit conversations else conversations in
    {| page_conversations :=
         map (fun conv =>
                {| enriched_conversation := conv;
                   enriched_last_message :=
                     Message.content
                       <$> last_message_of (Conversation.uuid conv) None db;
                   enriched_last_user_message :=
                     Message.content
                       <$> last_message_of (Conversation.uuid conv)
                             (Some "user") db |})
             conversations;
       page_has_more := has_more;
       page_total := total |}.

Record AnalyticsResponse := {
    total_conversations : nat;
    total_messages : nat;
    total_thumbs_up : nat;
    total_thumbs_down : nat
  }.

Definition get_chatbot_analytics (chatbot_uuid : string) (db : DB)
      : result AnalyticsResponse :=
    match get_chatbot chatbot_uuid db with
    | None => Raise (HTTPException 404 "Chatbot not found")
    | Some _ =>
        let conversation_uuids :=
          map Conversation.uuid
            (List.filter
               (fun c => String.eqb (Conversation.chatbot_uuid c) chatbot_uuid)
               (conversations db)) in
        let of_chatbot (m : Message.t) :=
          existsb (String.eqb (Message.conversation_uuid m))
                  conversation_uuids in
        let count (p : Message.t -> bool) :=
          length (List.filter (fun m => of_chatbot m && p m) (messages db)) in
        Ok {| total_conversations := length conversation_uuids;
              total_messages := count (fun _ => true);
              total_thumbs_up :=
                count (fun m => bool_decide (Message.feedback m = Some "like"));
              total_thumbs_down :=
                count (fun m => bool_decide (Message.feedback m
                                             = Some "dislike")) |}
    end.

End WithCollaborators.
End ChatRoutes.

(** ** app/tasks.py *)

Module Tasks.
Section WithCollaborators.
Context `{Collaborators}.

Definition bump_topic_stat (now : nat) (chatbot_uuid topic : string)
      (db : DB) : DB :=
    let matches (s : TopicStat.t) :=
      String.eqb (TopicStat.chatbot_uuid s) chatbot_uuid
      && String.eqb (TopicStat.topic s) topic in
    match find matches (topic_stats db) with
    | None =>
        with_topic_stats
          (topic_stats db ++ [TopicStat.mk chatbot_uuid topic 1 now]) db
    | Some _ =>
        (* the first matching row *)
        let fix bump (l : list TopicStat.t) :=
          match l with
          | [] => []
          | s :: l' =>
              if matches s
              then TopicStat.mk (TopicStat.chatbot_uuid s) (TopicStat.topic s)
                     (TopicStat.message_count s + 1) now :: l'
              else s :: bump l'
          end in
        with_topic_stats (bump (topic_stats db)) db
    end.

Definition classify_message_topic (now : nat) (message_id : nat)
      (chatbot_uuid message_role content : string) (db : DB)
      : option string * DB :=
    match get_message message_id db with
    | None => (None, db)
    | Some message =>
        if truthy (Message.topic message)
        then (Message.topic message, db)
        else
          let role_label :=
            if String.eqb message_role "user" then "customer"
            else "assistant" in
          match topic_llm role_label content with
          | None => (None, db)
          | Some answer =>
              let topic := strip answer in
              if String.eqb topic "" then (None, db)
              else
                let topic_normalized := String.substring 0 100 topic in
                let db1 :=
                  modify_message (Message.id message)
                    (Message.set_topic (Some topic_normalized)) db in
                (Some topic_normalized,
                 bump_topic_stat now chatbot_uuid topic_normalized db1)
          end
    end.

End WithCollaborators.
End Tasks.

(** ** Properties of the handoff coordinator: vocabulary *)

(** The two [ValueError]s of [accept_handoff_request]. *)
Definition NotFound : exn := ValueError "Handoff request not found".
Definition StateConflict (status : string) : exn :=
  ValueError (String.append "Handoff request is already " status).

(** The two writers of [handoff_status]. *)
Inductive service_call := create_call | accept_call.

(** One call of the handoff service that returns. *)
Inductive coordinator_step : service_call -> DB -> DB -> Prop :=
| step_create now conversation_uuid chatbot_uuid reason db :
    coordinator_step create_call db
      (snd (HandoffService.create_handoff_request now conversation_uuid
              chatbot_uuid reason db))
| step_accept now handoff_request_id user_uuid db r db' :
    HandoffService.accept_handoff_request now handoff_request_id user_uuid db
    = (Ok r, db') ->
    coordinator_step accept_call db db'.

(** What one call may do to the authority of one conversation. *)
Definition legal (call : service_call) (before after : string) : Prop :=
  match call with
  | create_call => after = before \/ after = "requested"
  | accept_call => after = before \/ (before = "requested" /\ after = "human")
  end.

(** The conversations keep their places and identities, and the authority
    of each changes as [call] allows. *)
Definition transitions (call : service_call) (db db' : DB) : Prop :=
  Forall2
    (fun c c' =>
       Conversation.uuid c' = Conversation.uuid c
       /\ legal call (Conversation.handoff_status c)
                     (Conversation.handoff_status c'))
    (conversations db) (conversations db').

(** One service call, whatever it is; one service call together with what
    it did to the conversations. *)
Definition any_step (db db' : DB) : Prop :=
  exists call, coordinator_step call db db'.

Definition legal_step (db db' : DB) : Prop :=
  exists call, coordinator_step call db db' /\ transitions call db db'.

(** The strict path of the specification: a state is kept, or the next
    state of [ai], [requested], [human] is entered. *)
Definition forward (before after : string) : Prop :=
  after = before
  \/ (before = "ai" /\ after = "requested")
  \/ (before = "requested" /\ after = "human").

(** A store in which the requests and the conversations agree: a
    conversation has at most one pending request, and a conversation with a
    pending request is in the state [requested]. *)
Record consistent (db : DB) : Prop := {
  one_pending : forall i j r1 r2,
    handoff_requests db !! i = Some r1 ->
    handoff_requests db !! j = Some r2 ->
    HandoffRequest.status r1 = "pending" ->
    HandoffRequest.status r2 = "pending" ->
    HandoffRequest.conversation_uuid r1 = HandoffRequest.conversation_uuid r2 ->
    i = j;
  pending_requested : forall r c,
    In r (handoff_requests db) ->
    HandoffRequest.status r = "pending" ->
    In c (conversations db) ->
    Conversation.uuid c = HandoffRequest.conversation_uuid r ->
    Conversation.handoff_status c = "requested"
}.

(** The operations of the coordinator, as the REST routes offer them. *)
Inductive coordinator_op :=
| CreateRequest (now : nat) (conversation_uuid : string)
    (reason : option string)
| AcceptRequest (now : nat) (handoff_request_id : nat) (user_uuid : string)
| GetPendingRequests (now : nat) (chatbot_uuid : string) (authorized : bool)
| TakeOver (now : nat) (conversation_uuid user_uuid : string)
    (authorized : bool).

(** The store an operation leaves behind. *)
Definition run (op : coordinator_op) (db : DB) : DB :=
  match op with
  | CreateRequest now conversation_uuid reason =>
      (HandoffRoutes.create_handoff_request now conversation_uuid reason db).1.2
  | AcceptRequest now handoff_request_id user_uuid =>
      (HandoffRoutes.accept_handoff_request now handoff_request_id user_uuid
         db).1.2
  | GetPendingRequests now chatbot_uuid authorized =>
      (HandoffRoutes.get_pending_handoff_requests now chatbot_uuid authorized
         db).1.2
  | TakeOver now conversation_uuid user_uuid authorized =>
      (HandoffRoutes.take_over_conversation now conversation_uuid user_uuid
         authorized db).1.2
  end.

(** The strict reading: every conversation keeps its state or moves to the
    next one. *)
Definition forward_only (db db' : DB) : Prop :=
  Forall2
    (fun c c' => forward (Conversation.handoff_status c)
                         (Conversation.handoff_status c'))
    (conversations db) (conversations db').

(** ** Sample stores *)

Definition sample_chatbot : Chatbot.t := Chatbot.mk "bot-1" true 5.

Definition sample_conversation : Conversation.t :=
  Conversation.mk "conv-1" "bot-1" (Some "Anonymous") None None "session-a"
    (Some "client-1") "active" "ai" None 100 100.

(** One chatbot and one fresh conversation. *)
Definition sample_db : DB :=
  mkDB [sample_chatbot] [sample_conversation] [] [] [] 1 1.

(** The conversation of [sample_db] after a request was created (request 1)
    and accepted by an operator. *)
Definition accepted_db : DB :=
  run (AcceptRequest 102 1 "agent-1")
    (run (CreateRequest 101 "conv-1" (Some "help")) sample_db).

(** ** Sample registries *)

(** Two dashboard tabs of one browser session watch the chatbot; the first
    tab is closed. *)
Definition two_tabs_one_closed : ConnectionManager.t :=
  ConnectionManager.disconnect 1 "dashboard_a"
    (ConnectionManager.connect 2 "dashboard_a" (Some "bot-1")
       (ConnectionManager.connect 1 "dashboard_a" (Some "bot-1")
          ConnectionManager.init)).

(** Two dashboard sessions watch the chatbot. *)
Definition two_dashboards : ConnectionManager.t :=
  ConnectionManager.connect 2 "dashboard_b" (Some "bot-1")
    (ConnectionManager.connect 1 "dashboard_a" (Some "bot-1")
       ConnectionManager.init).

(** The connections on which a send fails. *)
Definition dead_among (alive : nat -> bool) (connections : list nat)
    : gset nat :=
  list_to_set (List.filter (fun c => negb (alive c)) connections).

(** Some dashboard session is recorded for the chatbot. *)
Definition session_recorded (chatbot_uuid : string) (m : ConnectionManager.t)
    : bool :=
  existsb (fun kv => String.eqb (snd kv) chatbot_uuid)
    (map_to_list (ConnectionManager.dashboard_session_map m)).

(** ** Customer identity: vocabulary *)

(** The claim as the specification words it: a field that is set keeps its
    value. *)
Definition never_overwritten (c c' : Conversation.t) : Prop :=
  (truthy (Conversation.customer_name c) = true ->
   Conversation.customer_name c' = Conversation.customer_name c)
  /\ (truthy (Conversation.customer_email c) = true ->
      Conversation.customer_email c' = Conversation.customer_email c)
  /\ (truthy (Conversation.customer_phone c) = true ->
      Conversation.customer_phone c' = Conversation.customer_phone c).

(** What the detail extraction keeps: the name only when it is not the
    placeholder ["Anonymous"]. *)
Definition kept (c c' : Conversation.t) : Prop :=
  (truthy (Conversation.customer_name c) = true ->
   Conversation.customer_name c <> Some "Anonymous" ->
   Conversation.customer_name c' = Conversation.customer_name c)
  /\ (truthy (Conversation.customer_email c) = true ->
      Conversation.customer_email c' = Conversation.customer_email c)
  /\ (truthy (Conversation.customer_phone c) = true ->
      Conversation.customer_phone c' = Conversation.customer_phone c).

(** Every conversation of [db] is still there in [db'], related by [R]. *)
Definition conversations_related (R : Conversation.t -> Conversation.t -> Prop)
    (db db' : DB) : Prop :=
  forall u c, get_conversation u db = Some c ->
    exists c', get_conversation u db' = Some c' /\ R c c'.

(** A computation that relates the store before it to the store after it,
    whether it returns or raises. *)
Definition preserves {A} (Q : DB -> DB -> Prop) (m : M A) : Prop :=
  forall db, Q db (m db).1.2.

(** The collaborators of the examples: the name extractor finds a name, the
    classifier says that the customer asks for a human, the generator
    answers. *)
Definition sample_collaborators : Collaborators := {|
  extract_email := fun _ => None;
  extract_phone := fun _ => None;
  extract_name := fun _ => Some "John";
  user_explicitly_requests_handoff := fun _ => true;
  graph_ainvoke := fun _ => Ok ("We are open from 9 to 5.", false);
  astream := fun _ => (["We are open "; "from 9 to 5."], None);
  topic_llm := fun _ _ => Some " Opening hours "
|}.

(** A conversation whose customer gave a name and an e-mail address. *)
Definition known_customer : Conversation.t :=
  Conversation.mk "conv-2" "bot-1" (Some "Alice") (Some "alice@example.com")
    None "session-b" (Some "client-1") "active" "ai" None 100 100.

Definition known_customer_db : DB :=
  mkDB [sample_chatbot] [known_customer] [] [] [] 1 1.

(** A request of the REST endpoint that carries a name and an e-mail
    address, on the session of [known_customer]. *)
Definition renaming_request : ChatRoutes.SendMessageRequest := {|
  ChatRoutes.request_message := "hello";
  ChatRoutes.request_session_id := "session-b";
  ChatRoutes.request_customer_name := Some "Bob";
  ChatRoutes.request_customer_email := Some "bob@example.com"
|}.

Definition plain_request : ChatRoutes.SendMessageRequest := {|
  ChatRoutes.request_message := "hello";
  ChatRoutes.request_session_id := "session-b";
  ChatRoutes.request_customer_name := None;
  ChatRoutes.request_customer_email := None
|}.

(** ** Conversation binding: vocabulary *)



(** ** Messages: vocabulary *)

(** Everything of a message but its feedback and its topic. *)
Definition same_core (m m' : Message.t) : Prop :=
  Message.id m' = Message.id m
  /\ Message.conversation_uuid m' = Message.conversation_uuid m
  /\ Message.role m' = Message.role m
  /\ Message.content m' = Message.content m
  /\ Message.created_at m' = Message.created_at m.

(** An answer of the assistant that the customer liked. *)
Definition liked_answer : Message.t :=
  Message.mk 1 "conv-1" "assistant" "We are open from 9 to 5." (Some "like")
    101 None.

Definition liked_db : DB :=
  mkDB [sample_chatbot] [sample_conversation] [liked_answer] [] [] 2 1.

(** ** The relay: vocabulary *)

(** The parts of a conversation that the detail extraction leaves alone. *)
Definition routing_kept (c c' : Conversation.t) : Prop :=
  Conversation.uuid c' = Conversation.uuid c
  /\ Conversation.handoff_status c' = Conversation.handoff_status c
  /\ Conversation.assigned_to_user_uuid c'
     = Conversation.assigned_to_user_uuid c
  /\ Conversation.updated_at c' = Conversation.updated_at c.

(** The texts of the [error] frames among the effects. *)
Definition error_messages (t : list effect) : list string :=
  flat_map (fun ef => match ef with
                      | SendMessage (Frame.error msg) _ => [msg]
                      | _ => []
                      end) t.

(** The frame a widget sends for a chat message. *)
Definition chat (text : string) : ChatRoutes.received :=
  ChatRoutes.json (Some "message") (Some text).

(** Collaborators whose language model fails after the first chunk, with a
    message that quotes the provider. *)
Definition failing_collaborators : Collaborators := {|
  extract_email := fun _ => None;
  extract_phone := fun _ => None;
  extract_name := fun _ => None;
  user_explicitly_requests_handoff := fun _ => false;
  graph_ainvoke := fun _ =>
    Raise (UpstreamError "Incorrect API key provided: sk-live-1234");
  astream := fun _ =>
    (["We are "],
     Some (UpstreamError "Incorrect API key provided: sk-live-1234"));
  topic_llm := fun _ _ => None
|}.

(** [sample_db] with the credits of the workspace used up. *)
Definition broke_db : DB :=
  mkDB [Chatbot.mk "bot-1" true 0] [sample_conversation] [] [] [] 1 1.

(** [sample_db] after a request was created for its conversation. *)
Definition requested_db : DB :=
  run (CreateRequest 101 "conv-1" (Some "help")) sample_db.

(** The authority of a conversation and its operator. *)
Definition same_authority (c c' : Conversation.t) : Prop :=
  Conversation.handoff_status c' = Conversation.handoff_status c
  /\ Conversation.assigned_to_user_uuid c'
     = Conversation.assigned_to_user_uuid c.

(** No handoff request is created or changed, and no conversation changes
    its authority. *)
Definition authority_untouched (db db' : DB) : Prop :=
  handoff_requests db' = handoff_requests db
  /\ conversations_related same_authority db db'.

(** ** The registry: vocabulary *)

(** A dictionary of groups that holds no empty group. *)
Definition no_empty_group (groups : gmap string (gset nat)) : Prop :=
  forall key s, groups !! key = Some s -> s <> ∅.

(** [group[key] = X], or no entry for [key] when [X] is empty. *)
Definition store_group (key : string) (X : gset nat)
    (groups : gmap string (gset nat)) : gmap string (gset nat) :=
  if bool_decide (X = ∅) then delete key groups else <[key := X]> groups.

(** A widget connection on a session of its own. *)
Definition one_widget : ConnectionManager.t :=
  ConnectionManager.connect 7 "session-a" (Some "bot-1")
    ConnectionManager.init.

(** Three sockets of one widget session. *)
Definition three_widgets : ConnectionManager.t :=
  ConnectionManager.connect 3 "session-a" (Some "bot-1")
    (ConnectionManager.connect 2 "session-a" (Some "bot-1")
       (ConnectionManager.connect 1 "session-a" (Some "bot-1")
          ConnectionManager.init)).

(** No group of either dictionary is empty. *)
Definition tidy (m : ConnectionManager.t) : Prop :=
  no_empty_group (ConnectionManager.active_connections m)
  /\ no_empty_group (ConnectionManager.dashboard_connections m).

(** The socket is new to the registry: its session is not recorded as a
    dashboard session, and the group it will join neither holds it nor is an
    empty leftover. *)
Definition fresh_socket (websocket : nat) (session_id chatbot_uuid : string)
    (m : ConnectionManager.t) : Prop :=
  ConnectionManager.dashboard_session_map m !! session_id = None
  /\ if truthy (Some chatbot_uuid) && String.prefix "dashboard_" session_id
     then (websocket
           ∉ (default ∅ (ConnectionManager.dashboard_connections m
                          !! chatbot_uuid)))
          /\ ConnectionManager.dashboard_connections m !! chatbot_uuid
             <> Some ∅
     else (websocket
           ∉ (default ∅ (ConnectionManager.active_connections m
                          !! session_id)))
          /\ ConnectionManager.active_connections m !! session_id <> Some ∅.

(** A chatbot that was switched off. *)
Definition inactive_db : DB :=
  mkDB [Chatbot.mk "bot-1" false 5] [] [] [] [] 1 1.

(** ** The handoff service: more vocabulary *)

(** A conversation in the state [human] has an operator. *)
Definition staffed (db : DB) : Prop :=
  forall c, In c (conversations db) ->
    Conversation.handoff_status c = "human" ->
    Conversation.assigned_to_user_uuid c <> None.

(** The primary key of the handoff requests: no id occurs twice, and every
    id was drawn from the sequence. *)
Definition request_ids_fresh (db : DB) : Prop :=
  NoDup (map HandoffRequest.id (handoff_requests db))
  /\ Forall (fun r => HandoffRequest.id r < next_handoff_request_id db)
       (handoff_requests db).


(** Latest first. *)
Definition newer_first (a b : HandoffRequest.t) : Prop :=
  HandoffRequest.requested_at b <= HandoffRequest.requested_at a.

(** The agent may write to the conversation. *)
Definition assigned_to (agent_user_uuid : string) (c : Conversation.t)
    : Prop :=
  Conversation.handoff_status c = "human"
  /\ Conversation.assigned_to_user_uuid c = Some agent_user_uuid.

(** A conversation in the state [requested] that lost its request. *)
Definition orphan_db : DB :=
  mkDB [sample_chatbot]
    [Conversation.set_handoff_status "requested" sample_conversation]
    [] [] [] 1 1.

(** ** The chat service: more vocabulary *)

(** Oldest first. *)
Definition older_first (a b : Message.t) : Prop :=
  Message.created_at a <= Message.created_at b.





(** Latest update first. *)
Definition recently_updated_first (a b : Conversation.t) : Prop :=
  Conversation.updated_at b <= Conversation.updated_at a.

(** The row of a topic of a chatbot, as [classify_message_topic] looks it
    up. *)
Definition topic_stat_of (chatbot_uuid topic : string) (db : DB)
    : option TopicStat.t :=
  find (fun s => String.eqb (TopicStat.chatbot_uuid s) chatbot_uuid
                 && String.eqb (TopicStat.topic s) topic)
       (topic_stats db).

(** [liked_db] with the topic of its message counted once. *)
Definition counted_db : DB :=
  mkDB [sample_chatbot] [sample_conversation] [liked_answer] []
    [TopicStat.mk "bot-1" "Opening hours" 1 100] 2 1.

(** * Proofs *)

Ltac unfold_M :=
  unfold mbind, M_bind, mret, M_ret, query, write, attempt, raise, emit,
    try_except in *.

Ltac setters :=
  unfold Conversation.set_customer_name, Conversation.set_customer_email,
    Conversation.set_customer_phone, Conversation.set_handoff_status,
    Conversation.set_assigned_to_user_uuid, Conversation.set_updated_at;
  simpl.

(** ** Lists and rows *)

Lemma find_app_None {A} (p : A -> bool) (l1 l2 : list A) :
  find p l1 = None -> find p (l1 ++ l2) = find p l2.
Proof.
  induction l1 as [|a l1 IH]; simpl; [done|].
  destruct (p a); [done | exact IH].
Qed.

Lemma find_app_Some {A} (p : A -> bool) (l1 l2 : list A) a :
  find p l1 = Some a -> find p (l1 ++ l2) = Some a.
Proof.
  induction l1 as [|b l1 IH]; simpl; [done|].
  destruct (p b); [done | exact IH].
Qed.

Lemma find_map_stable {A} (p : A -> bool) (f : A -> A) (l : list A) :
  (forall a, p (f a) = p a) ->
  find p (map f l) = f <$> find p l.
Proof.
  intros Hp. induction l as [|a l IH]; simpl; [done|].
  rewrite Hp. destruct (p a); [done | exact IH].
Qed.

Lemma find_None_In {A} (p : A -> bool) (l : list A) a :
  find p l = None -> In a l -> p a = false.
Proof. intros Hf Hin. exact (find_none p l Hf a Hin). Qed.

Lemma In_lookup {A} (l : list A) a : In a l -> exists i, l !! i = Some a.
Proof. intros Hin. apply list_elem_of_lookup, list_elem_of_In, Hin. Qed.

Lemma lookup_In {A} (l : list A) i a : l !! i = Some a -> In a l.
Proof. intros Hl. apply list_elem_of_In, list_elem_of_lookup. eauto. Qed.

Lemma handoff_requests_modify_conversation u f db :
  handoff_requests (modify_conversation u f db) = handoff_requests db.
Proof. reflexivity. Qed.

Lemma conversations_modify_handoff_request i f db :
  conversations (modify_handoff_request i f db) = conversations db.
Proof. reflexivity. Qed.

Lemma get_handoff_request_modify i f db :
  (forall r, HandoffRequest.id (f r) = HandoffRequest.id r) ->
  get_handoff_request i (modify_handoff_request i f db)
  = f <$> get_handoff_request i db.
Proof.
  intros Hid. unfold get_handoff_request, modify_handoff_request. simpl.
  rewrite find_map_stable.
  - destruct (find _ (handoff_requests db)) as [r|] eqn:Hr; simpl; [|done].
    apply find_some in Hr as [_ Hr]. by rewrite Hr.
  - intros r. destruct (Nat.eqb (HandoffRequest.id r) i) eqn:E; [|done].
    by rewrite Hid, E.
Qed.

(** ** Accepting a request *)

Section Accept.
Import HandoffService.

Lemma accept_not_found now i user db :
    get_handoff_request i db = None ->
    accept_handoff_request now i user db = (Raise NotFound, db).
  Proof. intros Hr. unfold accept_handoff_request. by rewrite Hr. Qed.

Lemma accept_state_conflict now i user db r :
    get_handoff_request i db = Some r ->
    HandoffRequest.status r <> "pending" ->
    accept_handoff_request now i user db
    = (Raise (StateConflict (HandoffRequest.status r)), db).
  Proof.
    intros Hr Hst. unfold accept_handoff_request. rewrite Hr.
    destruct (String.eqb_spec (HandoffRequest.status r) "pending"); done.
  Qed.

Lemma accept_pending now i user db r :
    get_handoff_request i db = Some r ->
    HandoffRequest.status r = "pending" ->
    exists db',
      accept_handoff_request now i user db
      = (Ok (HandoffRequest.accept now user r), db')
      /\ get_handoff_request i db' = Some (HandoffRequest.accept now user r).
  Proof.
    intros Hr Hst. unfold accept_handoff_request. rewrite Hr, Hst. simpl.
    eexists. split; [reflexivity|].
    assert (Hid : HandoffRequest.id r = i).
    { apply find_some in Hr as [_ Hr]. by apply Nat.eqb_eq. }
    rewrite Hid, get_handoff_request_modify by done.
    destruct (get_conversation _ db); simpl; unfold get_handoff_request in *;
      simpl; by rewrite Hr.
  Qed.

  (** C3: [accept_handoff_request] raises NotFound for an unknown id and
      StateConflict for a request that is not pending, and in both cases the
      store, hence the request's status, accepted-at and accepted-by, is
      left as it was.  Of two successive accepts of a pending request the
      first succeeds and the second raises StateConflict, with the request
      still as the first acceptance wrote it. *)
Theorem accept_handoff_request_errors now i user db :
    (get_handoff_request i db = None ->
     accept_handoff_request now i user db = (Raise NotFound, db))
    /\ (forall r,
          get_handoff_request i db = Some r ->
          HandoffRequest.status r <> "pending" ->
          accept_handoff_request now i user db
          = (Raise (StateConflict (HandoffRequest.status r)), db))
    /\ (forall r now2 user2,
          get_handoff_request i db = Some r ->
          HandoffRequest.status r = "pending" ->
          exists db1,
            accept_handoff_request now i user db
            = (Ok (HandoffRequest.accept now user r), db1)
            /\ accept_handoff_request now2 i user2 db1
               = (Raise (StateConflict "accepted"), db1)
            /\ get_handoff_request i db1
               = Some (HandoffRequest.accept now user r)).
  Proof.
    split; [apply accept_not_found|].
    split; [intros r; apply accept_state_conflict|].
    intros r now2 user2 Hr Hst.
    destruct (accept_pending now i user db r Hr Hst) as (db1 & Hacc & Hget).
    exists db1. split; [exact Hacc|]. split; [|exact Hget].
    by rewrite (accept_state_conflict now2 i user2 db1 _ Hget).
  Qed.

End Accept.

Lemma accept_handoff_request_errors_witness :
  HandoffService.accept_handoff_request 102 7 "agent-1" requested_db
  = (Raise NotFound, requested_db)
  /\ HandoffService.accept_handoff_request 104 1 "agent-2" accepted_db
     = (Raise (StateConflict "accepted"), accepted_db)
  /\ exists db1,
       HandoffService.accept_handoff_request 102 1 "agent-1" requested_db
       = (Ok (HandoffRequest.mk 1 "conv-1" "bot-1" "accepted" 101 (Some 102)
                (Some "agent-1") None (Some "help")), db1)
       /\ HandoffService.accept_handoff_request 104 1 "agent-2" db1
          = (Raise (StateConflict "accepted"), db1)
       /\ get_handoff_request 1 db1
          = Some (HandoffRequest.mk 1 "conv-1" "bot-1" "accepted" 101
                    (Some 102) (Some "agent-1") None (Some "help")).
Proof.
  split; [|split].
  - apply (proj1 (accept_handoff_request_errors 102 7 "agent-1"
                    requested_db)).
    reflexivity.
  - apply (proj1 (proj2 (accept_handoff_request_errors 104 1 "agent-2"
                           accepted_db))
             (HandoffRequest.mk 1 "conv-1" "bot-1" "accepted" 101 (Some 102)
                (Some "agent-1") None (Some "help"))).
    + reflexivity.
    + discriminate.
  - apply (proj2 (proj2 (accept_handoff_request_errors 102 1 "agent-1"
                           requested_db))
             (HandoffRequest.mk 1 "conv-1" "bot-1" "pending" 101 None None
                None (Some "help")) 104 "agent-2").
    + reflexivity.
    + reflexivity.
Defined.

(** ** Creating a request *)

Section Create.
Import HandoffService.

Lemma pending_for_spec conversation_uuid r :
  pending_for conversation_uuid r = true <->
  HandoffRequest.conversation_uuid r = conversation_uuid
  /\ HandoffRequest.status r = "pending".
Proof.
  unfold pending_for. rewrite andb_true_iff, !String.eqb_eq. tauto.
Qed.

Lemma create_existing now conversation_uuid chatbot_uuid reason db existing :
  find (pending_for conversation_uuid) (handoff_requests db) = Some existing ->
  create_handoff_request now conversation_uuid chatbot_uuid reason db
  = (existing, db).
Proof. intros Hf. unfold create_handoff_request. by rewrite Hf. Qed.

Lemma create_new now conversation_uuid chatbot_uuid reason db :
  find (pending_for conversation_uuid) (handoff_requests db) = None ->
  let r := HandoffRequest.mk (next_handoff_request_id db) conversation_uuid
             chatbot_uuid "pending" now None None None reason in
  let db' := (create_handoff_request now conversation_uuid chatbot_uuid
                reason db).2 in
  (create_handoff_request now conversation_uuid chatbot_uuid reason db).1 = r
  /\ handoff_requests db' = handoff_requests db ++ [r]
  /\ conversations db'
     = map (fun c => if String.eqb (Conversation.uuid c) conversation_uuid
                     then Conversation.set_handoff_status "requested" c
                     else c) (conversations db).
Proof.
  intros Hf. unfold create_handoff_request. rewrite Hf. simpl.
  split; [done|].
  destruct (get_conversation conversation_uuid db) as [c|] eqn:Hc; simpl.
  - apply find_some in Hc as [_ Hc]. apply String.eqb_eq in Hc.
    by rewrite Hc.
  - split; [done|]. unfold get_conversation in Hc.
    symmetry. erewrite map_ext_in; [apply map_id|].
    intros c Hin. simpl. by rewrite (find_None_In _ _ _ Hc Hin).
Qed.

(** C5: two calls of [create_handoff_request] in a row for one conversation
    return the same request, which is pending, and the second call leaves
    the store, hence the request and the conversation, as the first call
    left it. *)
Theorem create_handoff_request_idempotent
    now1 now2 conversation_uuid chatbot_uuid1 chatbot_uuid2 reason1 reason2 db :
  let first := create_handoff_request now1 conversation_uuid chatbot_uuid1
                 reason1 db in
  let second := create_handoff_request now2 conversation_uuid chatbot_uuid2
                  reason2 first.2 in
  second.1 = first.1
  /\ HandoffRequest.id second.1 = HandoffRequest.id first.1
  /\ second.2 = first.2
  /\ HandoffRequest.status first.1 = "pending"
  /\ HandoffRequest.conversation_uuid first.1 = conversation_uuid.
Proof.
  intros first second.
  assert (Hfound : find (pending_for conversation_uuid)
                     (handoff_requests first.2) = Some first.1).
  { subst first.
    destruct (find (pending_for conversation_uuid) (handoff_requests db))
      as [existing|] eqn:Hf.
    - by rewrite (create_existing _ _ _ _ _ _ Hf).
    - destruct (create_new now1 conversation_uuid chatbot_uuid1 reason1 db Hf)
        as (Hr & Hrs & _).
      rewrite Hrs, Hr, find_app_None by done. simpl.
      unfold pending_for. simpl. by rewrite String.eqb_refl. }
  subst second.
  rewrite (create_existing _ _ _ _ _ _ Hfound). simpl.
  apply find_some in Hfound as [_ Hp]. apply pending_for_spec in Hp.
  tauto.
Qed.

End Create.

(** ** The authority of a conversation under the coordinator *)

Section Authority.
Import HandoffService.

Lemma Forall2_map_self {A} (R : A -> A -> Prop) (f : A -> A) (l : list A) :
  (forall a, In a l -> R a (f a)) -> Forall2 R l (map f l).
Proof.
  induction l as [|a l IH]; simpl; intros HR; constructor.
  - apply HR. by left.
  - apply IH. intros b Hb. apply HR. by right.
Qed.

Lemma transitions_refl call db : transitions call db db.
Proof.
  unfold transitions. rewrite <- (map_id (conversations db)) at 2.
  apply Forall2_map_self. intros c _. split; [done|].
  destruct call; by left.
Qed.

Lemma create_transitions now conversation_uuid chatbot_uuid reason db :
  transitions create_call db
    (create_handoff_request now conversation_uuid chatbot_uuid reason db).2.
Proof.
  destruct (find (pending_for conversation_uuid) (handoff_requests db))
    as [existing|] eqn:Hf.
  - rewrite (create_existing _ _ _ _ _ _ Hf). apply transitions_refl.
  - destruct (create_new now conversation_uuid chatbot_uuid reason db Hf)
      as (_ & _ & Hcs).
    unfold transitions. rewrite Hcs. apply Forall2_map_self.
    intros c _. destruct (String.eqb _ _); simpl; (split; [done|]);
      [by right | by left].
Qed.

Lemma create_consistent now conversation_uuid chatbot_uuid reason db :
  consistent db ->
  consistent
    (create_handoff_request now conversation_uuid chatbot_uuid reason db).2.
Proof.
  intros [Hone Hreq].
  destruct (find (pending_for conversation_uuid) (handoff_requests db))
    as [existing|] eqn:Hf.
  { rewrite (create_existing _ _ _ _ _ _ Hf). by split. }
  destruct (create_new now conversation_uuid chatbot_uuid reason db Hf)
    as (_ & Hrs & Hcs).
  set (db' := (create_handoff_request _ _ _ _ db).2) in *.
  set (new := HandoffRequest.mk _ _ _ _ _ _ _ _ _) in *.
  assert (Hold : forall r, In r (handoff_requests db) ->
                 HandoffRequest.status r = "pending" ->
                 HandoffRequest.conversation_uuid r <> conversation_uuid).
  { intros r Hin Hst Hcu.
    pose proof (find_None_In _ _ _ Hf Hin) as Hp.
    assert (pending_for conversation_uuid r = true)
      by (by apply pending_for_spec).
    congruence. }
  split.
  - intros i j r1 r2. rewrite Hrs. intros H1 H2 Hp1 Hp2 Hcu.
    apply lookup_app_Some in H1 as [H1|[Hi H1]];
      apply lookup_app_Some in H2 as [H2|[Hj H2]].
    + eauto.
    + apply list_lookup_singleton_Some in H2 as [_ <-].
      exfalso. eapply Hold; [eapply lookup_In, H1 | done | by rewrite Hcu].
    + apply list_lookup_singleton_Some in H1 as [_ <-].
      exfalso. eapply Hold; [eapply lookup_In, H2 | done | by rewrite <- Hcu].
    + apply list_lookup_singleton_Some in H1 as [H1 _].
      apply list_lookup_singleton_Some in H2 as [H2 _]. lia.
  - intros r c. rewrite Hrs, Hcs. intros Hr Hst Hc Hu.
    apply in_map_iff in Hc as (c0 & <- & Hc0).
    destruct (String.eqb_spec (Conversation.uuid c0) conversation_uuid)
      as [Heq|Hne]; [done|].
    apply in_app_iff in Hr as [Hr|[<-|[]]].
    + by apply (Hreq r c0).
    + simpl in Hu. done.
Qed.

Lemma accept_inv now i user db r db' :
  accept_handoff_request now i user db = (Ok r, db') ->
  exists r0,
    get_handoff_request i db = Some r0
    /\ HandoffRequest.status r0 = "pending"
    /\ handoff_requests db'
       = map (fun r => if Nat.eqb (HandoffRequest.id r) i
                       then HandoffRequest.accept now user r else r)
             (handoff_requests db)
    /\ conversations db'
       = map (fun c => if String.eqb (Conversation.uuid c)
                            (HandoffRequest.conversation_uuid r0)
                       then Conversation.set_assigned_to_user_uuid (Some user)
                              (Conversation.set_handoff_status "human" c)
                       else c) (conversations db).
Proof.
  unfold accept_handoff_request.
  destruct (get_handoff_request i db) as [r0|] eqn:Hr; [|done].
  destruct (String.eqb_spec (HandoffRequest.status r0) "pending")
    as [Hst|Hst]; simpl; [|done].
  intros [= <- <-]. exists r0. split; [done|]. split; [done|].
  assert (Hid : HandoffRequest.id r0 = i).
  { apply find_some in Hr as [_ Hr]. by apply Nat.eqb_eq. }
  rewrite Hid.
  destruct (get_conversation _ db) as [c|] eqn:Hc; simpl.
  - apply find_some in Hc as [_ Hc]. apply String.eqb_eq in Hc.
    by rewrite Hc.
  - split; [done|]. unfold get_conversation in Hc.
    symmetry. erewrite map_ext_in; [apply map_id|].
    intros c Hin. simpl. by rewrite (find_None_In _ _ _ Hc Hin).
Qed.

Lemma accept_transitions now i user db r db' :
  consistent db ->
  accept_handoff_request now i user db = (Ok r, db') ->
  transitions accept_call db db'.
Proof.
  intros [_ Hreq] Hacc.
  destruct (accept_inv _ _ _ _ _ _ Hacc) as (r0 & Hr0 & Hst & _ & Hcs).
  apply find_some in Hr0 as [Hin _].
  unfold transitions. rewrite Hcs. apply Forall2_map_self.
  intros c Hc.
  destruct (String.eqb_spec (Conversation.uuid c)
              (HandoffRequest.conversation_uuid r0)) as [Heq|Hne]; simpl.
  - split; [done|]. right. split; [|done]. by apply (Hreq r0 c).
  - split; [done|]. by left.
Qed.

Lemma accept_consistent now i user db r db' :
  consistent db ->
  accept_handoff_request now i user db = (Ok r, db') ->
  consistent db'.
Proof.
  intros [Hone Hreq] Hacc.
  destruct (accept_inv _ _ _ _ _ _ Hacc) as (r0 & Hr0 & Hst0 & Hrs & Hcs).
  apply find_some in Hr0 as [Hin0 Hid0]. apply Nat.eqb_eq in Hid0.
  assert (Hkept : forall k r', handoff_requests db' !! k = Some r' ->
            HandoffRequest.status r' = "pending" ->
            handoff_requests db !! k = Some r'
            /\ HandoffRequest.id r' <> i).
  { intros k r'. rewrite Hrs, list_lookup_fmap.
    destruct (handoff_requests db !! k) as [r1|]; simpl; [|done].
    destruct (Nat.eqb_spec (HandoffRequest.id r1) i); intros [= <-]; [done|].
    done. }
  split.
  - intros k1 k2 r1 r2 H1 H2 Hp1 Hp2 Hcu.
    apply Hkept in H1 as [H1 _]; [|done].
    apply Hkept in H2 as [H2 _]; [|done]. eauto.
  - intros r' c' Hr' Hst' Hc' Hu.
    apply In_lookup in Hr' as [k Hk].
    apply Hkept in Hk as [Hk Hne]; [|done].
    rewrite Hcs in Hc'. apply in_map_iff in Hc' as (c & <- & Hc).
    destruct (String.eqb_spec (Conversation.uuid c)
                (HandoffRequest.conversation_uuid r0)) as [Heq|Hneq].
    + exfalso. simpl in Hu.
      apply In_lookup in Hin0 as [k0 Hk0].
      assert (k = k0) by (eapply Hone; eauto; congruence).
      subst k0. congruence.
    + apply (Hreq r' c); eauto using lookup_In.
Qed.

Lemma coordinator_step_legal call db db' :
  consistent db ->
  coordinator_step call db db' ->
  transitions call db db' /\ consistent db'.
Proof.
  intros Hc Hstep. destruct Hstep.
  - split; [apply create_transitions | by apply create_consistent].
  - split; [by eapply accept_transitions | by eapply accept_consistent].
Qed.

End Authority.

(** ** The routes of the coordinator are chains of service calls *)

Section Routes.
Import HandoffService.

Lemma any_step_create now conversation_uuid chatbot_uuid reason db :
  any_step db
    (create_handoff_request now conversation_uuid chatbot_uuid reason db).2.
Proof. exists create_call. constructor. Qed.

Lemma rtc_accept now i user db :
  rtc any_step db (accept_handoff_request now i user db).2.
Proof.
  destruct (accept_handoff_request now i user db) as [[r|e] db'] eqn:Hacc.
  - apply rtc_once. exists accept_call. econstructor. exact Hacc.
  - simpl. unfold accept_handoff_request in Hacc.
    destruct (get_handoff_request i db); [|by inversion Hacc].
    destruct (negb _); by inversion Hacc.
Qed.

Lemma rtc_reconcile now chatbot_uuid existing cs requests db :
  rtc any_step db
    (HandoffRoutes.reconcile now chatbot_uuid existing cs requests db).1.2.
Proof.
  revert requests db. induction cs as [|c cs IH]; intros requests db; simpl.
  - apply rtc_refl.
  - destruct (existsb _ existing); [apply IH|].
    unfold_M.
    destruct (create_handoff_request now (Conversation.uuid c) chatbot_uuid
                _ db) as [req db1] eqn:Hc.
    specialize (IH (requests ++ [req]) db1).
    destruct (HandoffRoutes.reconcile _ _ _ cs _ db1) as [[r db2] t2].
    simpl in *. eapply rtc_l; [|exact IH].
    replace db1 with (create_handoff_request now (Conversation.uuid c)
                        chatbot_uuid
                        (Some "Auto-created from conversation status") db).2
      by (by rewrite Hc).
    apply any_step_create.
Qed.

Lemma rtc_run op db : rtc any_step db (run op db).
Proof.
  destruct op as [now cu reason | now i user | now cb authorized
                 | now cu user authorized]; simpl.
  - unfold HandoffRoutes.create_handoff_request. unfold_M.
    destruct (get_conversation cu db) as [c|]; simpl; [|apply rtc_refl].
    destruct (create_handoff_request now cu _ reason db) as [r db1] eqn:Hc.
    simpl. apply rtc_once.
    replace db1 with (create_handoff_request now cu
                        (Conversation.chatbot_uuid c) reason db).2
      by (by rewrite Hc).
    apply any_step_create.
  - unfold HandoffRoutes.accept_handoff_request. unfold_M.
    pose proof (rtc_accept now i user db) as Hacc.
    by destruct (accept_handoff_request now i user db) as [[r|e] db'].
  - unfold HandoffRoutes.get_pending_handoff_requests. unfold_M.
    destruct (get_chatbot cb db); simpl; [|apply rtc_refl].
    destruct authorized; simpl; [|apply rtc_refl].
    match goal with
    | |- context [HandoffRoutes.reconcile ?a ?b ?c ?d ?e db] =>
        pose proof (rtc_reconcile a b c d e db) as Hrec;
        destruct (HandoffRoutes.reconcile a b c d e db) as [[[r|e0] db1] t1]
    end; exact Hrec.
  - unfold HandoffRoutes.take_over_conversation. unfold_M.
    destruct (get_conversation cu db) as [c|]; simpl; [|apply rtc_refl].
    destruct (get_chatbot _ db); simpl; [|apply rtc_refl].
    destruct authorized; simpl; [|apply rtc_refl].
    destruct (get_handoff_request_by_conversation cu db) as [r|]; simpl.
    + destruct (String.eqb _ "pending"); simpl; [|apply rtc_refl].
      pose proof (rtc_accept now (HandoffRequest.id r) user db) as Hacc.
      by destruct (accept_handoff_request now _ user db) as [[r'|e] db'].
    + destruct (create_handoff_request now cu _ _ db) as [r db1] eqn:Hc.
      simpl.
      assert (any_step db db1) as Hstep.
      { replace db1 with (create_handoff_request now cu
                            (Conversation.chatbot_uuid c)
                            (Some "Manual takeover") db).2
          by (by rewrite Hc).
        apply any_step_create. }
      destruct (String.eqb _ "pending"); simpl; [|by apply rtc_once].
      pose proof (rtc_accept now (HandoffRequest.id r) user db1) as Hacc.
      destruct (accept_handoff_request now _ user db1) as [[r'|e] db'];
        simpl in *; by eapply rtc_l.
Qed.

Lemma rtc_legal db db' :
  consistent db -> rtc any_step db db' ->
  rtc legal_step db db' /\ consistent db'.
Proof.
  intros Hc Hsteps. induction Hsteps as [db|db db1 db2 [call Hstep] _ IH].
  - split; [apply rtc_refl | done].
  - destruct (coordinator_step_legal _ _ _ Hc Hstep) as [Htr Hc1].
    destruct (IH Hc1) as [Hrest Hc2]. split; [|done].
    eapply rtc_l; [|exact Hrest]. by exists call.
Qed.

Lemma legal_never_back_to_ai call before after :
  legal call before after -> after = "ai" -> before = "ai".
Proof. destruct call; simpl; intuition congruence. Qed.

Lemma rtc_legal_never_back_to_ai db db' :
  rtc legal_step db db' ->
  Forall2 (fun c c' =>
             Conversation.uuid c' = Conversation.uuid c
             /\ (Conversation.handoff_status c' = "ai" ->
                 Conversation.handoff_status c = "ai"))
    (conversations db) (conversations db').
Proof.
  induction 1 as [db|db db1 db2 (call & _ & Htr) _ IH].
  - apply Forall_Forall2_diag, Forall_forall. by intros.
  - unfold transitions in Htr. revert IH Htr.
    generalize (conversations db) (conversations db1) (conversations db2).
    intros l l1 l2 H12. revert l.
    induction H12 as [|c1 c2 l1 l2 [Hu Hai] _ IH]; intros l H01;
      inversion H01 as [|c0 ? l0 ? [Hu0 Hl] H01']; subst; constructor.
    + split; [congruence|]. intros Hc2. eapply legal_never_back_to_ai; eauto.
    + by apply IH.
Qed.

End Routes.

(** ** The path of the authority *)

Lemma sample_db_consistent : consistent sample_db.
Proof.
  split.
  - intros i j r1 r2 H1. simpl in H1. by rewrite lookup_nil in H1.
  - intros r c [].
Qed.

Lemma accepted_db_consistent : consistent accepted_db.
Proof.
  unfold accepted_db.
  eapply rtc_legal; [|apply rtc_run].
  eapply rtc_legal; [|apply rtc_run].
  apply sample_db_consistent.
Qed.

(** C1 (as amended): every operation of the coordinator is a chain of
    service calls, each of which keeps every conversation in place and
    either keeps its authority, or sets it to [requested]
    ([create_handoff_request], from any state), or moves it from
    [requested] to [human] ([accept_handoff_request]); the store stays
    consistent, and no conversation ever returns to [ai]. *)
Theorem handoff_authority_path op db :
  consistent db ->
  rtc legal_step db (run op db)
  /\ consistent (run op db)
  /\ Forall2 (fun c c' =>
                Conversation.uuid c' = Conversation.uuid c
                /\ (Conversation.handoff_status c' = "ai" ->
                    Conversation.handoff_status c = "ai"))
       (conversations db) (conversations (run op db)).
Proof.
  intros Hc.
  destruct (rtc_legal db (run op db) Hc (rtc_run op db)) as [Hsteps Hc'].
  split; [done|]. split; [done|].
  by apply rtc_legal_never_back_to_ai.
Qed.

Lemma handoff_authority_path_witness :
  rtc legal_step sample_db (run (TakeOver 101 "conv-1" "agent-1" true) sample_db)
  /\ consistent (run (TakeOver 101 "conv-1" "agent-1" true) sample_db)
  /\ Forall2 (fun c c' =>
                Conversation.uuid c' = Conversation.uuid c
                /\ (Conversation.handoff_status c' = "ai" ->
                    Conversation.handoff_status c = "ai"))
       (conversations sample_db)
       (conversations (run (TakeOver 101 "conv-1" "agent-1" true) sample_db)).
Proof.
  apply (handoff_authority_path (TakeOver 101 "conv-1" "agent-1" true)
           sample_db).
  split.
  - intros i j r1 r2 H1. simpl in H1. by rewrite lookup_nil in H1.
  - intros r c [].
Defined.

(** C1 (as stated) fails: on the consistent store [accepted_db], whose
    conversation is in the state [human], [create_handoff_request] succeeds
    with a new pending request and moves the conversation back to
    [requested]. *)
Lemma create_request_reverses_authority :
  ~ (forall call db db',
       consistent db -> coordinator_step call db db' -> forward_only db db').
Proof.
  intros Hclaim.
  specialize (Hclaim create_call accepted_db _ accepted_db_consistent
                (step_create 103 "conv-1" "bot-1" None accepted_db)).
  vm_compute in Hclaim.
  inversion Hclaim as [|c c' l l' Hf _]; subst.
  destruct Hf as [Hf|[[Hf _]|[Hf _]]]; discriminate Hf.
Qed.

Example accepted_db_is_human :
  Conversation.handoff_status <$> get_conversation "conv-1" accepted_db
  = Some "human".
Proof. reflexivity. Qed.

Example create_after_accept :
  let '(r, db') :=
    HandoffService.create_handoff_request 103 "conv-1" "bot-1" None
      accepted_db in
  HandoffRequest.id r = 2
  /\ HandoffRequest.status r = "pending"
  /\ Conversation.handoff_status <$> get_conversation "conv-1" db'
     = Some "requested".
Proof. vm_compute. done. Qed.

(** ** Broadcasting to the dashboards of a chatbot *)

Section Broadcast.
Import ConnectionManager.

Lemma broadcast_no_connections alive message chatbot_uuid m :
  dashboard_connections m !! chatbot_uuid = None
  \/ dashboard_connections m !! chatbot_uuid = Some ∅ ->
  broadcast_to_dashboard alive message chatbot_uuid m = ([], m).
Proof.
  unfold broadcast_to_dashboard. intros [-> | ->]; [done|].
  by rewrite bool_decide_eq_true_2.
Qed.

Lemma broadcast_loop_attempts alive message chatbot_uuid connections m :
  (broadcast_loop alive message chatbot_uuid connections m).1
  = map (fun c => sent c message (alive c)) connections.
Proof.
  revert m. induction connections as [|c cs IH]; intros m; simpl; [done|].
  specialize (IH (if alive c then m else remove_dead c chatbot_uuid m)).
  destruct (broadcast_loop _ _ _ cs _) as [log m2]. simpl in *.
  by rewrite IH.
Qed.

(** Delivery is attempted once on every connection of the group, whatever
    the outcome of the other sends, and nothing is raised. *)
Lemma broadcast_attempts_every_connection alive message chatbot_uuid m s :
  dashboard_connections m !! chatbot_uuid = Some s -> s <> ∅ ->
  (broadcast_to_dashboard alive message chatbot_uuid m).1
  = map (fun c => sent c message (alive c)) (elements s).
Proof.
  intros Hs Hne. unfold broadcast_to_dashboard. rewrite Hs.
  rewrite bool_decide_eq_false_2 by done.
  apply broadcast_loop_attempts.
Qed.

Lemma broadcast_loop_unrecorded alive message chatbot_uuid connections m :
  session_recorded chatbot_uuid m = false ->
  (broadcast_loop alive message chatbot_uuid connections m).2 = m.
Proof.
  intros Hrec. induction connections as [|c cs IH]; simpl; [done|].
  assert (Hm : (if alive c then m else remove_dead c chatbot_uuid m) = m).
  { destruct (alive c); [done|]. unfold remove_dead.
    unfold session_recorded in Hrec. by rewrite Hrec. }
  rewrite Hm. by destruct (broadcast_loop _ _ _ cs m).
Qed.

Lemma broadcast_loop_recorded alive message chatbot_uuid connections m s :
  session_recorded chatbot_uuid m = true ->
  dashboard_connections m !! chatbot_uuid = Some s ->
  (broadcast_loop alive message chatbot_uuid connections m).2
  = mk (active_connections m)
       (<[chatbot_uuid := s ∖ dead_among alive connections]>
          (dashboard_connections m))
       (dashboard_session_map m).
Proof.
  revert m s. induction connections as [|c cs IH]; intros m s Hrec Hs; simpl.
  - unfold dead_among. simpl. rewrite difference_empty_L.
    rewrite insert_id by done. by destruct m.
  - destruct (alive c) eqn:Hc; simpl.
    + specialize (IH m s Hrec Hs).
      destruct (broadcast_loop _ _ _ cs m) as [log m2]. simpl in *.
      rewrite IH. unfold dead_among. simpl. by rewrite Hc.
    + assert (Hrd : remove_dead c chatbot_uuid m
                    = mk (active_connections m)
                         (<[chatbot_uuid := s ∖ {[c]}]>
                            (dashboard_connections m))
                         (dashboard_session_map m)).
      { unfold remove_dead. unfold session_recorded in Hrec.
        by rewrite Hrec, Hs. }
      rewrite Hrd.
      specialize (IH (mk (active_connections m)
                         (<[chatbot_uuid := s ∖ {[c]}]>
                            (dashboard_connections m))
                         (dashboard_session_map m))
                     (s ∖ {[c]}) Hrec).
      simpl in IH. rewrite lookup_insert_eq in IH. specialize (IH eq_refl).
      destruct (broadcast_loop _ _ _ cs _) as [log m2]. simpl in *.
      rewrite IH, insert_insert_eq. f_equal. f_equal.
      unfold dead_among. simpl. rewrite Hc. simpl.
      apply set_eq. intros x.
      rewrite !elem_of_difference, elem_of_union, elem_of_singleton. tauto.
Qed.

(** When a session is recorded for the chatbot, exactly the connections on
    which the send failed leave the group. *)
Lemma broadcast_removes_dead alive message chatbot_uuid m s :
  session_recorded chatbot_uuid m = true ->
  dashboard_connections m !! chatbot_uuid = Some s -> s <> ∅ ->
  dashboard_connections
    (broadcast_to_dashboard alive message chatbot_uuid m).2 !! chatbot_uuid
  = Some (s ∖ dead_among alive (elements s)).
Proof.
  intros Hrec Hs Hne. unfold broadcast_to_dashboard. rewrite Hs.
  rewrite bool_decide_eq_false_2 by done.
  rewrite (broadcast_loop_recorded _ _ _ _ _ s Hrec Hs). simpl.
  apply lookup_insert_eq.
Qed.

(** C9: a dashboard connection on which the send fails stays registered
    when no session is recorded for its chatbot any more.  Two tabs share
    the session ["dashboard_a"]; closing the first removes the session from
    [dashboard_session_map]; a failed broadcast to the second then finds no
    session for the chatbot and leaves the dead connection in the group. *)
Theorem broadcast_keeps_dead_connection :
  let message := Frame.new_message "conv-1" "bot-1" "user" in
  let '(log, m') :=
    broadcast_to_dashboard (fun _ => false) message "bot-1"
      two_tabs_one_closed in
  dashboard_connections two_tabs_one_closed !! "bot-1" = Some {[2]}
  /\ dashboard_session_map two_tabs_one_closed = ∅
  /\ log = [sent 2 message false]
  /\ dashboard_connections m' !! "bot-1" = Some {[2]}.
Proof. vm_compute. done. Qed.

Example broadcast_two_dashboards :
  let message := Frame.new_message "conv-1" "bot-1" "user" in
  let '(log, m') :=
    broadcast_to_dashboard (fun c => Nat.eqb c 2) message "bot-1"
      two_dashboards in
  log = [sent 2 message true; sent 1 message false]
  /\ dashboard_connections m' !! "bot-1" = Some {[2]}.
Proof. vm_compute. done. Qed.

Example broadcast_nobody :
  broadcast_to_dashboard (fun _ => true) Frame.pong "bot-2" two_dashboards
  = ([], two_dashboards).
Proof. reflexivity. Qed.

End Broadcast.

(** ** Customer identity fields *)

Section Identity.
Context `{Collaborators}.

Lemma get_conversation_modify u v f db :
  (forall c, Conversation.uuid (f c) = Conversation.uuid c) ->
  get_conversation u (modify_conversation v f db)
  = (fun c => if String.eqb (Conversation.uuid c) v then f c else c)
    <$> get_conversation u db.
Proof.
  intros Hf. unfold get_conversation, modify_conversation. simpl.
  apply find_map_stable. intros c.
  destruct (String.eqb (Conversation.uuid c) v); by rewrite ?Hf.
Qed.

Lemma kept_refl c : kept c c.
Proof. by repeat split. Qed.

Lemma kept_trans c1 c2 c3 : kept c1 c2 -> kept c2 c3 -> kept c1 c3.
Proof.
  intros (Hn & He & Hp) (Hn' & He' & Hp'). repeat split.
  - intros Ht Ha. rewrite <- (Hn Ht Ha). apply Hn'; by rewrite (Hn Ht Ha).
  - intros Ht. rewrite <- (He Ht). apply He'. by rewrite (He Ht).
  - intros Ht. rewrite <- (Hp Ht). apply Hp'. by rewrite (Hp Ht).
Qed.

Lemma related_refl R db :
  (forall c, R c c) -> conversations_related R db db.
Proof. intros HR u c Hc. eauto. Qed.

Lemma related_trans R db1 db2 db3 :
  (forall a b c, R a b -> R b c -> R a c) ->
  conversations_related R db1 db2 -> conversations_related R db2 db3 ->
  conversations_related R db1 db3.
Proof.
  intros HR H12 H23 u c Hc.
  destruct (H12 u c Hc) as (c2 & Hc2 & R12).
  destruct (H23 u c2 Hc2) as (c3 & Hc3 & R23). eauto.
Qed.

Lemma related_modify R v f db :
  (forall c, Conversation.uuid (f c) = Conversation.uuid c) ->
  (forall c, R c c) ->
  (forall c, get_conversation v db = Some c -> R c (f c)) ->
  conversations_related R db (modify_conversation v f db).
Proof.
  intros Hf Hrefl HR u c Hc. rewrite get_conversation_modify, Hc by done.
  simpl. eexists. split; [done|].
  pose proof Hc as Hu. apply find_some in Hu as [_ Hu].
  apply String.eqb_eq in Hu.
  destruct (String.eqb_spec (Conversation.uuid c) v); [|done].
  apply HR. congruence.
Qed.

Lemma related_same_conversations R db db' :
  (forall c, R c c) -> conversations db' = conversations db ->
  conversations_related R db db'.
Proof.
  intros HR Hcs u c Hc. exists c. split; [|done].
  unfold get_conversation in *. by rewrite Hcs.
Qed.

Lemma modify_conversation_twice u f g db :
  (forall c, Conversation.uuid (g c) = Conversation.uuid c) ->
  modify_conversation u f (modify_conversation u g db)
  = modify_conversation u (fun c => f (g c)) db.
Proof.
  intros Hg. unfold modify_conversation, with_conversations. simpl.
  f_equal. rewrite map_map. apply map_ext. intros c.
  destruct (String.eqb (Conversation.uuid c) u) eqn:E; rewrite ?Hg, E; done.
Qed.

(** The three guarded assignments of [update_conversation_details]. *)
Lemma update_conversation_details_kept conversation message_text db :
  get_conversation (Conversation.uuid conversation) db = Some conversation ->
  conversations_related kept db
    (ConversationDetailsService.update_conversation_details conversation
       message_text db).2.
Proof.
  intros Hrow. unfold ConversationDetailsService.update_conversation_details.
  destruct (truthy (Conversation.customer_email conversation)) eqn:E1;
    destruct (truthy (extract_email message_text)) eqn:X1;
    destruct (truthy (Conversation.customer_phone conversation)) eqn:E2;
    destruct (truthy (extract_phone message_text)) eqn:X2;
    destruct (truthy (Conversation.customer_name conversation)) eqn:E3;
    destruct (bool_decide (Conversation.customer_name conversation
                           = Some "Anonymous")) eqn:E4;
    destruct (truthy (extract_name message_text)) eqn:X3; simpl;
    rewrite ?modify_conversation_twice by done;
    try (apply related_refl, kept_refl);
    (apply related_modify; [done | apply kept_refl |]);
    intros c Hc; rewrite Hrow in Hc; injection Hc as <-;
    apply bool_decide_eq_true in E4 || apply bool_decide_eq_false in E4;
    unfold kept; setters; rewrite ?E1, ?E2, ?E3; repeat split; done.
Qed.

Section Preserves.
Context (Q : DB -> DB -> Prop).
Hypothesis Q_refl : forall db, Q db db.
Hypothesis Q_trans : forall a b c, Q a b -> Q b c -> Q a c.

Lemma preserves_ret {A} (a : A) : preserves Q (mret a).
Proof. intros db. apply Q_refl. Qed.

Lemma preserves_raise {A} e : preserves Q (raise e : M A).
Proof. intros db. apply Q_refl. Qed.

Lemma preserves_emit ef : preserves Q (emit ef).
Proof. intros db. apply Q_refl. Qed.

Lemma preserves_query {A} (q : DB -> A) : preserves Q (query q).
Proof. intros db. apply Q_refl. Qed.

Lemma preserves_write {A} (w : DB -> A * DB) :
  (forall db, Q db (w db).2) -> preserves Q (write w).
Proof. intros Hw db. unfold write. specialize (Hw db). by destruct (w db). Qed.

Lemma preserves_bind {A B} (m : M A) (k : A -> M B) :
  preserves Q m -> (forall a, preserves Q (k a)) -> preserves Q (m ≫= k).
Proof.
  intros Hm Hk db. unfold_M. specialize (Hm db).
  destruct (m db) as [[[a|e] db1] t1]; simpl in *; [|done].
  specialize (Hk a db1). destruct (k a db1) as [[r db2] t2]. simpl in *.
  by eapply Q_trans.
Qed.

Lemma preserves_try_except {A} (body : M A) (handler : exn -> M A) :
  preserves Q body -> (forall e, preserves Q (handler e)) ->
  preserves Q (try_except body handler).
Proof.
  intros Hm Hk db. unfold_M. specialize (Hm db).
  destruct (body db) as [[[a|e] db1] t1]; simpl in *; [done|].
  specialize (Hk e db1). destruct (handler e db1) as [[r db2] t2]. simpl in *.
  by eapply Q_trans.
Qed.

End Preserves.

Lemma related_kept_refl db : conversations_related kept db db.
Proof. apply related_refl, kept_refl. Qed.

Lemma related_kept_trans a b c :
  conversations_related kept a b -> conversations_related kept b c ->
  conversations_related kept a c.
Proof. apply related_trans, kept_trans. Qed.

Lemma create_handoff_request_kept now conversation_uuid chatbot_uuid reason db :
  conversations_related kept db
    (HandoffService.create_handoff_request now conversation_uuid chatbot_uuid
       reason db).2.
Proof.
  unfold HandoffService.create_handoff_request.
  destruct (find _ (handoff_requests db)); simpl;
    [apply related_refl, kept_refl|].
  destruct (get_conversation conversation_uuid db) as [c|]; simpl.
  - eapply related_trans; [apply kept_trans | |].
    + apply (related_modify kept (Conversation.uuid c)
               (Conversation.set_handoff_status "requested"));
        [done | apply kept_refl | intros; by repeat split].
    + by apply related_same_conversations; [apply kept_refl|].
  - by apply related_same_conversations; [apply kept_refl|].
Qed.

Lemma touch_kept now u db :
  conversations_related kept db
    (modify_conversation u (Conversation.set_updated_at now) db).
Proof.
  apply related_modify; [done | apply kept_refl | intros; by repeat split].
Qed.

Lemma prepare_chat_run_kept now chatbot_uuid conversation_uuid user_message :
  preserves (conversations_related kept)
    (ChatService._prepare_chat_run now chatbot_uuid conversation_uuid
       user_message).
Proof.
  intros db. unfold ChatService._prepare_chat_run. unfold_M.
  destruct (get_chatbot chatbot_uuid db) as [b|]; simpl;
    [|apply related_refl, kept_refl].
  destruct (negb _); simpl; [apply related_refl, kept_refl|].
  change (get_conversation conversation_uuid (modify_chatbot _ _ db))
    with (get_conversation conversation_uuid db).
  destruct (get_conversation conversation_uuid db) as [c|] eqn:Hc; simpl;
    [|by apply related_same_conversations; [apply kept_refl|]].
  match goal with
  | |- context [ConversationDetailsService.update_conversation_details c
                  user_message ?d] =>
      pose proof (update_conversation_details_kept c user_message d) as Hk;
      destruct (ConversationDetailsService.update_conversation_details c
                  user_message d) as [updated db3]
  end.
  simpl in *. eapply related_trans; [apply kept_trans | | apply Hk].
  - by apply related_same_conversations; [apply kept_refl|].
  - pose proof Hc as Hu. apply find_some in Hu as [_ Hu].
    apply String.eqb_eq in Hu. by rewrite Hu.
Qed.

Ltac relating_kept :=
  first [ apply preserves_ret | apply preserves_raise | apply preserves_emit
        | apply preserves_query | apply preserves_bind
        | apply preserves_try_except | apply preserves_write ];
  try apply related_kept_refl; try apply related_kept_trans.

Lemma process_message_kept now chatbot_uuid conversation_uuid user_message :
  preserves (conversations_related kept)
    (ChatService.process_message now chatbot_uuid conversation_uuid
       user_message).
Proof.
  unfold ChatService.process_message.
  relating_kept; [apply prepare_chat_run_kept|].
  intros [conversation lc_messages].
  relating_kept; [relating_kept|]; intros _.
  relating_kept; [relating_kept|]; intros _.
  destruct (graph_ainvoke lc_messages) as [[ai_response should]|e];
    [|relating_kept].
  relating_kept; [|intros _].
  { relating_kept; intros db;
      by apply related_same_conversations; [apply kept_refl|]. }
  relating_kept; [|intros _].
  { destruct (if user_explicitly_requests_handoff user_message then true
              else should); [|relating_kept].
    relating_kept; [|intros; relating_kept].
    relating_kept; intros db; apply create_handoff_request_kept. }
  relating_kept; [|intros; relating_kept].
  relating_kept; intros db; apply touch_kept.
Qed.

Lemma get_or_create_conversation_kept now uuid chatbot_uuid session_id
    client_uuid :
  preserves (conversations_related kept)
    (ChatService.get_or_create_conversation now uuid chatbot_uuid session_id
       client_uuid).
Proof.
  intros db. unfold ChatService.get_or_create_conversation,
    ChatService.create_conversation. unfold_M.
  destruct (find _ (conversations db)); simpl;
    [apply related_refl, kept_refl|].
  destruct (get_conversation uuid db); simpl;
    [apply related_refl, kept_refl|].
  intros u c Hc. exists c. split; [|apply kept_refl].
  unfold get_conversation in *. simpl. by apply find_app_Some.
Qed.

Lemma send_message_kept now uuid4 chatbot_uuid request :
  truthy (ChatRoutes.request_customer_name request) = false ->
  truthy (ChatRoutes.request_customer_email request) = false ->
  preserves (conversations_related kept) (ChatRoutes.send_message now uuid4 chatbot_uuid request).
Proof.
  intros Hn He. unfold ChatRoutes.send_message. rewrite Hn, He.
  relating_kept; [relating_kept|].
  intros [b|]; [|relating_kept].
  relating_kept; [apply get_or_create_conversation_kept|].
  intros conversation.
  relating_kept; [|intros _].
  { relating_kept; intros db; apply related_refl, kept_refl. }
  relating_kept; [|intros _].
  { relating_kept; intros db; apply related_refl, kept_refl. }
  relating_kept; [|intros e; relating_kept].
  relating_kept; [apply process_message_kept|].
  intros _. relating_kept.
Qed.

(** C7 (as amended): the detail extraction never overwrites an e-mail
    address or a phone number that is set, nor a name that is set and is not
    the placeholder ["Anonymous"]; the REST send-message endpoint keeps the
    same for every conversation when the request carries neither a name nor
    an e-mail address. *)
Theorem customer_identity_kept :
  (forall conversation message_text db,
     get_conversation (Conversation.uuid conversation) db = Some conversation ->
     conversations_related kept db
       (ConversationDetailsService.update_conversation_details conversation
          message_text db).2)
  /\ (forall now uuid4 chatbot_uuid request db,
        truthy (ChatRoutes.request_customer_name request) = false ->
        truthy (ChatRoutes.request_customer_email request) = false ->
        conversations_related kept db
          (ChatRoutes.send_message now uuid4 chatbot_uuid request db).1.2).
Proof.
  split.
  - apply update_conversation_details_kept.
  - intros now uuid4 chatbot_uuid request db Hn He.
    by apply send_message_kept.
Qed.

End Identity.

Lemma customer_identity_kept_witness :
  conversations_related kept known_customer_db
    (@ConversationDetailsService.update_conversation_details
       sample_collaborators known_customer "call me John" known_customer_db).2
  /\ conversations_related kept known_customer_db
       (@ChatRoutes.send_message sample_collaborators 101 "conv-9" "bot-1"
          plain_request known_customer_db).1.2.
Proof.
  destruct (@customer_identity_kept sample_collaborators) as [H1 H2].
  split; [apply H1; reflexivity | apply H2; reflexivity].
Defined.

(** C7 (as stated) fails twice: the detail extraction replaces the name
    ["Anonymous"], which is set, by the extracted name, and the REST
    endpoint replaces the name and the e-mail address of a known customer by
    the ones the request carries. *)
Lemma customer_identity_overwritten :
  ~ (forall (E : Collaborators) conversation message_text db,
       get_conversation (Conversation.uuid conversation) db
       = Some conversation ->
       conversations_related never_overwritten db
         (ConversationDetailsService.update_conversation_details conversation
            message_text db).2)
  /\ ~ (forall (E : Collaborators) now uuid4 chatbot_uuid request db,
          conversations_related never_overwritten db
            (ChatRoutes.send_message now uuid4 chatbot_uuid request db).1.2).
Proof.
  split.
  - intros Hclaim.
    specialize (Hclaim sample_collaborators sample_conversation
                  "call me John" sample_db eq_refl "conv-1"
                  sample_conversation eq_refl).
    destruct Hclaim as (c' & Hget & Hname & _).
    vm_compute in Hget. injection Hget as <-.
    specialize (Hname eq_refl). vm_compute in Hname. discriminate Hname.
  - intros Hclaim.
    specialize (Hclaim sample_collaborators 101 "conv-9" "bot-1"
                  renaming_request known_customer_db "conv-2"
                  known_customer eq_refl).
    destruct Hclaim as (c' & Hget & Hname & _).
    vm_compute in Hget. injection Hget as <-.
    specialize (Hname eq_refl). vm_compute in Hname. discriminate Hname.
Qed.

Example anonymous_is_replaced :
  Conversation.customer_name
    <$> get_conversation "conv-1"
          (@ConversationDetailsService.update_conversation_details
             sample_collaborators sample_conversation "call me John"
             sample_db).2
  = Some (Some "John").
Proof. reflexivity. Qed.

Example rest_request_renames :
  (fun c => (Conversation.customer_name c, Conversation.customer_email c))
    <$> get_conversation "conv-2"
          (@ChatRoutes.send_message sample_collaborators 101 "conv-9" "bot-1"
             renaming_request known_customer_db).1.2
  = Some (Some "Bob", Some "bob@example.com").
Proof. vm_compute. reflexivity. Qed.

(** ** Binding a session to a conversation *)

Section Binding.


Lemma In_firstn_In {A} n (l : list A) x : In x (firstn n l) -> In x l.
Proof.
  revert n. induction l as [|a l IH]; intros [|n]; simpl; try done.
  intros [->|Hx]; [by left | right; by apply (IH n)].
Qed.

Lemma In_skipn_In {A} n (l : list A) x : In x (skipn n l) -> In x l.
Proof.
  revert n. induction l as [|a l IH]; intros [|n]; simpl; try done.
  intros Hx. right. by apply (IH n).
Qed.

Lemma In_insert_asc m x l :
  In x (ChatService.insert_asc m l) -> x = m \/ In x l.
Proof.
  induction l as [|a l IH]; simpl.
  - intros [->|[]]. by left.
  - destruct (Nat.leb _ _); simpl.
    + intros [->|[->|Hx]]; [by left | right; by left | right; by right].
    + intros [->|Hx]; [right; by left|].
      destruct (IH Hx) as [->|Hl]; [by left | right; by right].
Qed.

Lemma In_order_by_created_at_asc x l :
  In x (ChatService.order_by_created_at_asc l) -> In x l.
Proof.
  induction l as [|a l IH]; simpl; [done|].
  intros Hx. apply In_insert_asc in Hx as [->|Hx]; [by left|].
  right. by apply IH.
Qed.





End Binding.


(** ** Feedback and topic of a message *)

Section MessageFields.
Context `{Collaborators}.

Lemma get_message_modify i f db :
  (forall m, Message.id (f m) = Message.id m) ->
  get_message i (modify_message i f db) = f <$> get_message i db.
Proof.
  intros Hid. unfold get_message, modify_message. simpl.
  rewrite find_map_stable.
  - destruct (find _ (messages db)) as [m|] eqn:Hm; simpl; [|done].
    apply find_some in Hm as [_ Hm]. by rewrite Hm.
  - intros m. destruct (Nat.eqb (Message.id m) i) eqn:E; [|done].
    by rewrite Hid, E.
Qed.

Lemma modify_message_same_core i f db :
  (forall m, same_core m (f m)) ->
  Forall2 same_core (messages db) (messages (modify_message i f db)).
Proof.
  intros Hf. simpl. apply Forall2_map_self. intros m _.
  destruct (Nat.eqb _ _); [apply Hf | by repeat split].
Qed.

Lemma same_core_refl db : Forall2 same_core (messages db) (messages db).
Proof.
  rewrite <- (map_id (messages db)) at 2.
  apply Forall2_map_self. intros m _. by repeat split.
Qed.

Lemma messages_bump_topic_stat now chatbot_uuid topic db :
  messages (Tasks.bump_topic_stat now chatbot_uuid topic db) = messages db.
Proof. unfold Tasks.bump_topic_stat. by destruct (find _ _). Qed.

Lemma substring_nonempty n s :
  s <> "" -> String.substring 0 (S n) s <> "".
Proof. destruct s; simpl; [done | discriminate]. Qed.

Lemma classify_topic_already_set now i chatbot_uuid message_role content db m :
  get_message i db = Some m ->
  truthy (Message.topic m) = true ->
  Tasks.classify_message_topic now i chatbot_uuid message_role content db
  = (Message.topic m, db).
Proof.
  intros Hm Ht. unfold Tasks.classify_message_topic. by rewrite Hm, Ht.
Qed.

Lemma classify_topic_sets_truthy now i chatbot_uuid message_role content db t :
  (Tasks.classify_message_topic now i chatbot_uuid message_role content db).1
  = Some t ->
  exists m,
    get_message i
      (Tasks.classify_message_topic now i chatbot_uuid message_role content
         db).2 = Some m
    /\ Message.topic m = Some t /\ truthy (Some t) = true.
Proof.
  unfold Tasks.classify_message_topic.
  destruct (get_message i db) as [m|] eqn:Hm; simpl; [|done].
  destruct (truthy (Message.topic m)) eqn:Ht; simpl.
  { intros Htop. exists m. rewrite Htop in Ht. by repeat split. }
  destruct (topic_llm _ content) as [answer|]; simpl; [|done].
  destruct (String.eqb_spec (strip answer) "") as [|Hne]; simpl; [done|].
  intros [= <-].
  assert (Hid : Message.id m = i).
  { apply find_some in Hm as [_ Hm]. by apply Nat.eqb_eq. }
  exists (Message.set_topic (Some (String.substring 0 100 (strip answer))) m).
  split; [|split; [done|]].
  - unfold get_message. rewrite messages_bump_topic_stat.
    fold (get_message i (modify_message (Message.id m)
                           (Message.set_topic
                              (Some (String.substring 0 100 (strip answer))))
                           db)).
    rewrite Hid, get_message_modify by done. by rewrite Hm.
  - simpl. apply negb_true_iff, String.eqb_neq.
    by apply substring_nonempty.
Qed.

(** C4 (as amended): the topic of a message is set at most once, a call of
    [classify_message_topic] on a message whose topic is set being a no-op
    that returns the topic; [submit_feedback] on an assistant message
    replaces the feedback by the submitted value, whatever it was; and
    neither changes any other attribute of any message. *)
Theorem message_fields_written now i chatbot_uuid message_role content
    request db :
  (forall m,
     get_message i db = Some m -> truthy (Message.topic m) = true ->
     Tasks.classify_message_topic now i chatbot_uuid message_role content db
     = (Message.topic m, db))
  /\ (forall now2 t,
        let first := Tasks.classify_message_topic now i chatbot_uuid
                       message_role content db in
        first.1 = Some t ->
        Tasks.classify_message_topic now2 i chatbot_uuid message_role content
          first.2 = (Some t, first.2))
  /\ (forall m,
        get_message i db = Some m -> Message.role m = "assistant" ->
        exists m',
          ChatRoutes.submit_feedback i request db
          = ((200, Some m'), modify_message i
                               (Message.set_feedback
                                  (Some (ChatRoutes.feedback_str request))) db)
          /\ Message.feedback m' = Some (ChatRoutes.feedback_str request)
          /\ Message.topic m' = Message.topic m
          /\ same_core m m')
  /\ Forall2 same_core (messages db)
       (messages (ChatRoutes.submit_feedback i request db).2)
  /\ Forall2 same_core (messages db)
       (messages (Tasks.classify_message_topic now i chatbot_uuid
                    message_role content db).2).
Proof.
  split; [|split; [|split; [|split]]].
  - intros m. apply classify_topic_already_set.
  - intros now2 t first Ht.
    destruct (classify_topic_sets_truthy _ _ _ _ _ _ _ Ht)
      as (m & Hm & Htop & Htruthy).
    subst first.
    rewrite (classify_topic_already_set now2 i chatbot_uuid message_role
               content _ m Hm) by (by rewrite Htop).
    by rewrite Htop.
  - intros m Hm Hrole. unfold ChatRoutes.submit_feedback.
    rewrite Hm, Hrole. simpl.
    assert (Hid : Message.id m = i).
    { apply find_some in Hm as [_ Hm]. by apply Nat.eqb_eq. }
    rewrite Hid, get_message_modify, Hm by done. simpl.
    eexists. split; [reflexivity|]. by repeat split.
  - unfold ChatRoutes.submit_feedback.
    destruct (get_message i db) as [m|]; simpl; [|apply same_core_refl].
    destruct (negb _); simpl; [apply same_core_refl|].
    apply modify_message_same_core. intros m0. by repeat split.
  - unfold Tasks.classify_message_topic.
    destruct (get_message i db) as [m|]; simpl; [|apply same_core_refl].
    destruct (truthy _); simpl; [apply same_core_refl|].
    destruct (topic_llm _ content); simpl; [|apply same_core_refl].
    destruct (String.eqb _ ""); simpl; [apply same_core_refl|].
    rewrite messages_bump_topic_stat.
    apply modify_message_same_core. intros m0. by repeat split.
Qed.

End MessageFields.

Lemma message_fields_written_witness :
  (exists m',
     ChatRoutes.submit_feedback 1 ChatRoutes.dislike liked_db
     = ((200, Some m'),
        modify_message 1 (Message.set_feedback (Some "dislike")) liked_db)
     /\ Message.feedback m' = Some "dislike"
     /\ Message.topic m' = Message.topic liked_answer
     /\ same_core liked_answer m')
  /\ @Tasks.classify_message_topic sample_collaborators 103 1 "bot-1"
       "assistant" "We are open from 9 to 5."
       (@Tasks.classify_message_topic sample_collaborators 102 1 "bot-1"
          "assistant" "We are open from 9 to 5." liked_db).2
     = (Some "Opening hours",
        (@Tasks.classify_message_topic sample_collaborators 102 1 "bot-1"
           "assistant" "We are open from 9 to 5." liked_db).2).
Proof.
  destruct (@message_fields_written sample_collaborators 102 1 "bot-1"
              "assistant" "We are open from 9 to 5." ChatRoutes.dislike
              liked_db) as (_ & Htwice & Hfeedback & _).
  split.
  - apply Hfeedback; reflexivity.
  - apply Htwice. reflexivity.
Defined.

(** C4 (as stated) fails for the feedback: a second [submit_feedback] on a
    message that was liked replaces the feedback. *)
Lemma feedback_is_overwritten :
  ~ (forall i request db m,
       get_message i db = Some m ->
       Message.feedback m <> None ->
       Message.feedback
         <$> get_message i (ChatRoutes.submit_feedback i request db).2
       = Some (Message.feedback m)).
Proof.
  intros Hclaim.
  specialize (Hclaim 1 ChatRoutes.dislike liked_db liked_answer eq_refl).
  simpl in Hclaim. specialize (Hclaim ltac:(discriminate)).
  vm_compute in Hclaim. discriminate Hclaim.
Qed.

(** ** The relay *)

Section Relay.
Context `{Collaborators}.

Lemma update_conversation_details_routing conversation message_text db :
  conversations_related routing_kept db
    (ConversationDetailsService.update_conversation_details conversation
       message_text db).2.
Proof.
  unfold ConversationDetailsService.update_conversation_details.
  destruct (truthy (Conversation.customer_email conversation));
    destruct (truthy (extract_email message_text));
    destruct (truthy (Conversation.customer_phone conversation));
    destruct (truthy (extract_phone message_text));
    destruct (truthy (Conversation.customer_name conversation));
    destruct (bool_decide (Conversation.customer_name conversation
                           = Some "Anonymous"));
    destruct (truthy (extract_name message_text)); simpl;
    rewrite ?modify_conversation_twice by done;
    try (apply related_refl; by repeat split);
    (apply related_modify; [done | by repeat split |]);
    intros c Hc; by repeat split.
Qed.

Lemma update_conversation_details_tables conversation message_text db :
  let db' := (ConversationDetailsService.update_conversation_details
                conversation message_text db).2 in
  messages db' = messages db
  /\ handoff_requests db' = handoff_requests db
  /\ next_message_id db' = next_message_id db.
Proof.
  unfold ConversationDetailsService.update_conversation_details.
  destruct (truthy (Conversation.customer_email conversation));
    destruct (truthy (extract_email message_text));
    destruct (truthy (Conversation.customer_phone conversation));
    destruct (truthy (extract_phone message_text));
    destruct (truthy (Conversation.customer_name conversation));
    destruct (bool_decide (Conversation.customer_name conversation
                           = Some "Anonymous"));
    destruct (truthy (extract_name message_text)); simpl; done.
Qed.





(** The assistant branch of [route_message] when [stream_message] raises. *)
Lemma route_message_exception now chatbot_uuid session_id bound conversation
    user_message db e db1 t1 :
  get_conversation (Conversation.uuid bound) db = Some conversation ->
  Conversation.handoff_status conversation <> "human" ->
  Conversation.handoff_status conversation <> "requested" ->
  ChatService.stream_message now chatbot_uuid (Conversation.uuid conversation)
    user_message (ChatRoutes.handle_chunk session_id) db
  = (Raise e, db1, t1) ->
  ChatRoutes.route_message now chatbot_uuid session_id bound user_message db
  = (Ok tt, db1,
     SendMessage (Frame.typing true) session_id
     :: t1
     ++ [SendMessage (Frame.typing false) session_id;
         SendMessage
           (Frame.error (if negb (String.eqb (str e) "") then str e
                         else "Failed to process message"))
           session_id]).
Proof.
  intros Hrow Hh Hr Hstream. unfold ChatRoutes.route_message.
  unfold mbind at 1, M_bind at 1, query at 1. rewrite Hrow. simpl.
  apply String.eqb_neq in Hh, Hr. rewrite Hh, Hr.
  unfold mbind at 1, M_bind at 1, emit at 1. simpl.
  unfold try_except at 1.
  unfold mbind at 1, M_bind at 1. rewrite Hstream. simpl.
  reflexivity.
Qed.

Lemma get_or_create_conversation_silent now uuid chatbot_uuid session_id
    client_uuid db r db' t :
  ChatService.get_or_create_conversation now uuid chatbot_uuid session_id
    client_uuid db = (r, db', t) ->
  t = [].
Proof.
  unfold ChatService.get_or_create_conversation,
    ChatService.create_conversation. unfold_M.
  destruct (find _ (conversations db)); simpl; [congruence|].
  destruct (get_conversation uuid db); simpl; congruence.
Qed.

(** C8 (as amended): when the generation raises, the relay sends
    [typing:false] and then an [error] frame to the session, and the turn
    returns, so that the connection stays open; the text of the [error]
    frame is the text of the exception, and the fixed text
    ["Failed to process message"] only when the exception has none.  This
    holds on a conversation that the connection has bound, and on the first
    message of a connection, where the conversation is found or created
    first and the two [conversation_created] notices come before. *)
Theorem relay_generation_exception now uuid4_conversation uuid4_client
    chatbot_uuid session_id client_uuid user_message db e :
  user_message <> "" ->
  let failure_frames :=
    [SendMessage (Frame.typing false) session_id;
     SendMessage
       (Frame.error (if negb (String.eqb (str e) "") then str e
                     else "Failed to process message"))
       session_id] in
  (forall bound conversation db1 t1,
     get_conversation (Conversation.uuid bound) db = Some conversation ->
     Conversation.handoff_status conversation <> "human" ->
     Conversation.handoff_status conversation <> "requested" ->
     ChatService.stream_message now chatbot_uuid
       (Conversation.uuid conversation) user_message
       (ChatRoutes.handle_chunk session_id) db
     = (Raise e, db1, t1) ->
     ChatRoutes.relay_turn now uuid4_conversation uuid4_client chatbot_uuid
       session_id client_uuid (Some bound) (chat user_message) db
     = (Ok (Some bound), db1,
        SendMessage (Frame.typing true) session_id :: t1 ++ failure_frames))
  /\ (forall bound db0 t0 conversation db1 t1,
        ChatService.get_or_create_conversation now uuid4_conversation
          chatbot_uuid session_id
          (if truthy client_uuid then client_uuid else Some uuid4_client) db
        = (Ok bound, db0, t0) ->
        get_conversation (Conversation.uuid bound) db0 = Some conversation ->
        Conversation.handoff_status conversation <> "human" ->
        Conversation.handoff_status conversation <> "requested" ->
        ChatService.stream_message now chatbot_uuid
          (Conversation.uuid conversation) user_message
          (ChatRoutes.handle_chunk session_id) db0
        = (Raise e, db1, t1) ->
        ChatRoutes.relay_turn now uuid4_conversation uuid4_client
          chatbot_uuid session_id client_uuid None (chat user_message) db
        = (Ok (Some bound), db1,
           SendMessage (Frame.conversation_created (Conversation.uuid bound))
             session_id
           :: BroadcastToDashboard
                (Frame.conversation_created (Conversation.uuid bound))
                chatbot_uuid
           :: SendMessage (Frame.typing true) session_id
           :: t1 ++ failure_frames)).
Proof.
  intros Htext. simpl.
  assert (Ht : String.eqb user_message "" = false) by by apply String.eqb_neq.
  split.
  - intros bound conversation db1 t1 Hrow Hh Hr Hstream.
    unfold ChatRoutes.relay_turn, chat. simpl. rewrite Ht. simpl.
    unfold mbind at 1 2, M_bind at 1 2, mret at 1, M_ret at 1. simpl.
    rewrite (route_message_exception _ _ _ _ _ _ _ _ _ _ Hrow Hh Hr Hstream).
    simpl. by rewrite app_nil_r.
  - intros bound db0 t0 conversation db1 t1 Hbind Hrow Hh Hr Hstream.
    pose proof (get_or_create_conversation_silent _ _ _ _ _ _ _ _ _ Hbind)
      as ->.
    unfold ChatRoutes.relay_turn, chat. simpl. rewrite Ht. simpl.
    unfold ChatRoutes.bind_conversation.
    unfold mbind at 1, M_bind at 1. unfold try_except at 1.
    unfold mbind at 1, M_bind at 1. rewrite Hbind. simpl.
    unfold mbind at 1, M_bind at 1, mret at 1, M_ret at 1.
    rewrite (route_message_exception _ _ _ _ _ _ _ _ _ _ Hrow Hh Hr Hstream).
    simpl. by rewrite app_nil_r.
Qed.

End Relay.


Lemma relay_generation_exception_witness :
  (exists db1 t1,
     @ChatRoutes.relay_turn failing_collaborators 110 "conv-9" "client-9"
       "bot-1" "session-a" (Some "client-1") (Some sample_conversation)
       (chat "when are you open?") sample_db
     = (Ok (Some sample_conversation), db1,
        SendMessage (Frame.typing true) "session-a"
        :: t1
        ++ [SendMessage (Frame.typing false) "session-a";
            SendMessage
              (Frame.error "Incorrect API key provided: sk-live-1234")
              "session-a"]))
  /\ (exists bound db1 t1,
        @ChatRoutes.relay_turn failing_collaborators 110 "conv-9" "client-9"
          "bot-1" "session-z" None None (chat "when are you open?") sample_db
        = (Ok (Some bound), db1,
           SendMessage (Frame.conversation_created "conv-9") "session-z"
           :: BroadcastToDashboard (Frame.conversation_created "conv-9")
                "bot-1"
           :: SendMessage (Frame.typing true) "session-z"
           :: t1
           ++ [SendMessage (Frame.typing false) "session-z";
               SendMessage
                 (Frame.error "Incorrect API key provided: sk-live-1234")
                 "session-z"])).
Proof.
  split.
  - eexists _, _.
    refine (proj1 (@relay_generation_exception failing_collaborators 110
                     "conv-9" "client-9" "bot-1" "session-a"
                     (Some "client-1") "when are you open?" sample_db
                     (UpstreamError "Incorrect API key provided: sk-live-1234")
                     _)
              sample_conversation sample_conversation _ _ eq_refl _ _ _);
      try discriminate.
    vm_compute. reflexivity.
  - eexists _, _, _.
    refine (proj2 (@relay_generation_exception failing_collaborators 110
                     "conv-9" "client-9" "bot-1" "session-z" None
                     "when are you open?" sample_db
                     (UpstreamError "Incorrect API key provided: sk-live-1234")
                     _)
              (Conversation.mk "conv-9" "bot-1" (Some "Anonymous") None None
                 "session-z" (Some "client-9") "active" "ai" None 110 110)
              _ _
              (Conversation.mk "conv-9" "bot-1" (Some "Anonymous") None None
                 "session-z" (Some "client-9") "active" "ai" None 110 110)
              _ _ eq_refl eq_refl _ _ _);
      try discriminate.
    vm_compute. reflexivity.
Defined.

(** C8 (as stated) fails: the text of the [error] frame is not one generic
    text.  It is the provider's message when the language model fails, and
    the quota message when the credits are used up. *)
Lemma error_frame_quotes_exception :
  ~ (exists generic,
       forall (E : Collaborators) now uuid4_conversation uuid4_client
              chatbot_uuid session_id client_uuid bound conversation
              user_message db e db1 t1,
         user_message <> "" ->
         get_conversation (Conversation.uuid bound) db = Some conversation ->
         Conversation.handoff_status conversation <> "human" ->
         Conversation.handoff_status conversation <> "requested" ->
         ChatService.stream_message now chatbot_uuid
           (Conversation.uuid conversation) user_message
           (ChatRoutes.handle_chunk session_id) db = (Raise e, db1, t1) ->
         error_messages
           (ChatRoutes.relay_turn now uuid4_conversation uuid4_client
              chatbot_uuid session_id client_uuid (Some bound)
              (chat user_message) db).2
         = [generic]).
Proof.
  intros [generic Hclaim].
  assert (H1 := fun e db1 t1 Hs =>
            Hclaim failing_collaborators 110 "conv-9" "client-9" "bot-1"
              "session-a" (Some "client-1") sample_conversation
              sample_conversation "when are you open?" sample_db e db1 t1
              ltac:(discriminate) eq_refl ltac:(discriminate)
              ltac:(discriminate) Hs).
  assert (H2 := fun e db1 t1 Hs =>
            Hclaim sample_collaborators 110 "conv-9" "client-9" "bot-1"
              "session-a" (Some "client-1") sample_conversation
              sample_conversation "when are you open?" broke_db e db1 t1
              ltac:(discriminate) eq_refl ltac:(discriminate)
              ltac:(discriminate) Hs).
  vm_compute in H1, H2.
  specialize (H1 _ _ _ eq_refl). specialize (H2 _ _ _ eq_refl).
  congruence.
Qed.

Example error_frame_of_upstream_failure :
  error_messages
    (@ChatRoutes.relay_turn failing_collaborators 110 "conv-9" "client-9"
       "bot-1" "session-a" (Some "client-1") (Some sample_conversation)
       (chat "when are you open?") sample_db).2
  = ["Incorrect API key provided: sk-live-1234"].
Proof. vm_compute. reflexivity. Qed.

(** ** The relay never asks for a handoff *)

Section RelayAuthority.
Context `{Collaborators}.

Lemma untouched_refl db : authority_untouched db db.
Proof. split; [done|]. apply related_refl. by intros. Qed.

Lemma untouched_trans a b c :
  authority_untouched a b -> authority_untouched b c ->
  authority_untouched a c.
Proof.
  intros [Hr1 Hc1] [Hr2 Hc2]. split; [congruence|].
  eapply related_trans; [|exact Hc1|exact Hc2].
  intros x y z [? ?] [? ?]. split; congruence.
Qed.

Lemma untouched_same_tables db db' :
  handoff_requests db' = handoff_requests db ->
  conversations db' = conversations db ->
  authority_untouched db db'.
Proof.
  intros Hr Hc. split; [done|].
  apply related_same_conversations; [by intros|done].
Qed.

Lemma untouched_touch now u db :
  authority_untouched db
    (modify_conversation u (Conversation.set_updated_at now) db).
Proof.
  split; [done|]. apply related_modify; [done | by intros | by intros].
Qed.

Lemma untouched_details conversation message_text db :
  authority_untouched db
    (ConversationDetailsService.update_conversation_details conversation
       message_text db).2.
Proof.
  split; [apply update_conversation_details_tables|].
  intros u c Hc.
  destruct (update_conversation_details_routing conversation message_text db
              u c Hc) as (c' & Hc' & _ & Hst & Has & _).
  exists c'. by repeat split.
Qed.

Ltac untouched :=
  first [ apply preserves_ret | apply preserves_raise | apply preserves_emit
        | apply preserves_query | apply preserves_bind
        | apply preserves_try_except | apply preserves_write ];
  try apply untouched_refl; try apply untouched_trans.

Lemma prepare_chat_run_untouched now chatbot_uuid conversation_uuid
    user_message :
  preserves authority_untouched
    (ChatService._prepare_chat_run now chatbot_uuid conversation_uuid
       user_message).
Proof.
  unfold ChatService._prepare_chat_run.
  untouched; [untouched|]. intros [b|]; [|untouched].
  destruct (negb _); [untouched|].
  untouched; [|intros _].
  { untouched; intros db; by apply untouched_same_tables. }
  untouched; [untouched|]. intros [c|]; [|untouched].
  untouched; [untouched|]. intros history.
  untouched; [|intros user_msg].
  { untouched; intros db; by apply untouched_same_tables. }
  untouched; [untouched|]. intros _.
  untouched; [|intros; untouched].
  untouched; intros db; apply untouched_details.
Qed.

Lemma stream_loop_untouched session_id chunks full_response :
  preserves authority_untouched
    (ChatService.stream_loop (ChatRoutes.handle_chunk session_id) chunks
       full_response).
Proof.
  revert full_response. induction chunks as [|delta rest IH];
    intros full_response; simpl; [untouched|].
  destruct (String.eqb delta ""); [apply IH|].
  untouched; [unfold ChatRoutes.handle_chunk; untouched|].
  intros _. apply IH.
Qed.

Lemma stream_message_untouched now chatbot_uuid conversation_uuid user_message
    session_id :
  preserves authority_untouched
    (ChatService.stream_message now chatbot_uuid conversation_uuid
       user_message (ChatRoutes.handle_chunk session_id)).
Proof.
  unfold ChatService.stream_message.
  untouched; [apply prepare_chat_run_untouched|].
  intros [conversation lc_messages].
  untouched; [untouched|]. intros _.
  destruct (astream lc_messages) as [chunks failure].
  untouched; [apply stream_loop_untouched|]. intros full_response.
  destruct failure; [untouched|].
  untouched; [|intros _].
  { untouched; intros db; by apply untouched_same_tables. }
  untouched; [|intros; untouched].
  untouched; intros db; apply untouched_touch.
Qed.

Lemma store_for_agent_untouched now chatbot_uuid conversation user_message :
  preserves authority_untouched
    (ChatRoutes.store_for_agent now chatbot_uuid conversation user_message).
Proof.
  unfold ChatRoutes.store_for_agent.
  untouched; [|intros _].
  { untouched; intros db; by apply untouched_same_tables. }
  untouched; [|intros _].
  { untouched; intros db; apply untouched_touch. }
  untouched; [|intros _; untouched].
  untouched; intros db; apply untouched_details.
Qed.

Lemma route_message_untouched now chatbot_uuid session_id conversation
    user_message :
  preserves authority_untouched
    (ChatRoutes.route_message now chatbot_uuid session_id conversation
       user_message).
Proof.
  unfold ChatRoutes.route_message.
  apply preserves_bind; [apply untouched_trans | apply preserves_query,
                          untouched_refl |].
  intros [c|]; [|apply preserves_raise, untouched_refl].
  destruct (String.eqb _ "human"); [apply store_for_agent_untouched|].
  destruct (String.eqb _ "requested").
  { apply preserves_bind; [apply untouched_trans
                          | apply store_for_agent_untouched |].
    intros _. apply preserves_emit, untouched_refl. }
  apply preserves_bind; [apply untouched_trans
                        | apply preserves_emit, untouched_refl |].
  intros _.
  apply preserves_try_except; [apply untouched_trans | |].
  - apply preserves_bind; [apply untouched_trans
                          | apply stream_message_untouched |].
    intros ai_response db. apply untouched_refl.
  - intros e db. apply untouched_refl.
Qed.

Lemma get_or_create_conversation_untouched now uuid chatbot_uuid session_id
    client_uuid :
  preserves authority_untouched
    (ChatService.get_or_create_conversation now uuid chatbot_uuid session_id
       client_uuid).
Proof.
  intros db. unfold ChatService.get_or_create_conversation,
    ChatService.create_conversation. unfold_M.
  destruct (find _ (conversations db)); simpl; [apply untouched_refl|].
  destruct (get_conversation uuid db); simpl; [apply untouched_refl|].
  split; [done|]. intros u c Hc. exists c. split; [|done].
  unfold get_conversation in *. simpl. by apply find_app_Some.
Qed.

Lemma bind_conversation_untouched now uuid4_conversation uuid4_client
    chatbot_uuid session_id client_uuid :
  preserves authority_untouched
    (ChatRoutes.bind_conversation now uuid4_conversation uuid4_client
       chatbot_uuid session_id client_uuid).
Proof.
  unfold ChatRoutes.bind_conversation.
  apply preserves_try_except; [apply untouched_trans | |].
  - apply preserves_bind; [apply untouched_trans
                          | apply get_or_create_conversation_untouched |].
    intros conversation db. apply untouched_refl.
  - intros e db. apply untouched_refl.
Qed.

(** Whatever the message and whatever the classifier would say about it,
    a turn of the relay creates no handoff request and changes the authority
    of no conversation. *)
Lemma relay_turn_untouched now uuid4_conversation uuid4_client chatbot_uuid
    session_id client_uuid conversation data :
  preserves authority_untouched
    (ChatRoutes.relay_turn now uuid4_conversation uuid4_client chatbot_uuid
       session_id client_uuid conversation data).
Proof.
  unfold ChatRoutes.relay_turn.
  destruct (bool_decide _); [intros db; apply untouched_refl|].
  destruct (bool_decide _); [|intros db; apply untouched_refl].
  destruct (negb _); [intros db; apply untouched_refl|].
  apply preserves_bind; [apply untouched_trans | |].
  - destruct conversation;
      [intros db; apply untouched_refl | apply bind_conversation_untouched].
  - intros [c|]; [|intros db; apply untouched_refl].
    apply preserves_bind; [apply untouched_trans
                          | apply route_message_untouched |].
    intros _ db. apply untouched_refl.
Qed.

End RelayAuthority.

(** ** An explicit request for a human on the two paths *)

(** C2: on the relay, a message for which the classifier says that the
    customer asks for a human leaves the conversation in the state [ai] and
    creates no handoff request: [stream_message] neither calls the
    classifier nor the handoff service. *)
Theorem streaming_relay_ignores_explicit_request :
  let text := "I want to talk to a human" in
  let '(r, db', t) :=
    @ChatRoutes.relay_turn sample_collaborators 110 "conv-9" "client-9"
      "bot-1" "session-a" (Some "client-1") (Some sample_conversation)
      (chat text) sample_db in
  @user_explicitly_requests_handoff sample_collaborators text = true
  /\ Conversation.handoff_status <$> get_conversation "conv-1" sample_db
     = Some "ai"
  /\ r = Ok (Some sample_conversation)
  /\ handoff_requests db' = []
  /\ Conversation.handoff_status <$> get_conversation "conv-1" db'
     = Some "ai"
  /\ map Message.role (messages db') = ["user"; "assistant"]
  /\ existsb (fun ef => match ef with
                        | ClassifierInvoked _ => true
                        | _ => false
                        end) t = false.
Proof. vm_compute. repeat split; reflexivity. Qed.

(** The REST path on the same input: the request is created and the
    conversation moves to [requested]. *)
Example process_message_honours_explicit_request :
  let text := "I want to talk to a human" in
  let '(r, db', t) :=
    @ChatService.process_message sample_collaborators 110 "bot-1" "conv-1"
      text sample_db in
  r = Ok "I understand you'd like to speak with a customer service representative. Let me connect you with someone who can help you better."
  /\ map (fun q => (HandoffRequest.conversation_uuid q,
                    HandoffRequest.status q, HandoffRequest.reason q))
       (handoff_requests db')
     = [("conv-1", "pending",
         Some "User explicitly requested customer service")]
  /\ Conversation.handoff_status <$> get_conversation "conv-1" db'
     = Some "requested".
Proof. vm_compute. repeat split; reflexivity. Qed.

(** * Further properties of the code *)

(** ** The connection registry *)

Section Registry.
Import ConnectionManager.

Lemma discard_and_prune_store websocket key X groups :
  discard_and_prune websocket key (store_group key X groups)
  = store_group key (X ∖ {[websocket]}) groups.
Proof.
  unfold discard_and_prune, store_group.
  destruct (bool_decide (X = ∅)) eqn:HX.
  - apply bool_decide_eq_true in HX. subst X.
    rewrite lookup_delete_eq.
    rewrite bool_decide_eq_true_2; [done|].
    apply set_eq. intros x. rewrite elem_of_difference, elem_of_empty. tauto.
  - rewrite lookup_insert_eq.
    destruct (bool_decide (X ∖ {[websocket]} = ∅)).
    + apply delete_insert_eq.
    + apply insert_insert_eq.
Qed.

Lemma store_group_lookup key X groups :
  groups !! key = Some X -> X <> ∅ -> store_group key X groups = groups.
Proof.
  intros Hk HX. unfold store_group.
  rewrite bool_decide_eq_false_2 by done. by apply insert_id.
Qed.

Lemma dead_among_cons alive c cs :
  dead_among alive (c :: cs)
  = (if alive c then ∅ else {[c]}) ∪ dead_among alive cs.
Proof.
  unfold dead_among. simpl. destruct (alive c); simpl.
  - apply set_eq. intros x. rewrite elem_of_union, elem_of_empty. tauto.
  - done.
Qed.

Lemma send_loop_spec alive message session_id connections X base dc sm :
  sm !! session_id = None ->
  send_loop alive message session_id connections
    (mk (store_group session_id X base) dc sm)
  = (map (fun c => sent c message (alive c)) connections,
     mk (store_group session_id (X ∖ dead_among alive connections) base)
        dc sm).
Proof.
  intros Hsm. revert X.
  induction connections as [|c cs IH]; intros X; simpl.
  - do 2 f_equal. f_equal. apply set_eq. intros x.
    unfold dead_among. simpl.
    rewrite elem_of_difference, elem_of_empty. tauto.
  - assert (Hstep : (if alive c then mk (store_group session_id X base) dc sm
                     else disconnect c session_id
                            (mk (store_group session_id X base) dc sm))
                    = mk (store_group session_id
                            (X ∖ (if alive c then ∅ else {[c]})) base) dc sm).
    { destruct (alive c).
      - do 2 f_equal. apply set_eq. intros x.
        rewrite elem_of_difference, elem_of_empty. tauto.
      - unfold disconnect. simpl. rewrite Hsm.
        by rewrite discard_and_prune_store. }
    rewrite Hstep, IH. do 2 f_equal. f_equal.
    rewrite dead_among_cons. apply set_eq. intros x.
    rewrite !elem_of_difference, elem_of_union. tauto.
Qed.

(** X1: [send_message] tries every connection of the session once, whatever
    the outcome of the other sends; the connections on which the send failed
    leave the group, the others stay, and a group that became empty is
    deleted.  The dashboards are not touched. *)
Theorem send_message_delivers alive message session_id m s :
  dashboard_session_map m !! session_id = None ->
  active_connections m !! session_id = Some s ->
  s <> ∅ ->
  send_message alive message session_id m
  = (map (fun c => sent c message (alive c)) (elements s),
     mk (store_group session_id (s ∖ dead_among alive (elements s))
           (active_connections m))
        (dashboard_connections m) (dashboard_session_map m)).
Proof.
  intros Hsm Hs Hne. unfold send_message. rewrite Hs.
  destruct m as [a dc sm]. simpl in *.
  rewrite <- (store_group_lookup session_id s a Hs Hne) at 1.
  by apply send_loop_spec.
Qed.

Lemma send_message_delivers_witness :
  send_message (fun c => Nat.eqb c 2) Frame.pong "session-a" three_widgets
  = (map (fun c => sent c Frame.pong (Nat.eqb c 2))
       (elements ({[1; 2; 3]} : gset nat)),
     mk (store_group "session-a"
           (({[1; 2; 3]} : gset nat)
            ∖ dead_among (fun c => Nat.eqb c 2)
                (elements ({[1; 2; 3]} : gset nat)))
           (active_connections three_widgets))
        (dashboard_connections three_widgets)
        (dashboard_session_map three_widgets)).
Proof.
  apply (send_message_delivers (fun c => Nat.eqb c 2) Frame.pong "session-a"
           three_widgets {[1; 2; 3]}).
  - reflexivity.
  - vm_compute. reflexivity.
  - intros Hempty. assert (H1 : 1 ∈ ({[1; 2; 3]} : gset nat)).
    { rewrite !elem_of_union, !elem_of_singleton. tauto. }
    rewrite Hempty in H1. by apply elem_of_empty in H1.
Defined.

Example send_message_three_widgets :
  let '(log, m') :=
    send_message (fun c => Nat.eqb c 2) Frame.pong "session-a"
      three_widgets in
  map connection_of log = elements ({[1; 2; 3]} : gset nat)
  /\ active_connections m' !! "session-a" = Some {[2]}.
Proof. vm_compute. done. Qed.

(** *** No empty group is kept *)

Lemma no_empty_store_group key X groups :
  no_empty_group groups -> no_empty_group (store_group key X groups).
Proof.
  intros Hg k s. unfold store_group.
  destruct (bool_decide (X = ∅)) eqn:HX.
  - intros Hk. apply lookup_delete_Some in Hk as [_ Hk]. by apply (Hg k).
  - apply bool_decide_eq_false in HX.
    intros Hk. apply lookup_insert_Some in Hk as [[_ <-]|[_ Hk]]; [done|].
    by apply (Hg k).
Qed.

Lemma no_empty_join key (websocket : nat) groups :
  no_empty_group groups ->
  no_empty_group
    (<[key := {[websocket]} ∪ default ∅ (groups !! key)]> groups).
Proof.
  intros Hg k s Hk.
  apply lookup_insert_Some in Hk as [[_ <-]|[_ Hk]]; [|by apply (Hg k)].
  intros Hempty.
  assert (Hin : websocket ∈ ({[websocket]} ∪ default ∅ (groups !! key)
                             : gset nat)).
  { apply elem_of_union. left. by apply elem_of_singleton. }
  rewrite Hempty in Hin. by apply elem_of_empty in Hin.
Qed.

Lemma no_empty_discard_and_prune websocket key groups :
  no_empty_group groups ->
  no_empty_group (discard_and_prune websocket key groups).
Proof.
  intros Hg. unfold discard_and_prune.
  destruct (groups !! key) as [s|] eqn:Hs; [|done].
  destruct (bool_decide (s ∖ {[websocket]} = ∅)) eqn:HX; intros k s' Hk.
  - apply lookup_delete_Some in Hk as [_ Hk]. by apply (Hg k).
  - apply bool_decide_eq_false in HX.
    apply lookup_insert_Some in Hk as [[_ <-]|[_ Hk]]; [done|].
    by apply (Hg k).
Qed.

Lemma tidy_connect websocket session_id chatbot_uuid m :
  tidy m -> tidy (connect websocket session_id chatbot_uuid m).
Proof.
  intros [Ha Hd]. unfold connect.
  destruct chatbot_uuid as [cb|]; [destruct (_ && _)|]; split; simpl;
    try done; by apply no_empty_join.
Qed.

Lemma tidy_disconnect websocket session_id m :
  tidy m -> tidy (disconnect websocket session_id m).
Proof.
  intros [Ha Hd]. unfold disconnect.
  destruct (dashboard_session_map m !! session_id); split; simpl;
    try done; by apply no_empty_discard_and_prune.
Qed.

Lemma tidy_send_loop alive message session_id connections m :
  tidy m -> tidy (send_loop alive message session_id connections m).2.
Proof.
  revert m. induction connections as [|c cs IH]; intros m Hm; simpl; [done|].
  specialize (IH (if alive c then m else disconnect c session_id m)).
  destruct (send_loop _ _ _ cs _) as [log m2]. simpl in *.
  apply IH. destruct (alive c); [done | by apply tidy_disconnect].
Qed.

(** X2: [connect], [disconnect] and [send_message] never leave an empty
    group behind: in a registry whose dictionaries hold no empty set, they
    produce a registry that holds none either. *)
Theorem registry_stays_tidy m :
  tidy m ->
  (forall websocket session_id chatbot_uuid,
     tidy (connect websocket session_id chatbot_uuid m))
  /\ (forall websocket session_id, tidy (disconnect websocket session_id m))
  /\ (forall alive message session_id,
        tidy (send_message alive message session_id m).2).
Proof.
  intros Hm. split; [|split].
  - intros. by apply tidy_connect.
  - intros. by apply tidy_disconnect.
  - intros alive message session_id. unfold send_message.
    destruct (active_connections m !! session_id); [|done].
    by apply tidy_send_loop.
Qed.

Lemma registry_stays_tidy_witness :
  (forall websocket session_id chatbot_uuid,
     tidy (connect websocket session_id chatbot_uuid init))
  /\ (forall websocket session_id, tidy (disconnect websocket session_id init))
  /\ (forall alive message session_id,
        tidy (send_message alive message session_id init).2).
Proof.
  apply (registry_stays_tidy init).
  split; intros k s Hk; simpl in Hk; by rewrite lookup_empty in Hk.
Defined.

(** A failed broadcast, on the other hand, can leave the empty set in the
    chatbot's group, which is why [broadcast_to_dashboard] tests for it. *)
Example broadcast_leaves_empty_group :
  dashboard_connections
    (broadcast_to_dashboard (fun _ => false) Frame.pong "bot-1"
       (connect 1 "dashboard_a" (Some "bot-1") init)).2 !! "bot-1"
  = Some ∅.
Proof. vm_compute. reflexivity. Qed.

(** *** Broadcasts *)

Lemma remove_dead_frame connection chatbot_uuid m :
  active_connections (remove_dead connection chatbot_uuid m)
  = active_connections m
  /\ dashboard_session_map (remove_dead connection chatbot_uuid m)
     = dashboard_session_map m
  /\ forall other, other <> chatbot_uuid ->
       dashboard_connections (remove_dead connection chatbot_uuid m) !! other
       = dashboard_connections m !! other.
Proof.
  unfold remove_dead. destruct (existsb _ _); [|done].
  destruct (dashboard_connections m !! chatbot_uuid); [|done]. simpl.
  split; [done|]. split; [done|].
  intros other Hne. by rewrite lookup_insert_ne.
Qed.

Lemma broadcast_loop_frame alive message chatbot_uuid connections m :
  let m' := (broadcast_loop alive message chatbot_uuid connections m).2 in
  active_connections m' = active_connections m
  /\ dashboard_session_map m' = dashboard_session_map m
  /\ forall other, other <> chatbot_uuid ->
       dashboard_connections m' !! other = dashboard_connections m !! other.
Proof.
  revert m. induction connections as [|c cs IH]; intros m; simpl; [done|].
  specialize (IH (if alive c then m else remove_dead c chatbot_uuid m)).
  destruct (broadcast_loop _ _ _ cs _) as [log m2]. simpl in *.
  destruct IH as (Ha & Hs & Ho).
  destruct (alive c); [done|].
  destruct (remove_dead_frame c chatbot_uuid m) as (Ha' & Hs' & Ho').
  split; [congruence|]. split; [congruence|].
  intros other Hne. rewrite Ho by done. by apply Ho'.
Qed.

(** X3: a broadcast to the dashboards of one chatbot is confined to that
    chatbot.  Every send that it attempts is a send of the message on a
    connection of the chatbot's group.  It never touches the widget sessions,
    the recorded dashboard sessions or the dashboards of another chatbot, and
    it never adds a connection: what is left of the chatbot's group is a part
    of what was there, and holds every connection on which the send
    succeeded. *)
Theorem broadcast_is_confined alive message chatbot_uuid m :
  let log := (broadcast_to_dashboard alive message chatbot_uuid m).1 in
  let m' := (broadcast_to_dashboard alive message chatbot_uuid m).2 in
  (forall a, In a log ->
     connection_of a ∈ default ∅ (dashboard_connections m !! chatbot_uuid)
     /\ payload_of a = message
     /\ delivered a = alive (connection_of a))
  /\ active_connections m' = active_connections m
  /\ dashboard_session_map m' = dashboard_session_map m
  /\ (forall other, other <> chatbot_uuid ->
        dashboard_connections m' !! other = dashboard_connections m !! other)
  /\ dom (dashboard_connections m') = dom (dashboard_connections m)
  /\ forall s, dashboard_connections m !! chatbot_uuid = Some s ->
       exists s', dashboard_connections m' !! chatbot_uuid = Some s'
                  /\ s' ⊆ s
                  /\ forall c, c ∈ s -> alive c = true -> c ∈ s'.
Proof.
  unfold broadcast_to_dashboard.
  destruct (dashboard_connections m !! chatbot_uuid) as [s|] eqn:Hs; simpl.
  2: { split; [by intros a []|]. repeat split; try done. }
  destruct (bool_decide (s = ∅)) eqn:Hempty; simpl.
  { split; [by intros a []|]. repeat split; try done.
    intros s0 [= <-]. exists s. by rewrite Hs. }
  split.
  { rewrite broadcast_loop_attempts. intros a Ha.
    apply in_map_iff in Ha as (c & <- & Hc). simpl.
    split; [|done]. by apply elem_of_elements, list_elem_of_In. }
  destruct (broadcast_loop_frame alive message chatbot_uuid (elements s) m)
    as (Ha & Hm & Ho).
  split; [done|]. split; [done|]. split; [done|].
  destruct (session_recorded chatbot_uuid m) eqn:Hrec.
  - rewrite (broadcast_loop_recorded alive message chatbot_uuid (elements s)
               m s Hrec Hs). simpl.
    split.
    + rewrite dom_insert_L. apply set_eq. intros k.
      rewrite elem_of_union, elem_of_singleton. split; [|tauto].
      intros [->|Hk]; [|done]. apply elem_of_dom. by rewrite Hs.
    + intros s0 [= <-]. eexists. split; [apply lookup_insert_eq|].
      split.
      * intros c. rewrite elem_of_difference. tauto.
      * intros c Hc Halive. apply elem_of_difference. split; [done|].
        unfold dead_among. rewrite elem_of_list_to_set.
        intros Hin%list_elem_of_In%filter_In. destruct Hin as [_ Hdead].
        by rewrite Halive in Hdead.
  - rewrite (broadcast_loop_unrecorded alive message chatbot_uuid (elements s)
               m Hrec).
    split; [done|]. intros s0 [= <-]. exists s. rewrite Hs. done.
Qed.

Lemma broadcast_loop_all_alive alive message chatbot_uuid connections m :
  Forall (fun c => alive c = true) connections ->
  (broadcast_loop alive message chatbot_uuid connections m).2 = m.
Proof.
  induction 1 as [|c cs Hc Hcs IH]; simpl; [done|].
  rewrite Hc. by destruct (broadcast_loop _ _ _ cs m).
Qed.

(** X4: a broadcast tries every connection of the chatbot's group exactly
    once, whatever the outcome of the other sends.  When every send
    succeeds, the registry is exactly as it was.  When a session is recorded
    for the chatbot, exactly the connections on which the send failed leave
    the group; when none is recorded, the registry is as it was, failed
    sends or not. *)
Theorem broadcast_delivers alive message chatbot_uuid m s :
  dashboard_connections m !! chatbot_uuid = Some s ->
  let log := (broadcast_to_dashboard alive message chatbot_uuid m).1 in
  let m' := (broadcast_to_dashboard alive message chatbot_uuid m).2 in
  log = map (fun c => sent c message (alive c)) (map connection_of log)
  /\ NoDup (map connection_of log)
  /\ (forall c, c ∈ s <-> In c (map connection_of log))
  /\ ((forall c, c ∈ s -> alive c = true) -> m' = m)
  /\ (session_recorded chatbot_uuid m = true ->
      dashboard_connections m' !! chatbot_uuid
      = Some (s ∖ dead_among alive (elements s)))
  /\ (session_recorded chatbot_uuid m = false -> m' = m).
Proof.
  intros Hs. simpl.
  assert (Hrun : broadcast_to_dashboard alive message chatbot_uuid m
                 = broadcast_loop alive message chatbot_uuid (elements s) m).
  { unfold broadcast_to_dashboard. rewrite Hs.
    destruct (bool_decide (s = ∅)) eqn:Hempty; [|done].
    apply bool_decide_eq_true in Hempty. subst s.
    by rewrite elements_empty. }
  rewrite Hrun, broadcast_loop_attempts.
  assert (Hcs : map connection_of
                  (map (fun c => sent c message (alive c)) (elements s))
                = elements s).
  { rewrite map_map. simpl. apply map_id. }
  rewrite Hcs.
  split; [done|]. split; [apply NoDup_elements|].
  split; [intros c; by rewrite <- list_elem_of_In, elem_of_elements|].
  split; [|split].
  - intros Halive. apply broadcast_loop_all_alive.
    apply Forall_forall. intros c Hc. by apply Halive, elem_of_elements.
  - intros Hrec.
    rewrite (broadcast_loop_recorded _ _ _ _ _ s Hrec Hs). simpl.
    apply lookup_insert_eq.
  - intros Hrec. by apply broadcast_loop_unrecorded.
Qed.

Lemma broadcast_delivers_witness :
  let alive := fun c => Nat.eqb c 2 in
  let log := (broadcast_to_dashboard alive Frame.pong "bot-1"
                two_dashboards).1 in
  let m' := (broadcast_to_dashboard alive Frame.pong "bot-1"
               two_dashboards).2 in
  log = map (fun c => sent c Frame.pong (alive c)) (map connection_of log)
  /\ NoDup (map connection_of log)
  /\ (forall c, c ∈ ({[1; 2]} : gset nat) <-> In c (map connection_of log))
  /\ ((forall c, c ∈ ({[1; 2]} : gset nat) -> alive c = true) ->
      m' = two_dashboards)
  /\ (session_recorded "bot-1" two_dashboards = true ->
      dashboard_connections m' !! "bot-1"
      = Some (({[1; 2]} : gset nat)
              ∖ dead_among alive (elements ({[1; 2]} : gset nat))))
  /\ (session_recorded "bot-1" two_dashboards = false -> m' = two_dashboards).
Proof.
  apply (broadcast_delivers (fun c => Nat.eqb c 2) Frame.pong "bot-1"
           two_dashboards {[1; 2]}).
  vm_compute. reflexivity.
Defined.

(** *** Connections that are turned away *)

Lemma join_then_leave key (websocket : nat) (groups : gmap string (gset nat)) :
  websocket ∉ (default ∅ (groups !! key)) ->
  groups !! key <> Some ∅ ->
  discard_and_prune websocket key
    (<[key := {[websocket]} ∪ default ∅ (groups !! key)]> groups)
  = groups.
Proof.
  intros Hnew Hne. unfold discard_and_prune. rewrite lookup_insert_eq.
  assert (Hback : ({[websocket]} ∪ default ∅ (groups !! key)) ∖ {[websocket]}
                  = default ∅ (groups !! key)).
  { apply set_eq. intros x.
    rewrite elem_of_difference, elem_of_union, elem_of_singleton.
    split; [tauto|]. intros Hx. split; [by right|]. by intros ->. }
  rewrite Hback.
  destruct (groups !! key) as [s|] eqn:Hs; simpl.
  - rewrite bool_decide_eq_false_2 by congruence.
    rewrite insert_insert_eq. by apply insert_id.
  - rewrite bool_decide_eq_true_2 by done.
    rewrite delete_insert_eq. by apply delete_id.
Qed.

Lemma connect_then_disconnect websocket session_id chatbot_uuid m :
  fresh_socket websocket session_id chatbot_uuid m ->
  disconnect websocket session_id
    (connect websocket session_id (Some chatbot_uuid) m)
  = m.
Proof.
  intros [Hsm Hfresh]. unfold connect, disconnect.
  destruct (truthy (Some chatbot_uuid) && String.prefix "dashboard_" session_id);
    destruct Hfresh as [Hnew Hne]; simpl.
  - rewrite lookup_insert_eq, join_then_leave by done.
    rewrite delete_insert_eq, delete_id by done. by destruct m.
  - rewrite Hsm, join_then_leave by done. by destruct m.
Qed.

Lemma discard_and_prune_gone websocket key groups :
  websocket ∉ default ∅ (discard_and_prune websocket key groups !! key).
Proof.
  unfold discard_and_prune.
  destruct (groups !! key) as [s|] eqn:Hs.
  - destruct (bool_decide (s ∖ {[websocket]} = ∅)).
    + rewrite lookup_delete_eq. simpl. apply not_elem_of_empty.
    + rewrite lookup_insert_eq. simpl.
      rewrite elem_of_difference, elem_of_singleton. tauto.
  - rewrite Hs. simpl. apply not_elem_of_empty.
Qed.

Lemma discard_and_prune_other websocket key groups other :
  other <> key ->
  discard_and_prune websocket key groups !! other = groups !! other.
Proof.
  intros Hne. unfold discard_and_prune.
  destruct (groups !! key) as [s|]; [|done].
  destruct (bool_decide (s ∖ {[websocket]} = ∅)).
  - by rewrite lookup_delete_ne.
  - by rewrite lookup_insert_ne.
Qed.

(** X5: opening a connection.  The chatbot's id is a path segment, so it is
    not empty, and a widget session is not recorded as a dashboard session.
    A connection for an active chatbot gets the [connection] frame, stays
    registered, and is a dashboard listener exactly when its session id
    starts with ["dashboard_"].  A connection for a chatbot that does not
    exist or is switched off gets one [error] frame, is closed with the code
    4004 or 4003 and is unregistered: the socket is not in its group
    afterwards, and the entry of its session in the session map is gone,
    also when another socket of a dashboard session had recorded it; the
    other groups and the other entries are as before.  When the session was
    not recorded, the socket was not in its group and the group was not an
    empty left-over, the whole registry is as it was before the socket
    came. *)
Theorem open_connection_outcomes websocket chatbot_uuid session_id db m :
  chatbot_uuid <> "" ->
  (String.prefix "dashboard_" session_id = false ->
   dashboard_session_map m !! session_id = None) ->
  let '(frames, outcome, m') :=
    ChatRoutes.open_connection websocket chatbot_uuid session_id db m in
  let refused (code : nat) (reason : string) :=
    frames = [Frame.error reason]
    /\ outcome = ChatRoutes.closed code reason
    /\ dashboard_session_map m' !! session_id = None
    /\ (forall other, other <> session_id ->
          dashboard_session_map m' !! other
          = dashboard_session_map m !! other)
    /\ (if String.prefix "dashboard_" session_id
        then (websocket
              ∉ (default ∅ (dashboard_connections m' !! chatbot_uuid)))
             /\ (forall other, other <> chatbot_uuid ->
                   dashboard_connections m' !! other
                   = dashboard_connections m !! other)
             /\ active_connections m' = active_connections m
        else (websocket
              ∉ (default ∅ (active_connections m' !! session_id)))
             /\ (forall other, other <> session_id ->
                   active_connections m' !! other
                   = active_connections m !! other)
             /\ dashboard_connections m' = dashboard_connections m)
    /\ (fresh_socket websocket session_id chatbot_uuid m -> m' = m) in
  match get_chatbot chatbot_uuid db with
  | None => refused 4004 "Chatbot not found"
  | Some chatbot =>
      if Chatbot.is_active chatbot
      then
        frames = [Frame.connection "connected"]
        /\ outcome = (if String.prefix "dashboard_" session_id
                      then ChatRoutes.dashboard_listener
                      else ChatRoutes.widget_loop)
        /\ m' = connect websocket session_id (Some chatbot_uuid) m
        /\ (if String.prefix "dashboard_" session_id
            then (websocket
                  ∈ (default ∅ (dashboard_connections m' !! chatbot_uuid)))
                 /\ dashboard_session_map m' !! session_id
                    = Some chatbot_uuid
            else websocket
                 ∈ (default ∅ (active_connections m' !! session_id)))
      else refused 4003 "Chatbot is not active"
  end.
Proof.
  intros Hpath Hwidget.
  assert (Htruthy : String.eqb chatbot_uuid "" = false)
    by by apply String.eqb_neq.
  assert (Hrefused :
    let m' := disconnect websocket session_id
                (connect websocket session_id (Some chatbot_uuid) m) in
    dashboard_session_map m' !! session_id = None
    /\ (forall other, other <> session_id ->
          dashboard_session_map m' !! other
          = dashboard_session_map m !! other)
    /\ (if String.prefix "dashboard_" session_id
        then (websocket
              ∉ (default ∅ (dashboard_connections m' !! chatbot_uuid)))
             /\ (forall other, other <> chatbot_uuid ->
                   dashboard_connections m' !! other
                   = dashboard_connections m !! other)
             /\ active_connections m' = active_connections m
        else (websocket
              ∉ (default ∅ (active_connections m' !! session_id)))
             /\ (forall other, other <> session_id ->
                   active_connections m' !! other
                   = active_connections m !! other)
             /\ dashboard_connections m' = dashboard_connections m)
    /\ (fresh_socket websocket session_id chatbot_uuid m -> m' = m)).
  { cbv zeta. split; [|split; [|split]].
    4: { apply connect_then_disconnect. }
    all: unfold connect, disconnect, truthy; rewrite Htruthy; simpl;
      destruct (String.prefix "dashboard_" session_id) eqn:Hprefix; simpl.
    - rewrite lookup_insert_eq. simpl. apply lookup_delete_eq.
    - rewrite (Hwidget eq_refl). simpl. by apply Hwidget.
    - rewrite lookup_insert_eq. simpl. intros other Hne.
      by rewrite lookup_delete_ne, lookup_insert_ne.
    - by rewrite (Hwidget eq_refl).
    - rewrite lookup_insert_eq. simpl.
      split; [apply discard_and_prune_gone|]. split; [|done].
      intros other Hne.
      by rewrite discard_and_prune_other, lookup_insert_ne.
    - rewrite (Hwidget eq_refl). simpl.
      split; [apply discard_and_prune_gone|]. split; [|done].
      intros other Hne.
      by rewrite discard_and_prune_other, lookup_insert_ne. }
  unfold ChatRoutes.open_connection.
  destruct (get_chatbot chatbot_uuid db) as [chatbot|]; [|by simpl].
  destruct (Chatbot.is_active chatbot); simpl; [|done].
  split; [done|]. split; [done|]. split; [done|].
  unfold connect, truthy. rewrite Htruthy. simpl.
  destruct (String.prefix "dashboard_" session_id); simpl;
    rewrite ?lookup_insert_eq; simpl;
    [split; [|done]|]; apply elem_of_union_l, elem_of_singleton; done.
Qed.

Lemma open_connection_outcomes_witness :
  ChatRoutes.open_connection 9 "bot-1" "session-z" inactive_db one_widget
  = ([Frame.error "Chatbot is not active"],
     ChatRoutes.closed 4003 "Chatbot is not active", one_widget).
Proof.
  pose proof (open_connection_outcomes 9 "bot-1" "session-z" inactive_db
                one_widget ltac:(discriminate) ltac:(reflexivity)) as Hopen.
  destruct (ChatRoutes.open_connection 9 "bot-1" "session-z" inactive_db
              one_widget) as [[frames outcome] m'].
  simpl in Hopen. destruct Hopen as (-> & -> & _ & _ & _ & Hfresh).
  rewrite Hfresh; [reflexivity|].
  split; [reflexivity|]. simpl. split.
  - vm_compute. discriminate.
  - vm_compute. discriminate.
Defined.

(** A second tab of a dashboard session asks for a chatbot that does not
    exist: the refusal forgets the session of the first tab, whose socket
    stays in the group of its chatbot. *)
Example refused_tab_forgets_session :
  let m := connect 1 "dashboard_a" (Some "bot-1") init in
  let '(frames, outcome, m') :=
    ChatRoutes.open_connection 2 "bot-9" "dashboard_a" sample_db m in
  outcome = ChatRoutes.closed 4004 "Chatbot not found"
  /\ dashboard_session_map m !! "dashboard_a" = Some "bot-1"
  /\ dashboard_session_map m' = ∅
  /\ dashboard_connections m' !! "bot-1" = Some {[1]}.
Proof. vm_compute. done. Qed.

End Registry.

(** ** The handoff service *)

Section Service.
Import HandoffService.

(** X6: [send_agent_message] stores the message exactly when the
    conversation exists, is in the state [human] and is assigned to the
    agent; it then appends one message with the role ["agent"] and the next
    id of the sequence.  In every other case it raises and leaves the store
    as it was. *)
Theorem send_agent_message_permission now conversation_uuid agent_user_uuid
    content db :
  let '(r, db') :=
    send_agent_message now conversation_uuid agent_user_uuid content db in
  match r with
  | Ok message =>
      (exists c, get_conversation conversation_uuid db = Some c
                 /\ assigned_to agent_user_uuid c)
      /\ message = Message.mk (next_message_id db) conversation_uuid "agent"
                     content None now None
      /\ messages db' = messages db ++ [message]
      /\ handoff_requests db' = handoff_requests db
  | Raise e =>
      ~ (exists c, get_conversation conversation_uuid db = Some c
                   /\ assigned_to agent_user_uuid c)
      /\ db' = db
      /\ exists msg, e = ValueError msg
  end.
Proof.
  unfold send_agent_message, assigned_to.
  destruct (get_conversation conversation_uuid db) as [c|] eqn:Hc.
  2: { split; [by intros (c & [=] & _)|]. eauto. }
  destruct (String.eqb_spec (Conversation.handoff_status c) "human")
    as [Hh|Hh]; simpl.
  2: { split; [intros (c' & [= <-] & Hh' & _); done|]. eauto. }
  destruct (bool_decide (Conversation.assigned_to_user_uuid c
                         = Some agent_user_uuid)) eqn:Ha; simpl.
  - apply bool_decide_eq_true in Ha. split; [eauto|]. done.
  - apply bool_decide_eq_false in Ha.
    split; [intros (c' & [= <-] & _ & Ha'); done|]. eauto.
Qed.

(** X7: after a request was accepted by an operator, that operator can
    write to the conversation of the request, and any other user is refused
    with the store left as it was. *)
Theorem accept_assigns_the_conversation now i user db r db' c :
  accept_handoff_request now i user db = (Ok r, db') ->
  get_conversation (HandoffRequest.conversation_uuid r) db = Some c ->
  (exists c', get_conversation (HandoffRequest.conversation_uuid r) db'
              = Some c'
              /\ assigned_to user c')
  /\ (forall now2 content,
        exists message db2,
          send_agent_message now2 (HandoffRequest.conversation_uuid r) user
            content db' = (Ok message, db2))
  /\ (forall now2 content other,
        other <> user ->
        send_agent_message now2 (HandoffRequest.conversation_uuid r) other
          content db'
        = (Raise (ValueError "You are not assigned to this conversation"),
           db')).
Proof.
  intros Hacc Hc.
  destruct (accept_inv _ _ _ _ _ _ Hacc) as (r0 & Hr0 & Hst & _ & Hcs).
  assert (Hr : r = HandoffRequest.accept now user r0).
  { unfold accept_handoff_request in Hacc. rewrite Hr0, Hst in Hacc.
    simpl in Hacc. congruence. }
  assert (Hu : HandoffRequest.conversation_uuid r
               = HandoffRequest.conversation_uuid r0) by by rewrite Hr.
  rewrite Hu in *.
  assert (Hc' : get_conversation (HandoffRequest.conversation_uuid r0) db'
                = Some (Conversation.set_assigned_to_user_uuid (Some user)
                          (Conversation.set_handoff_status "human" c))).
  { unfold get_conversation in *. rewrite Hcs.
    rewrite find_map_stable.
    - rewrite Hc. simpl. apply find_some in Hc as [_ Hc]. by rewrite Hc.
    - intros c0.
      destruct (String.eqb (Conversation.uuid c0) _) eqn:E; simpl; exact E. }
  split; [eexists; split; [exact Hc'|done]|]. split.
  - intros now2 content. unfold send_agent_message. rewrite Hc'. simpl.
    rewrite bool_decide_eq_true_2 by done. simpl. eauto.
  - intros now2 content other Hne. unfold send_agent_message.
    rewrite Hc'. simpl.
    rewrite bool_decide_eq_false_2; [done|]. congruence.
Qed.

Lemma accept_assigns_the_conversation_witness :
  (exists c', get_conversation "conv-1" accepted_db = Some c'
              /\ assigned_to "agent-1" c')
  /\ (forall now2 content,
        exists message db2,
          send_agent_message now2 "conv-1" "agent-1" content accepted_db
          = (Ok message, db2))
  /\ (forall now2 content other,
        other <> "agent-1" ->
        send_agent_message now2 "conv-1" other content accepted_db
        = (Raise (ValueError "You are not assigned to this conversation"),
           accepted_db)).
Proof.
  exact (accept_assigns_the_conversation 102 1 "agent-1" requested_db
           (HandoffRequest.mk 1 "conv-1" "bot-1" "accepted" 101 (Some 102)
              (Some "agent-1") None (Some "help"))
           accepted_db
           (Conversation.mk "conv-1" "bot-1" (Some "Anonymous") None None
              "session-a" (Some "client-1") "active" "requested" None 100 100)
           eq_refl eq_refl).
Defined.

(** *** Invariants of the coordinator *)

Lemma staffed_step call db db' :
  staffed db -> coordinator_step call db db' -> staffed db'.
Proof.
  intros Hs Hstep. destruct Hstep as [now cu cb reason db|now i user db r db' Hacc].
  - destruct (find (pending_for cu) (handoff_requests db)) as [e|] eqn:Hf.
    + by rewrite (create_existing _ _ _ _ _ _ Hf).
    + destruct (create_new now cu cb reason db Hf) as (_ & _ & Hcs).
      intros c'. rewrite Hcs. intros Hin Hh.
      apply in_map_iff in Hin as (c & <- & Hin).
      destruct (String.eqb (Conversation.uuid c) cu); [done|].
      by apply Hs.
  - destruct (accept_inv _ _ _ _ _ _ Hacc) as (r0 & _ & _ & _ & Hcs).
    intros c'. rewrite Hcs. intros Hin Hh.
    apply in_map_iff in Hin as (c & <- & Hin).
    destruct (String.eqb (Conversation.uuid c) _); [done|].
    by apply Hs.
Qed.

(** X8: every operation of the coordinator keeps the conversations
    staffed: if every conversation in the state [human] has an operator
    before, the same holds after. *)
Theorem coordinator_keeps_staffed op db :
  staffed db -> staffed (run op db).
Proof.
  intros Hs. pose proof (rtc_run op db) as Hsteps.
  induction Hsteps as [db|db db1 db2 [call Hstep] _ IH]; [done|].
  apply IH. by eapply staffed_step.
Qed.

Lemma coordinator_keeps_staffed_witness :
  staffed (run (TakeOver 101 "conv-1" "agent-1" true) sample_db).
Proof.
  apply (coordinator_keeps_staffed (TakeOver 101 "conv-1" "agent-1" true)
           sample_db).
  intros c [<-|[]]. discriminate.
Defined.

Lemma request_ids_fresh_step call db db' :
  request_ids_fresh db -> coordinator_step call db db' ->
  request_ids_fresh db'.
Proof.
  intros [Hnd Hlt] Hstep.
  destruct Hstep as [now cu cb reason db|now i user db r db' Hacc].
  - destruct (find (pending_for cu) (handoff_requests db)) as [e|] eqn:Hf.
    { by rewrite (create_existing _ _ _ _ _ _ Hf). }
    destruct (create_new now cu cb reason db Hf) as (_ & Hrs & _).
    assert (Hnext : next_handoff_request_id
                      (create_handoff_request now cu cb reason db).2
                    = S (next_handoff_request_id db)).
    { unfold create_handoff_request. rewrite Hf.
      by destruct (get_conversation cu db). }
    unfold request_ids_fresh. rewrite Hrs, Hnext.
    split.
    + rewrite List.map_app. simpl. apply NoDup_app. split; [done|].
      split; [|apply NoDup_singleton].
      intros x Hx Hx'. apply list_elem_of_singleton in Hx'. subst x.
      apply list_elem_of_In, in_map_iff in Hx as (r & Hid & Hin).
      rewrite Forall_forall in Hlt.
      apply list_elem_of_In, Hlt in Hin. lia.
    + apply Forall_app. split.
      * eapply Forall_impl; [exact Hlt|]. simpl. intros. lia.
      * constructor; [simpl; lia | constructor].
  - destruct (accept_inv _ _ _ _ _ _ Hacc) as (r0 & _ & _ & Hrs & _).
    assert (Hnext : next_handoff_request_id db' = next_handoff_request_id db).
    { unfold accept_handoff_request in Hacc.
      destruct (get_handoff_request i db); [|done].
      destruct (negb _); [done|]. injection Hacc as _ <-.
      by destruct (get_conversation _ db). }
    assert (Hids : map HandoffRequest.id (handoff_requests db')
                   = map HandoffRequest.id (handoff_requests db)).
    { rewrite Hrs, map_map. apply map_ext. intros r1.
      by destruct (Nat.eqb _ i). }
    split; [by rewrite Hids|].
    rewrite Hrs, Hnext. apply Forall_map.
    eapply Forall_impl; [exact Hlt|]. intros r1 Hr1. simpl.
    by destruct (Nat.eqb _ i).
Qed.

(** X9: the ids of the handoff requests stay a primary key under every
    operation of the coordinator: no id occurs twice and every id lies below
    the next value of the sequence. *)
Theorem coordinator_keeps_request_ids op db :
  request_ids_fresh db -> request_ids_fresh (run op db).
Proof.
  intros Hs. pose proof (rtc_run op db) as Hsteps.
  induction Hsteps as [db|db db1 db2 [call Hstep] _ IH]; [done|].
  apply IH. by eapply request_ids_fresh_step.
Qed.

Lemma coordinator_keeps_request_ids_witness :
  request_ids_fresh (run (TakeOver 101 "conv-1" "agent-1" true) sample_db).
Proof.
  apply (coordinator_keeps_request_ids (TakeOver 101 "conv-1" "agent-1" true)
           sample_db).
  split; simpl; constructor.
Defined.

(** *** The listings *)

Lemma insert_desc_perm r l : insert_desc r l ≡ₚ r :: l.
Proof.
  induction l as [|r0 l IH]; simpl; [done|].
  destruct (Nat.leb _ _); [done|].
  rewrite IH. apply Permutation_swap.
Qed.

Lemma order_by_requested_at_desc_perm l :
  order_by_requested_at_desc l ≡ₚ l.
Proof.
  induction l as [|r l IH]; simpl; [done|].
  by rewrite insert_desc_perm, IH.
Qed.

Lemma insert_desc_sorted r l :
  StronglySorted newer_first l -> StronglySorted newer_first (insert_desc r l).
Proof.
  induction 1 as [|r0 l Hl IH Hall]; simpl.
  - repeat constructor.
  - destruct (Nat.leb_spec (HandoffRequest.requested_at r0)
                (HandoffRequest.requested_at r)) as [Hle|Hgt].
    + constructor; [by constructor|].
      constructor; [exact Hle|].
      eapply Forall_impl; [exact Hall|].
      unfold newer_first. intros. simpl in *. lia.
    + constructor; [exact IH|].
      rewrite insert_desc_perm.
      constructor; [unfold newer_first; lia | exact Hall].
Qed.

Lemma order_by_requested_at_desc_sorted l :
  StronglySorted newer_first (order_by_requested_at_desc l).
Proof.
  induction l as [|r l IH]; simpl; [constructor|].
  by apply insert_desc_sorted.
Qed.

(** X10: [get_pending_handoff_requests] lists the pending requests of the
    chatbot, all of them and nothing else, each as often as it is stored,
    the latest request first. *)
Theorem pending_requests_listed chatbot_uuid db :
  let listed := get_pending_handoff_requests chatbot_uuid db in
  StronglySorted newer_first listed
  /\ listed
     ≡ₚ List.filter
          (fun r => String.eqb (HandoffRequest.chatbot_uuid r) chatbot_uuid
                    && String.eqb (HandoffRequest.status r) "pending")
          (handoff_requests db)
  /\ forall r, In r listed <->
       In r (handoff_requests db)
       /\ HandoffRequest.chatbot_uuid r = chatbot_uuid
       /\ HandoffRequest.status r = "pending".
Proof.
  unfold get_pending_handoff_requests. split; [|split].
  - apply order_by_requested_at_desc_sorted.
  - apply order_by_requested_at_desc_perm.
  - intros r. rewrite <- !list_elem_of_In.
    rewrite order_by_requested_at_desc_perm.
    rewrite !list_elem_of_In, filter_In, andb_true_iff, !String.eqb_eq.
    tauto.
Qed.

(** X11: [get_handoff_request_by_conversation] returns nothing exactly when
    the conversation has no request at all, and otherwise a request of the
    conversation that is at least as late as every other one. *)
Theorem latest_request_of_conversation conversation_uuid db :
  match get_handoff_request_by_conversation conversation_uuid db with
  | None =>
      forall r, In r (handoff_requests db) ->
        HandoffRequest.conversation_uuid r <> conversation_uuid
  | Some latest =>
      In latest (handoff_requests db)
      /\ HandoffRequest.conversation_uuid latest = conversation_uuid
      /\ forall r, In r (handoff_requests db) ->
           HandoffRequest.conversation_uuid r = conversation_uuid ->
           HandoffRequest.requested_at r
           <= HandoffRequest.requested_at latest
  end.
Proof.
  unfold get_handoff_request_by_conversation.
  set (own := List.filter _ (handoff_requests db)).
  assert (Hown : forall r, In r own <->
                   In r (handoff_requests db)
                   /\ HandoffRequest.conversation_uuid r = conversation_uuid).
  { intros r. unfold own. by rewrite filter_In, String.eqb_eq. }
  pose proof (order_by_requested_at_desc_perm own) as Hperm.
  pose proof (order_by_requested_at_desc_sorted own) as Hsorted.
  destruct (order_by_requested_at_desc own) as [|latest rest]; simpl.
  - intros r Hin Hu. apply Permutation_nil_l in Hperm.
    assert (Hr : In r own) by by apply Hown. rewrite <- Hperm in Hr. done.
  - assert (Hl : In latest own).
    { apply list_elem_of_In. rewrite <- Hperm. left. }
    apply Hown in Hl as [Hl Hu]. split; [done|]. split; [done|].
    intros r Hin Hru.
    assert (Hr : r ∈ latest :: rest).
    { rewrite Hperm. apply list_elem_of_In. by apply Hown. }
    apply StronglySorted_inv in Hsorted as [_ Hall].
    apply elem_of_cons in Hr as [->|Hr]; [done|].
    rewrite Forall_forall in Hall. by apply Hall.
Qed.

(** *** Taking a conversation over *)

Lemma no_request_of_conversation conversation_uuid db :
  get_handoff_request_by_conversation conversation_uuid db = None ->
  forall r, In r (handoff_requests db) ->
    HandoffRequest.conversation_uuid r <> conversation_uuid.
Proof.
  unfold get_handoff_request_by_conversation.
  set (own := List.filter _ (handoff_requests db)).
  pose proof (order_by_requested_at_desc_perm own) as Hperm.
  destruct (order_by_requested_at_desc own); simpl; [|done].
  intros _ r Hin Hu. apply Permutation_nil_l in Hperm.
  assert (Hr : In r own).
  { unfold own. apply filter_In. split; [done|]. by apply String.eqb_eq. }
  rewrite <- Hperm in Hr. done.
Qed.

(** X12: taking over a conversation that never had a request creates the
    request and accepts it in the same call: the answer is the new request,
    accepted by the user, and the conversation ends in the state [human]
    with the user as its operator. *)
Theorem take_over_fresh_conversation now conversation_uuid user db c b :
  request_ids_fresh db ->
  get_conversation conversation_uuid db = Some c ->
  get_chatbot (Conversation.chatbot_uuid c) db = Some b ->
  get_handoff_request_by_conversation conversation_uuid db = None ->
  exists db' c',
    HandoffRoutes.take_over_conversation now conversation_uuid user true db
    = (Ok (HandoffRequest.mk (next_handoff_request_id db) conversation_uuid
             (Conversation.chatbot_uuid c) "accepted" now (Some now)
             (Some user) None (Some "Manual takeover")),
       db', [])
    /\ get_conversation conversation_uuid db' = Some c'
    /\ assigned_to user c'
    /\ get_handoff_request (next_handoff_request_id db) db'
       = Some (HandoffRequest.mk (next_handoff_request_id db)
                 conversation_uuid (Conversation.chatbot_uuid c) "accepted"
                 now (Some now) (Some user) None (Some "Manual takeover")).
Proof.
  intros [_ Hlt] Hc Hb Hnone.
  pose proof (no_request_of_conversation _ _ Hnone) as Hno.
  assert (Hf : find (pending_for conversation_uuid) (handoff_requests db)
               = None).
  { destruct (find _ (handoff_requests db)) as [r|] eqn:Hf; [|done].
    apply find_some in Hf as [Hin Hp]. apply pending_for_spec in Hp as [Hu _].
    by destruct (Hno r Hin). }
  destruct (create_new now conversation_uuid (Conversation.chatbot_uuid c)
              (Some "Manual takeover") db Hf) as (Hr & Hrs & Hcs).
  set (new := HandoffRequest.mk (next_handoff_request_id db) conversation_uuid
                (Conversation.chatbot_uuid c) "pending" now None None None
                (Some "Manual takeover")) in *.
  destruct (create_handoff_request now conversation_uuid
              (Conversation.chatbot_uuid c) (Some "Manual takeover") db)
    as [created db1] eqn:Hcreate.
  simpl in Hr, Hrs, Hcs. subst created.
  assert (Hget : get_handoff_request (next_handoff_request_id db) db1
                 = Some new).
  { unfold get_handoff_request. rewrite Hrs, find_app_None.
    - simpl. by rewrite Nat.eqb_refl.
    - clear Hf.
      destruct (find _ (handoff_requests db)) as [r|] eqn:Hfr; [|done].
      apply find_some in Hfr as [Hin Hid]. apply Nat.eqb_eq in Hid.
      rewrite Forall_forall in Hlt.
      apply list_elem_of_In, Hlt in Hin. lia. }
  destruct (accept_pending now (next_handoff_request_id db) user db1 new Hget
              eq_refl) as (db2 & Hacc & Hget2).
  assert (Hc1 : get_conversation conversation_uuid db1
                = Some (Conversation.set_handoff_status "requested" c)).
  { unfold get_conversation in *. rewrite Hcs, find_map_stable.
    - rewrite Hc. simpl. apply find_some in Hc as [_ Hc]. by rewrite Hc.
    - intros c0.
      destruct (String.eqb (Conversation.uuid c0) _) eqn:E; simpl; exact E. }
  destruct (accept_inv _ _ _ _ _ _ Hacc) as (r0 & Hr0 & _ & _ & Hcs2).
  rewrite Hget in Hr0. injection Hr0 as <-. simpl in Hcs2.
  exists db2. eexists.
  split; [|split; [|split; [|exact Hget2]]].
  - unfold HandoffRoutes.take_over_conversation. unfold_M.
    rewrite Hc, Hb. simpl. rewrite Hnone, Hcreate. simpl.
    by rewrite Hacc.
  - unfold get_conversation in *. rewrite Hcs2, find_map_stable.
    + rewrite Hc1. simpl. apply find_some in Hc as [_ Hc]. simpl.
      rewrite Hc. reflexivity.
    + intros c0.
      destruct (String.eqb (Conversation.uuid c0) _) eqn:E; simpl; exact E.
  - done.
Qed.

Lemma take_over_fresh_conversation_witness :
  exists db' c',
    HandoffRoutes.take_over_conversation 101 "conv-1" "agent-1" true sample_db
    = (Ok (HandoffRequest.mk 1 "conv-1" "bot-1" "accepted" 101 (Some 101)
             (Some "agent-1") None (Some "Manual takeover")),
       db', [])
    /\ get_conversation "conv-1" db' = Some c'
    /\ assigned_to "agent-1" c'
    /\ get_handoff_request 1 db'
       = Some (HandoffRequest.mk 1 "conv-1" "bot-1" "accepted" 101 (Some 101)
                 (Some "agent-1") None (Some "Manual takeover")).
Proof.
  apply (take_over_fresh_conversation 101 "conv-1" "agent-1" sample_db
           sample_conversation sample_chatbot);
    [split; simpl; constructor | reflexivity | reflexivity | reflexivity].
Defined.

(** X28: taking over a conversation whose latest request is not pending
    changes nothing: the route answers with that request as it is stored, so
    a conversation that another operator accepted stays with that
    operator. *)
Theorem take_over_settled_request now conversation_uuid user db c b r :
  get_conversation conversation_uuid db = Some c ->
  get_chatbot (Conversation.chatbot_uuid c) db = Some b ->
  get_handoff_request_by_conversation conversation_uuid db = Some r ->
  HandoffRequest.status r <> "pending" ->
  HandoffRoutes.take_over_conversation now conversation_uuid user true db
  = (Ok r, db, []).
Proof.
  intros Hc Hb Hr Hst. unfold HandoffRoutes.take_over_conversation. unfold_M.
  rewrite Hc, Hb. simpl. rewrite Hr. simpl.
  apply String.eqb_neq in Hst. by rewrite Hst.
Qed.

Lemma take_over_settled_request_witness :
  HandoffRoutes.take_over_conversation 110 "conv-1" "agent-2" true accepted_db
  = (Ok (HandoffRequest.mk 1 "conv-1" "bot-1" "accepted" 101 (Some 102)
           (Some "agent-1") None (Some "help")),
     accepted_db, []).
Proof.
  apply (take_over_settled_request 110 "conv-1" "agent-2" accepted_db
           (Conversation.mk "conv-1" "bot-1" (Some "Anonymous") None None
              "session-a" (Some "client-1") "active" "human"
              (Some "agent-1") 100 100)
           sample_chatbot);
    [reflexivity | reflexivity | reflexivity | discriminate].
Defined.

(** *** The list of pending requests heals itself *)

Lemma create_post now conversation_uuid chatbot_uuid reason db :
  let created :=
    create_handoff_request now conversation_uuid chatbot_uuid reason db in
  In created.1 (handoff_requests created.2)
  /\ HandoffRequest.conversation_uuid created.1 = conversation_uuid
  /\ HandoffRequest.status created.1 = "pending"
  /\ forall r, In r (handoff_requests db) -> In r (handoff_requests created.2).
Proof.
  destruct (find (pending_for conversation_uuid) (handoff_requests db))
    as [existing|] eqn:Hf.
  - rewrite (create_existing _ _ _ _ _ _ Hf). simpl.
    apply find_some in Hf as [Hin Hp]. apply pending_for_spec in Hp.
    tauto.
  - destruct (create_new now conversation_uuid chatbot_uuid reason db Hf)
      as (Hr & Hrs & _).
    simpl. rewrite Hrs, Hr. simpl.
    split; [apply in_app_iff; right; by left|].
    split; [done|]. split; [done|].
    intros r Hin. apply in_app_iff. by left.
Qed.

Lemma reconcile_post now chatbot_uuid existing cs requests db :
  exists out db' t,
    HandoffRoutes.reconcile now chatbot_uuid existing cs requests db
    = (Ok out, db', t)
    /\ (forall r, In r requests -> In r out)
    /\ (forall r, In r out ->
          In r requests
          \/ (HandoffRequest.status r = "pending"
              /\ In r (handoff_requests db')))
    /\ (forall c, In c cs ->
          existsb (String.eqb (Conversation.uuid c)) existing = false ->
          exists r, In r out
                    /\ HandoffRequest.conversation_uuid r = Conversation.uuid c
                    /\ HandoffRequest.status r = "pending"
                    /\ In r (handoff_requests db'))
    /\ (forall r, In r (handoff_requests db) -> In r (handoff_requests db')).
Proof.
  revert requests db. induction cs as [|c cs IH]; intros requests db; simpl.
  - exists requests, db, []. repeat split; try done. by left.
  - destruct (existsb (String.eqb (Conversation.uuid c)) existing) eqn:Hex.
    + destruct (IH requests db) as (out & db' & t & Hrun & Hin & Hout & Hnew & Hold).
      exists out, db', t. repeat split; try done.
      intros c0 [<-|Hc0] Hex0; [congruence|]. by apply Hnew.
    + unfold_M.
      pose proof (create_post now (Conversation.uuid c) chatbot_uuid
                    (Some "Auto-created from conversation status") db)
        as (Hcin & Hcu & Hcst & Hcold).
      destruct (create_handoff_request now (Conversation.uuid c) chatbot_uuid
                  (Some "Auto-created from conversation status") db)
        as [req db1].
      simpl in *.
      destruct (IH (requests ++ [req]) db1)
        as (out & db' & t & Hrun & Hin & Hout & Hnew & Hold).
      rewrite Hrun. exists out, db', t. split; [done|].
      split; [|split; [|split]].
      * intros r Hr. apply Hin, in_app_iff. by left.
      * intros r Hr. destruct (Hout r Hr) as [Hreq|Hp]; [|by right].
        apply in_app_iff in Hreq as [Hreq|[<-|[]]]; [by left|].
        right. split; [done|]. by apply Hold.
      * intros c0 [<-|Hc0] Hex0; [|by apply Hnew].
        exists req. split; [apply Hin, in_app_iff; right; by left|].
        split; [done|]. split; [done|]. by apply Hold.
      * intros r Hr. by apply Hold, Hcold.
Qed.

(** X13: the list of pending requests of a chatbot heals the store: for
    every conversation of the chatbot in the state [requested], also one
    that lost its request, the answer holds a pending request, stored when
    the route returns; every listed request is pending and stored, and no
    stored request is lost. *)
Theorem pending_listing_heals now chatbot_uuid db :
  is_Some (get_chatbot chatbot_uuid db) ->
  exists listed db' t,
    HandoffRoutes.get_pending_handoff_requests now chatbot_uuid true db
    = (Ok listed, db', t)
    /\ (forall c, In c (conversations db) ->
          Conversation.chatbot_uuid c = chatbot_uuid ->
          Conversation.handoff_status c = "requested" ->
          exists r, In r listed
                    /\ HandoffRequest.conversation_uuid r = Conversation.uuid c)
    /\ (forall r, In r listed ->
          HandoffRequest.status r = "pending"
          /\ In r (handoff_requests db'))
    /\ (forall r, In r (handoff_requests db) -> In r (handoff_requests db')).
Proof.
  intros [b Hb]. unfold HandoffRoutes.get_pending_handoff_requests.
  unfold mbind at 1, M_bind at 1, query at 1. rewrite Hb. simpl.
  unfold mbind at 1, M_bind at 1, query at 1.
  unfold mbind at 1, M_bind at 1, query at 1. simpl.
  set (requests := get_pending_handoff_requests chatbot_uuid db).
  set (cs := List.filter _ (conversations db)).
  destruct (reconcile_post now chatbot_uuid
              (map HandoffRequest.conversation_uuid requests) cs requests db)
    as (out & db' & t & Hrun & Hin & Hout & Hnew & Hold).
  unfold mbind at 1, M_bind at 1. rewrite Hrun. simpl.
  exists (order_by_requested_at_desc out), db', t.
  split; [by rewrite app_nil_r|].
  assert (Hlisted : forall r, In r (order_by_requested_at_desc out)
                              <-> In r out).
  { intros r. rewrite <- !list_elem_of_In.
    by rewrite order_by_requested_at_desc_perm. }
  assert (Hreq : forall r, In r requests ->
                   In r (handoff_requests db)
                   /\ HandoffRequest.status r = "pending").
  { intros r Hr. unfold requests, get_pending_handoff_requests in Hr.
    apply list_elem_of_In in Hr.
    rewrite order_by_requested_at_desc_perm in Hr.
    apply list_elem_of_In, filter_In in Hr as [Hr Hp].
    apply andb_true_iff in Hp as [_ Hp]. by apply String.eqb_eq in Hp. }
  split; [|split; [|done]].
  - intros c Hc Hcb Hst.
    assert (Hcs : In c cs).
    { unfold cs. apply filter_In. split; [done|].
      by rewrite Hcb, Hst, !String.eqb_refl. }
    destruct (existsb (String.eqb (Conversation.uuid c))
                (map HandoffRequest.conversation_uuid requests)) eqn:Hex.
    + apply existsb_exists in Hex as (u & Hu & Heq).
      apply String.eqb_eq in Heq. subst u.
      apply in_map_iff in Hu as (r & Hru & Hr).
      exists r. split; [by apply Hlisted, Hin|done].
    + destruct (Hnew c Hcs Hex) as (r & Hr & Hru & _).
      exists r. split; [by apply Hlisted|done].
  - intros r Hr. apply Hlisted in Hr.
    destruct (Hout r Hr) as [Hreq0|Hp]; [|done].
    destruct (Hreq r Hreq0) as [Hdb Hst]. split; [done|]. by apply Hold.
Qed.

Lemma pending_listing_heals_witness :
  exists listed db' t,
    HandoffRoutes.get_pending_handoff_requests 101 "bot-1" true orphan_db
    = (Ok listed, db', t)
    /\ (forall c, In c (conversations orphan_db) ->
          Conversation.chatbot_uuid c = "bot-1" ->
          Conversation.handoff_status c = "requested" ->
          exists r, In r listed
                    /\ HandoffRequest.conversation_uuid r = Conversation.uuid c)
    /\ (forall r, In r listed ->
          HandoffRequest.status r = "pending"
          /\ In r (handoff_requests db'))
    /\ (forall r, In r (handoff_requests orphan_db) ->
          In r (handoff_requests db')).
Proof.
  apply (pending_listing_heals 101 "bot-1" orphan_db). by eexists.
Defined.

(** *** The agent's message *)

(** X14: the route of the agent's message tells nobody about a message that
    was not stored: when the service refuses, the route raises with the
    store unchanged and no effect.  When the message is stored, the effects
    are the message frame with the role ["agent"] to the customer's session
    followed by the notice to the chatbot's dashboard. *)
Theorem agent_message_route now conversation_uuid content user db :
  let '(r, db', t) :=
    HandoffRoutes.send_agent_message now conversation_uuid content user db in
  match r with
  | Ok message =>
      exists c,
        get_conversation conversation_uuid db = Some c
        /\ assigned_to user c
        /\ messages db' = messages db ++ [message]
        /\ Message.role message = "agent"
        /\ Message.content message = content
        /\ t = [SendMessage (Frame.message "agent" content)
                  (Conversation.session_id c);
                BroadcastToDashboard
                  (Frame.new_message conversation_uuid
                     (Conversation.chatbot_uuid c) "agent")
                  (Conversation.chatbot_uuid c)]
  | Raise e => db' = db /\ t = []
  end.
Proof.
  unfold HandoffRoutes.send_agent_message, send_agent_message, assigned_to.
  unfold_M.
  destruct (get_conversation conversation_uuid db) as [c|] eqn:Hc; [|done].
  destruct (String.eqb_spec (Conversation.handoff_status c) "human")
    as [Hh|Hh]; simpl; [|done].
  destruct (bool_decide (Conversation.assigned_to_user_uuid c = Some user))
    eqn:Ha; simpl; [|done].
  apply bool_decide_eq_true in Ha.
  assert (Hu : Conversation.uuid c = conversation_uuid).
  { apply find_some in Hc as [_ Hc]. by apply String.eqb_eq. }
  assert (Hget : get_conversation conversation_uuid
                   (modify_conversation (Conversation.uuid c)
                      (Conversation.set_updated_at now) db)
                 = Some (Conversation.set_updated_at now c)).
  { rewrite get_conversation_modify, Hc by done. simpl.
    by rewrite Hu, String.eqb_refl. }
  unfold get_conversation in Hget |- *. simpl in Hget |- *.
  rewrite Hget. simpl. exists c. by repeat split.
Qed.

(** *** Who may use the routes *)

(** X15: without access to the chatbot's workspace, a user takes over no
    conversation and lists no request: both routes raise an HTTP error,
    write nothing and tell nobody.  The status of a conversation is then
    shown only to the user the conversation is assigned to. *)
Theorem handoff_routes_refuse_strangers now conversation_uuid chatbot_uuid
    user db :
  (exists code detail,
     HandoffRoutes.take_over_conversation now conversation_uuid user false db
     = (Raise (HTTPException code detail), db, []))
  /\ (exists code detail,
        HandoffRoutes.get_pending_handoff_requests now chatbot_uuid false db
        = (Raise (HTTPException code detail), db, []))
  /\ (forall answer db' t,
        HandoffRoutes.get_handoff_status conversation_uuid user false db
        = (Ok answer, db', t) ->
        exists c, get_conversation conversation_uuid db = Some c
                  /\ Conversation.assigned_to_user_uuid c = Some user
                  /\ db' = db).
Proof.
  split; [|split].
  - unfold HandoffRoutes.take_over_conversation. unfold_M.
    destruct (get_conversation conversation_uuid db) as [c|]; simpl; [|eauto].
    destruct (get_chatbot (Conversation.chatbot_uuid c) db); simpl; eauto.
  - unfold HandoffRoutes.get_pending_handoff_requests. unfold_M.
    destruct (get_chatbot chatbot_uuid db); simpl; eauto.
  - intros answer db' t. unfold HandoffRoutes.get_handoff_status. unfold_M.
    destruct (get_conversation conversation_uuid db) as [c|]; simpl; [|done].
    destruct (get_chatbot (Conversation.chatbot_uuid c) db); simpl; [|done].
    destruct (bool_decide (Conversation.assigned_to_user_uuid c = Some user))
      eqn:Ha; simpl; [|done].
    apply bool_decide_eq_true in Ha. intros [= _ <- _]. eauto.
Qed.

End Service.

(** ** The chat service *)

Section Chat.
Context `{Collaborators}.
Import ChatService.

Lemma insert_asc_perm m l : insert_asc m l ≡ₚ m :: l.
Proof.
  induction l as [|m0 l IH]; simpl; [done|].
  destruct (Nat.leb _ _); [done|].
  rewrite IH. apply Permutation_swap.
Qed.

Lemma order_by_created_at_asc_perm l : order_by_created_at_asc l ≡ₚ l.
Proof.
  induction l as [|m l IH]; simpl; [done|].
  by rewrite insert_asc_perm, IH.
Qed.

Lemma insert_asc_sorted m l :
  StronglySorted older_first l -> StronglySorted older_first (insert_asc m l).
Proof.
  induction 1 as [|m0 l Hl IH Hall]; simpl.
  - repeat constructor.
  - destruct (Nat.leb_spec (Message.created_at m) (Message.created_at m0))
      as [Hle|Hgt].
    + constructor; [by constructor|].
      constructor; [exact Hle|].
      eapply Forall_impl; [exact Hall|].
      unfold older_first. intros. simpl in *. lia.
    + constructor; [exact IH|].
      rewrite insert_asc_perm.
      constructor; [unfold older_first; lia | exact Hall].
Qed.

Lemma order_by_created_at_asc_sorted l :
  StronglySorted older_first (order_by_created_at_asc l).
Proof.
  induction l as [|m l IH]; simpl; [constructor|].
  by apply insert_asc_sorted.
Qed.

Lemma sorted_app_inv {A} (R : A -> A -> Prop) (l1 l2 : list A) :
  StronglySorted R (l1 ++ l2) ->
  StronglySorted R l1 /\ StronglySorted R l2
  /\ forall a b, In a l1 -> In b l2 -> R a b.
Proof.
  induction l1 as [|x l1 IH]; simpl; intros Hs.
  - split; [constructor|]. split; [done|]. by intros.
  - apply StronglySorted_inv in Hs as [Hs Hall].
    destruct (IH Hs) as (H1 & H2 & H12).
    rewrite Forall_forall in Hall.
    split; [|split; [done|]].
    + constructor; [done|]. apply Forall_forall. intros y Hy.
      apply Hall, list_elem_of_In, in_app_iff. left.
      by apply list_elem_of_In.
    + intros a b [<-|Ha] Hb; [|by apply H12].
      apply Hall, list_elem_of_In, in_app_iff. by right.
Qed.

Lemma sorted_skipn {A} (R : A -> A -> Prop) n (l : list A) :
  StronglySorted R l -> StronglySorted R (skipn n l).
Proof.
  intros Hs. rewrite <- (firstn_skipn n l) in Hs.
  by apply sorted_app_inv in Hs as (_ & Hs & _).
Qed.

Lemma sorted_firstn {A} (R : A -> A -> Prop) n (l : list A) :
  StronglySorted R l -> StronglySorted R (firstn n l).
Proof.
  intros Hs. rewrite <- (firstn_skipn n l) in Hs.
  by apply sorted_app_inv in Hs as (Hs & _ & _).
Qed.

Lemma latest_skipn n l :
  latest n l
  = skipn (length (order_by_created_at_asc l) - n) (order_by_created_at_asc l).
Proof. unfold latest. by rewrite firstn_rev, rev_involutive. Qed.

(** X16: the generator is given at most ten earlier messages, all of them
    of this conversation and oldest first, followed by the new message; a
    message of the conversation that is left out is not later than any
    message that is kept. *)
Theorem history_window now chatbot_uuid conversation_uuid user_message db
    conversation lc_messages db' t :
  _prepare_chat_run now chatbot_uuid conversation_uuid user_message db
  = (Ok (conversation, lc_messages), db', t) ->
  exists history,
    lc_messages = map to_langchain history ++ [("human", user_message)]
    /\ length history <= 10
    /\ StronglySorted older_first history
    /\ (forall m, In m history ->
          In m (messages db)
          /\ Message.conversation_uuid m = conversation_uuid)
    /\ (forall m left_out,
          In m history ->
          In left_out (messages db) ->
          Message.conversation_uuid left_out = conversation_uuid ->
          ~ In left_out history ->
          Message.created_at left_out <= Message.created_at m).
Proof.
  unfold _prepare_chat_run. unfold_M.
  destruct (get_chatbot chatbot_uuid db) as [b|]; simpl; [|done].
  destruct (negb _); simpl; [done|].
  change (get_conversation conversation_uuid (modify_chatbot _ _ db))
    with (get_conversation conversation_uuid db).
  destruct (get_conversation conversation_uuid db) as [c|]; simpl; [|done].
  match goal with
  | |- context [ConversationDetailsService.update_conversation_details c
                  user_message ?d] =>
      destruct (ConversationDetailsService.update_conversation_details c
                  user_message d) as [updated db3]
  end.
  intros [= _ <- _ _].
  change (messages_of conversation_uuid (modify_chatbot _ _ db))
    with (messages_of conversation_uuid db).
  set (own := messages_of conversation_uuid db).
  exists (latest 10 own). split; [done|].
  rewrite latest_skipn.
  pose proof (order_by_created_at_asc_sorted own) as Hsorted.
  pose proof (order_by_created_at_asc_perm own) as Hperm.
  set (sorted := order_by_created_at_asc own) in *.
  assert (Hown : forall m, In m own <->
                   In m (messages db)
                   /\ Message.conversation_uuid m = conversation_uuid).
  { intros m. unfold own, messages_of. by rewrite filter_In, String.eqb_eq. }
  split; [|split; [|split]].
  - rewrite length_skipn. lia.
  - by apply sorted_skipn.
  - intros m Hm. apply Hown. apply list_elem_of_In. rewrite <- Hperm.
    apply list_elem_of_In. by apply In_skipn_In in Hm.
  - intros m left_out Hm Hin Hu Hout.
    rewrite <- (firstn_skipn (length sorted - 10) sorted) in Hsorted.
    apply sorted_app_inv in Hsorted as (_ & _ & Hle).
    apply Hle; [|done].
    assert (Hl : In left_out sorted).
    { apply list_elem_of_In. rewrite Hperm. apply list_elem_of_In.
      by apply Hown. }
    rewrite <- (firstn_skipn (length sorted - 10) sorted) in Hl.
    apply in_app_iff in Hl as [Hl|Hl]; [done|]. by destruct Hout.
Qed.

(** *** One turn of the generator *)








(** *** The relay: the other branches *)





(** *** The answer outside the relay *)



(** *** Conversations and their pages *)

(** X21: [get_or_create_conversation] is idempotent: the conversation that
    one call returns, found or created, is the one every later call on the
    chatbot and the session returns, without writing. *)
Theorem get_or_create_conversation_idempotent now uuid chatbot_uuid session_id
    client_uuid now2 uuid2 client_uuid2 db c db' t :
  get_or_create_conversation now uuid chatbot_uuid session_id client_uuid db
  = (Ok c, db', t) ->
  get_or_create_conversation now2 uuid2 chatbot_uuid session_id client_uuid2
    db'
  = (Ok c, db', []).
Proof.
  unfold get_or_create_conversation, create_conversation. unfold_M.
  destruct (find _ (conversations db)) as [c0|] eqn:Hf; simpl.
  - intros [= <- <- _]. by rewrite Hf.
  - destruct (get_conversation uuid db); simpl; [done|].
    intros [= <- <- _]. simpl.
    rewrite find_app_None by done. simpl.
    by rewrite !String.eqb_refl.
Qed.


(** X23: the messages of a conversation are listed oldest first, at most
    [limit] of them after the first [offset], and only messages of this
    conversation.  The route reads only; it answers a request that names a
    session only for the session of the conversation, and a request without
    a session only for a user with access to the chatbot. *)
Theorem conversation_messages_listed conversation_uuid session_id limit offset
    current_user_access db :
  let '(r, db', t) :=
    ChatRoutes.get_conversation_messages conversation_uuid session_id limit
      offset current_user_access db in
  db' = db /\ t = []
  /\ match r with
     | Ok listed =>
         length listed
         = Nat.min limit (length (messages_of conversation_uuid db) - offset)
         /\ StronglySorted older_first listed
         /\ (forall m, In m listed ->
               In m (messages db)
               /\ Message.conversation_uuid m = conversation_uuid)
         /\ exists c,
              get_conversation conversation_uuid db = Some c
              /\ if truthy session_id
                 then session_id = Some (Conversation.session_id c)
                 else current_user_access = Some true
     | Raise e => exists code detail, e = HTTPException code detail
     end.
Proof.
  unfold ChatRoutes.get_conversation_messages. unfold_M.
  destruct (get_conversation conversation_uuid db) as [c|] eqn:Hc; simpl;
    [|eauto].
  assert (Hlisted :
    let listed :=
      firstn limit
        (skipn offset
           (order_by_created_at_asc (messages_of conversation_uuid db))) in
    length listed
    = Nat.min limit (length (messages_of conversation_uuid db) - offset)
    /\ StronglySorted older_first listed
    /\ forall m, In m listed ->
         In m (messages db) /\ Message.conversation_uuid m = conversation_uuid).
  { simpl. split; [|split].
    - rewrite length_firstn, length_skipn.
      by rewrite (Permutation_length (order_by_created_at_asc_perm _)).
    - apply sorted_firstn, sorted_skipn, order_by_created_at_asc_sorted.
    - intros m Hm.
      apply In_firstn_In, In_skipn_In, In_order_by_created_at_asc in Hm.
      unfold messages_of in Hm. apply filter_In in Hm as [Hm Hu].
      by apply String.eqb_eq in Hu. }
  destruct Hlisted as (Hlen & Hsorted & Hown).
  destruct (truthy session_id) eqn:Hsid.
  - destruct (bool_decide (Some (Conversation.session_id c) = session_id))
      eqn:Hs; simpl; [|eauto].
    apply bool_decide_eq_true in Hs.
    do 5 (split; [done|]). exists c. split; [done | by simpl].
  - destruct current_user_access as [[]|]; simpl; [| |eauto].
    + destruct (get_chatbot (Conversation.chatbot_uuid c) db); simpl;
        [|eauto].
      do 5 (split; [done|]). exists c. split; [done | by simpl].
    + destruct (get_chatbot (Conversation.chatbot_uuid c) db); simpl; eauto.
Qed.

Lemma insert_updated_desc_perm c l :
  ChatRoutes.insert_updated_desc c l ≡ₚ c :: l.
Proof.
  induction l as [|c0 l IH]; simpl; [done|].
  destruct (Nat.leb _ _); [done|].
  rewrite IH. apply Permutation_swap.
Qed.

Lemma order_by_updated_at_desc_perm l :
  ChatRoutes.order_by_updated_at_desc l ≡ₚ l.
Proof.
  induction l as [|c l IH]; simpl; [done|].
  by rewrite insert_updated_desc_perm, IH.
Qed.

Lemma insert_updated_desc_sorted c l :
  StronglySorted recently_updated_first l ->
  StronglySorted recently_updated_first (ChatRoutes.insert_updated_desc c l).
Proof.
  induction 1 as [|c0 l Hl IH Hall]; simpl.
  - repeat constructor.
  - destruct (Nat.leb_spec (Conversation.updated_at c0)
                (Conversation.updated_at c)) as [Hle|Hgt].
    + constructor; [by constructor|].
      constructor; [exact Hle|].
      eapply Forall_impl; [exact Hall|].
      unfold recently_updated_first. intros. simpl in *. lia.
    + constructor; [exact IH|].
      rewrite insert_updated_desc_perm.
      constructor; [unfold recently_updated_first; lia | exact Hall].
Qed.

Lemma order_by_updated_at_desc_sorted l :
  StronglySorted recently_updated_first (ChatRoutes.order_by_updated_at_desc l).
Proof.
  induction l as [|c l IH]; simpl; [constructor|].
  by apply insert_updated_desc_sorted.
Qed.

(** X24: a page of conversations is cut from the chatbot's conversations
    sorted by their last update, the latest first: it holds the [limit] rows
    after the first [offset], [has_more] says exactly that rows are left
    after the page, and [total] counts all rows whatever the page. *)
Theorem conversations_page chatbot_uuid status_filter limit offset db :
  let page :=
    ChatRoutes.get_conversations chatbot_uuid status_filter limit offset db in
  let rows := ChatRoutes.conversations_of chatbot_uuid status_filter db in
  exists sorted,
    sorted ≡ₚ rows
    /\ StronglySorted recently_updated_first sorted
    /\ map ChatRoutes.enriched_conversation (ChatRoutes.page_conversations page)
       = firstn limit (skipn offset sorted)
    /\ ChatRoutes.page_has_more page = Nat.ltb (offset + limit) (length rows)
    /\ ChatRoutes.page_total page = length rows.
Proof.
  simpl.
  exists (ChatRoutes.order_by_updated_at_desc
            (ChatRoutes.conversations_of chatbot_uuid status_filter db)).
  split; [apply order_by_updated_at_desc_perm|].
  split; [apply order_by_updated_at_desc_sorted|].
  unfold ChatRoutes.get_conversations. simpl.
  rewrite <- (Permutation_length
                (order_by_updated_at_desc_perm
                   (ChatRoutes.conversations_of chatbot_uuid status_filter
                      db))).
  set (sorted := ChatRoutes.order_by_updated_at_desc _).
  rewrite map_map. simpl. rewrite map_id.
  assert (Hlen : length (firstn (limit + 1) (skipn offset sorted))
                 = Nat.min (limit + 1) (length sorted - offset)).
  { by rewrite length_firstn, length_skipn. }
  split; [|split; [|done]].
  - destruct (Nat.ltb_spec limit
                (length (firstn (limit + 1) (skipn offset sorted))))
      as [Hlt|Hge].
    + rewrite firstn_firstn. f_equal. lia.
    + rewrite !firstn_all2; [done | |];
        rewrite length_skipn in *; lia.
  - rewrite Hlen.
    destruct (Nat.ltb_spec limit
                (Nat.min (limit + 1) (length sorted - offset)));
      destruct (Nat.ltb_spec (offset + limit) (length sorted)); lia.
Qed.

(** *** Topics and numbers *)

Lemma substring_length n s : String.length (String.substring 0 n s) <= n.
Proof.
  revert s. induction n as [|n IH]; intros [|a s]; simpl; try lia.
  specialize (IH s). lia.
Qed.

Lemma bump_topic_stat_same now chatbot_uuid topic db :
  TopicStat.message_count
    <$> topic_stat_of chatbot_uuid topic
          (Tasks.bump_topic_stat now chatbot_uuid topic db)
  = Some (match topic_stat_of chatbot_uuid topic db with
          | Some s => TopicStat.message_count s + 1
          | None => 1
          end).
Proof.
  unfold topic_stat_of, Tasks.bump_topic_stat.
  destruct (find _ (topic_stats db)) as [s|] eqn:Hf; simpl.
  - induction (topic_stats db) as [|s0 l IH]; simpl in *; [done|].
    destruct (String.eqb (TopicStat.chatbot_uuid s0) chatbot_uuid
              && String.eqb (TopicStat.topic s0) topic) eqn:Hs0; simpl.
    + rewrite Hs0. simpl. by injection Hf as ->.
    + rewrite Hs0. by apply IH.
  - rewrite find_app_None by done. simpl. by rewrite !String.eqb_refl.
Qed.

Lemma bump_topic_stat_other now chatbot_uuid topic chatbot_uuid' topic' db :
  (chatbot_uuid', topic') <> (chatbot_uuid, topic) ->
  topic_stat_of chatbot_uuid' topic'
    (Tasks.bump_topic_stat now chatbot_uuid topic db)
  = topic_stat_of chatbot_uuid' topic' db.
Proof.
  intros Hne. unfold topic_stat_of, Tasks.bump_topic_stat.
  destruct (find _ (topic_stats db)) as [s|] eqn:Hf; simpl.
  - clear Hf. induction (topic_stats db) as [|s0 l IH]; simpl; [done|].
    destruct (String.eqb (TopicStat.chatbot_uuid s0) chatbot_uuid
              && String.eqb (TopicStat.topic s0) topic) eqn:Hs0; simpl.
    + apply andb_true_iff in Hs0 as [Hcb Htopic].
      apply String.eqb_eq in Hcb, Htopic.
      destruct (String.eqb_spec (TopicStat.chatbot_uuid s0) chatbot_uuid');
        destruct (String.eqb_spec (TopicStat.topic s0) topic'); simpl;
        try done.
      destruct Hne. congruence.
    + by rewrite IH.
  - clear Hf. destruct (find _ (topic_stats db)) as [s'|] eqn:Hf'.
    + by rewrite (find_app_Some _ _ _ _ Hf').
    + rewrite find_app_None by done. simpl.
      destruct (String.eqb_spec chatbot_uuid chatbot_uuid');
        destruct (String.eqb_spec topic topic'); simpl; try done.
      destruct Hne. congruence.
Qed.

(** X25: a topic is counted once.  [classify_message_topic] changes nothing
    when the message is unknown, when its topic is set (the topic is then
    returned) and when the classifier gives no topic.  A new topic is the
    classifier's answer without the surrounding blanks, cut after 100
    characters and not empty; the counter of this topic for the chatbot goes
    up by one, starting at one, and no other counter changes. *)
Theorem topic_counted_once now message_id chatbot_uuid message_role content
    db :
  let '(answer, db') :=
    Tasks.classify_message_topic now message_id chatbot_uuid message_role
      content db in
  match answer with
  | None => db' = db
  | Some topic =>
      (exists m, get_message message_id db = Some m
                 /\ Message.topic m = Some topic /\ db' = db)
      \/ (topic <> "" /\ String.length topic <= 100
          /\ (exists m, get_message message_id db = Some m
                        /\ truthy (Message.topic m) = false)
          /\ TopicStat.message_count <$> topic_stat_of chatbot_uuid topic db'
             = Some (match topic_stat_of chatbot_uuid topic db with
                     | Some s => TopicStat.message_count s + 1
                     | None => 1
                     end)
          /\ forall chatbot_uuid' topic',
               (chatbot_uuid', topic') <> (chatbot_uuid, topic) ->
               topic_stat_of chatbot_uuid' topic' db'
               = topic_stat_of chatbot_uuid' topic' db)
  end.
Proof.
  unfold Tasks.classify_message_topic.
  destruct (get_message message_id db) as [m|] eqn:Hm; [|done].
  destruct (truthy (Message.topic m)) eqn:Ht.
  { destruct (Message.topic m) as [topic|] eqn:Htopic; [|done].
    left. by exists m. }
  destruct (topic_llm _ content) as [answer|]; [|done].
  destruct (String.eqb_spec (strip answer) "") as [|Hne]; [done|].
  right. split; [by apply substring_nonempty|].
  split; [apply substring_length|].
  split; [by exists m|].
  split.
  - apply (bump_topic_stat_same now chatbot_uuid _
             (modify_message (Message.id m) _ db)).
  - intros chatbot_uuid' topic' Hother.
    by apply (bump_topic_stat_other now chatbot_uuid _ chatbot_uuid' topic'
                (modify_message (Message.id m) _ db)).
Qed.

Lemma filter_length_disjoint {A} (p q r : A -> bool) (l : list A) :
  (forall x, p x = true -> q x = true -> False) ->
  (forall x, p x = true -> r x = true) ->
  (forall x, q x = true -> r x = true) ->
  length (List.filter p l) + length (List.filter q l)
  <= length (List.filter r l).
Proof.
  intros Hpq Hpr Hqr. induction l as [|x l IH]; simpl; [done|].
  specialize (Hpq x). specialize (Hpr x). specialize (Hqr x).
  destruct (p x), (q x), (r x); simpl; try lia;
    try (by destruct Hpq); try (by discriminate Hpr);
    by discriminate Hqr.
Qed.

(** X26: the analytics of a chatbot are refused with 404 exactly when the
    chatbot is unknown; otherwise the likes and the dislikes together are at
    most the messages counted, and these are at most the stored messages. *)
Theorem analytics_counts chatbot_uuid db :
  match ChatRoutes.get_chatbot_analytics chatbot_uuid db with
  | Raise e =>
      get_chatbot chatbot_uuid db = None
      /\ e = HTTPException 404 "Chatbot not found"
  | Ok a =>
      is_Some (get_chatbot chatbot_uuid db)
      /\ ChatRoutes.total_thumbs_up a + ChatRoutes.total_thumbs_down a
         <= ChatRoutes.total_messages a
      /\ ChatRoutes.total_messages a <= length (messages db)
      /\ ChatRoutes.total_conversations a
         = length (List.filter
                     (fun c => String.eqb (Conversation.chatbot_uuid c)
                                          chatbot_uuid)
                     (conversations db))
  end.
Proof.
  unfold ChatRoutes.get_chatbot_analytics.
  destruct (get_chatbot chatbot_uuid db) as [b|]; [|done]. simpl.
  split; [by eexists|]. split; [|split].
  - apply filter_length_disjoint.
    + intros m Hlike Hdislike.
      apply andb_true_iff in Hlike as [_ Hlike].
      apply andb_true_iff in Hdislike as [_ Hdislike].
      apply bool_decide_eq_true in Hlike, Hdislike. congruence.
    + intros m Hlike. apply andb_true_iff in Hlike as [-> _]. done.
    + intros m Hdislike. apply andb_true_iff in Hdislike as [-> _]. done.
  - apply List.filter_length_le.
  - by rewrite length_map.
Qed.

(** *** The REST route of a message *)


(** The provider's message reaches the caller of the REST route. *)
Example rest_error_of_upstream_failure :
  exists db',
    @ChatRoutes.send_message failing_collaborators 110 "conv-9" "bot-1"
      plain_request known_customer_db
    = (Raise (HTTPException 500 "Incorrect API key provided: sk-live-1234"),
       db',
       [TopicClassificationEnqueued 1; ClassifierInvoked "hello";
        GeneratorInvoked "hello"])
    /\ messages db'
       = [Message.mk 1 "conv-2" "user" "hello" None 110 None].
Proof. eexists. vm_compute. done. Qed.

End Chat.

Lemma history_window_witness :
  exists history,
    [("ai", "We are open from 9 to 5."); ("human", "and on Sunday?")]
    = map ChatService.to_langchain history ++ [("human", "and on Sunday?")]
    /\ length history <= 10
    /\ StronglySorted older_first history
    /\ (forall m, In m history ->
          In m (messages liked_db) /\ Message.conversation_uuid m = "conv-1")
    /\ (forall m left_out,
          In m history ->
          In left_out (messages liked_db) ->
          Message.conversation_uuid left_out = "conv-1" ->
          ~ In left_out history ->
          Message.created_at left_out <= Message.created_at m).
Proof.
  eapply (@history_window sample_collaborators 105 "bot-1" "conv-1"
            "and on Sunday?" liked_db).
  vm_compute. reflexivity.
Defined.





Lemma get_or_create_conversation_idempotent_witness :
  ChatService.get_or_create_conversation 120 "conv-8"
    "bot-1" "session-z" None
    (ChatService.get_or_create_conversation 110
       "conv-7" "bot-1" "session-z" (Some "client-7") sample_db).1.2
  = (Ok (Conversation.mk "conv-7" "bot-1" (Some "Anonymous") None None
           "session-z" (Some "client-7") "active" "ai" None 110 110),
     (ChatService.get_or_create_conversation 110
        "conv-7" "bot-1" "session-z" (Some "client-7") sample_db).1.2,
     []).
Proof.
  exact (get_or_create_conversation_idempotent 110
           "conv-7" "bot-1" "session-z" (Some "client-7") 120 "conv-8" None
           sample_db _ _ _ eq_refl).
Defined.

